(** * Payment transaction lifecycle: the payment controller and its models

    A shallow embedding of [controllers/paymentController.js] together with
    the [Transaction], [Settings] and [Order] schemas it works on.  The
    handlers are written once, as programs over the awaited database calls,
    the clock and the random source; they are then run either one request
    at a time or interleaved at their awaits.  Around them: the settings
    controller, in its two copies, which writes the settings the payment
    controller reads, and the validation middleware for payment
    requests. *)

From Stdlib Require Import ZArith List Ascii String Lia Bool.
From Stdlib Require Import Floats.SpecFloat.
From stdpp Require Import base option strings gmap pretty.

Import ListNotations.
Local Open Scope string_scope.
Local Open Scope Z_scope.

(** ** SHA-256 and HMAC, as Node's [crypto] module computes them

    Words are 32-bit unsigned integers held in [Z]; every addition is
    reduced modulo 2^32 where it is made.  Messages are lists of octets. *)

Module Sha256.

Definition wordmod : Z := 2 ^ 32.

Definition add32 (x y : Z) : Z := (x + y) mod wordmod.

Definition rotr (n x : Z) : Z :=
  Z.lor (Z.shiftr x n) ((Z.shiftl x (32 - n)) mod wordmod).

Definition not32 (x : Z) : Z := wordmod - 1 - x.

Definition Ch (x y z : Z) : Z :=
  Z.lxor (Z.land x y) (Z.land (not32 x) z).

Definition Maj (x y z : Z) : Z :=
  Z.lxor (Z.lxor (Z.land x y) (Z.land x z)) (Z.land y z).

Definition bigSigma0 (x : Z) : Z :=
  Z.lxor (Z.lxor (rotr 2 x) (rotr 13 x)) (rotr 22 x).

Definition bigSigma1 (x : Z) : Z :=
  Z.lxor (Z.lxor (rotr 6 x) (rotr 11 x)) (rotr 25 x).

Definition smallSigma0 (x : Z) : Z :=
  Z.lxor (Z.lxor (rotr 7 x) (rotr 18 x)) (Z.shiftr x 3).

Definition smallSigma1 (x : Z) : Z :=
  Z.lxor (Z.lxor (rotr 17 x) (rotr 19 x)) (Z.shiftr x 10).

Definition primes : list Z :=
  [ 2; 3; 5; 7; 11; 13; 17; 19; 23; 29; 31; 37; 41; 43; 47; 53;
    59; 61; 67; 71; 73; 79; 83; 89; 97; 101; 103; 107; 109; 113; 127; 131;
    137; 139; 149; 151; 157; 163; 167; 173; 179; 181; 191; 193; 197; 199;
    211; 223; 227; 229; 233; 239; 241; 251; 257; 263; 269; 271; 277; 281;
    283; 293; 307; 311 ].

(** The integer cube root, found bit by bit from the top. *)
Fixpoint cube_root (bits : nat) (n r : Z) : Z :=
  match bits with
  | O => r
  | S b =>
      let c := r + 2 ^ Z.of_nat b in
      cube_root b n (if c * c * c <=? n then c else r)
  end.

(** The round constants: the first 32 bits of the fractional part of the
    cube root of each of the first 64 primes. *)
Definition K : list Z :=
  Eval vm_compute in
    map (fun p => cube_root 36 (p * 2 ^ 96) 0 mod wordmod) primes.

(** The initial hash value: the same of the square roots of the first
    eight primes. *)
Definition H0 : list Z :=
  Eval vm_compute in
    map (fun p => Z.sqrt (p * 2 ^ 64) mod wordmod) (firstn 8 primes).

(** Big-endian octets of a value, [n] octets wide. *)
Fixpoint be_bytes (n : nat) (v : Z) : list Z :=
  match n with
  | O => []
  | S n' => Z.shiftr v (8 * Z.of_nat n') mod 256 :: be_bytes n' v
  end.

Definition be_word (bs : list Z) : Z :=
  fold_left (fun acc b => acc * 256 + b) bs 0.

(** Padding: the bit 1, zeros up to 56 modulo 64, then the bit length
    on eight octets. *)
Definition pad (msg : list Z) : list Z :=
  let len := Z.of_nat (length msg) in
  let zeros := Z.to_nat ((55 - len) mod 64) in
  (msg ++ [128] ++ repeat 0 zeros ++ be_bytes 8 (8 * len))%list.

Fixpoint words_of (n : nat) (bs : list Z) : list Z :=
  match n with
  | O => []
  | S n' => be_word (firstn 4 bs) :: words_of n' (skipn 4 bs)
  end.

(** The message schedule is kept newest word first: the head is W(t-1). *)
Fixpoint extend (n : nat) (rev_w : list Z) : list Z :=
  match n with
  | O => rev_w
  | S n' =>
      let w2 := nth 1 rev_w 0 in
      let w7 := nth 6 rev_w 0 in
      let w15 := nth 14 rev_w 0 in
      let w16 := nth 15 rev_w 0 in
      extend n'
        (add32 (add32 (smallSigma1 w2) w7) (add32 (smallSigma0 w15) w16)
           :: rev_w)
  end.

Definition schedule (block : list Z) : list Z :=
  rev (extend 48 (rev (words_of 16 block))).

Record regs := Regs { ra : Z; rb : Z; rc : Z; rd : Z;
                      re : Z; rf : Z; rg : Z; rh : Z }.

Definition round (s : regs) (kw : Z * Z) : regs :=
  let t1 := add32 (add32 (add32 (rh s) (bigSigma1 (re s)))
                     (add32 (Ch (re s) (rf s) (rg s)) (fst kw))) (snd kw) in
  let t2 := add32 (bigSigma0 (ra s)) (Maj (ra s) (rb s) (rc s)) in
  Regs (add32 t1 t2) (ra s) (rb s) (rc s) (add32 (rd s) t1) (re s) (rf s) (rg s).

Definition regs_of (h : list Z) : regs :=
  Regs (nth 0 h 0) (nth 1 h 0) (nth 2 h 0) (nth 3 h 0)
       (nth 4 h 0) (nth 5 h 0) (nth 6 h 0) (nth 7 h 0).

Definition list_of (s : regs) : list Z :=
  [ra s; rb s; rc s; rd s; re s; rf s; rg s; rh s].

Definition compress (h : list Z) (block : list Z) : list Z :=
  let s := fold_left round (combine K (schedule block)) (regs_of h) in
  map (fun p => add32 (fst p) (snd p)) (combine h (list_of s)).

Fixpoint blocks (n : nat) (h : list Z) (bs : list Z) : list Z :=
  match n with
  | O => h
  | S n' => blocks n' (compress h (firstn 64 bs)) (skipn 64 bs)
  end.

Definition digest (msg : list Z) : list Z :=
  let p := pad msg in
  flat_map (be_bytes 4) (blocks (Nat.div (length p) 64) H0 p).

End Sha256.

Module Hmac.

Definition block_size : nat := 64.

Definition normalise_key (key : list Z) : list Z :=
  let k := if Nat.ltb block_size (length key) then Sha256.digest key else key in
  (k ++ repeat 0 (block_size - length k))%list.

Definition hmac_sha256 (key msg : list Z) : list Z :=
  let k := normalise_key key in
  let ipad := map (Z.lxor 0x36) k in
  let opad := map (Z.lxor 0x5c) k in
  Sha256.digest (opad ++ Sha256.digest (ipad ++ msg))%list.

End Hmac.

(** ** Octets, strings and hexadecimal *)

Module Bytes.

Definition of_string (s : string) : list Z :=
  map (fun c => Z.of_N (N_of_ascii c)) (list_ascii_of_string s).

Definition hex_digit (d : Z) : ascii :=
  ascii_of_N (Z.to_N (if d <? 10 then 48 + d else 87 + d)).

Definition hex (bs : list Z) : string :=
  string_of_list_ascii
    (flat_map (fun b => [hex_digit (b / 16); hex_digit (b mod 16)]) bs).

End Bytes.

(** ** JavaScript values the controller computes with *)

Module Js.

(** A Number is an IEEE 754 binary64 value. *)
Definition number : Type := spec_float.

Definition prec : Z := 53.
Definition emax : Z := 1024.

Definition NaN : number := S754_nan.

Definition of_Z (z : Z) : number := binary_normalize prec emax z 0 false.

Definition mul (x y : number) : number := SFmul prec emax x y.
Definition add (x y : number) : number := SFadd prec emax x y.

Definition ltb (x y : number) : bool := SFltb x y.
Definition leb (x y : number) : bool := SFleb x y.

(** [Math.floor]: the greatest integral Number not above the argument. *)
Definition Math_floor (x : number) : number :=
  match x with
  | S754_finite s m e =>
      if 0 <=? e then x
      else
        let q := Z.shiftr (Zpos m) (- e) in
        let exact := Z.shiftl q (- e) =? Zpos m in
        if s then binary_normalize prec emax (if exact then - q else - (q + 1)) 0 true
        else binary_normalize prec emax q 0 false
  | _ => x
  end.

(** The decimal [m * 10^e], rounded to the nearest Number, ties to even.
    A negative [e] divides with enough extra bits that the sticky bit
    falls below the rounding position. *)
Definition of_decimal (neg : bool) (m e : Z) : number :=
  match m with
  | Zpos _ =>
      if 0 <=? e then
        binary_normalize prec emax (if neg then - (m * 10 ^ e) else m * 10 ^ e) 0 neg
      else
        let d := 10 ^ (- e) in
        let s := 64 + Z.log2_up d in
        let q := (m * 2 ^ s) / d in
        let sticky := if (m * 2 ^ s) mod d =? 0 then 0 else 1 in
        let mant := 2 * q + sticky in
        binary_normalize prec emax (if neg then - mant else mant) (- s - 1) neg
  | _ => S754_zero neg
  end.

(** *** Strings *)

Definition code (c : ascii) : Z := Z.of_N (N_of_ascii c).
Definition char (z : Z) : ascii := ascii_of_N (Z.to_N z).

Definition is_digit (c : ascii) : bool := (48 <=? code c) && (code c <=? 57).

(** White space as [trim] and [parseFloat] strip it: the characters
    WhiteSpace and LineTerminator of the language.  A string is held as
    the octets of its UTF-8 form, so the ones beyond ASCII are two or
    three octets long. *)

(** U+0009 to U+000D and U+0020. *)
Definition is_space (c : ascii) : bool :=
  let n := code c in (n =? 32) || ((9 <=? n) && (n <=? 13)).

(** U+00A0. *)
Definition is_space2 (a b : ascii) : bool :=
  (code a =? 194) && (code b =? 160).

(** U+1680, U+2000 to U+200A, U+2028, U+2029, U+202F, U+205F, U+3000
    and U+FEFF. *)
Definition is_space3 (a b c : ascii) : bool :=
  let x := code a in
  let y := code b in
  let z := code c in
  ((x =? 225) && (y =? 154) && (z =? 128))
  || ((x =? 226) && (y =? 128)
      && (((128 <=? z) && (z <=? 138)) || (z =? 168) || (z =? 169) || (z =? 175)))
  || ((x =? 226) && (y =? 129) && (z =? 159))
  || ((x =? 227) && (y =? 128) && (z =? 128))
  || ((x =? 239) && (y =? 187) && (z =? 191)).

(** The white space at the head of a list of octets is dropped; [sp2]
    and [sp3] say which two and three octets are a character of white
    space, in the order the list has them. *)
Fixpoint strip (sp2 : ascii -> ascii -> bool) (sp3 : ascii -> ascii -> ascii -> bool)
    (cs : list ascii) : list ascii :=
  match cs with
  | a :: cs1 =>
      if is_space a then strip sp2 sp3 cs1
      else
        match cs1 with
        | b :: cs2 =>
            if sp2 a b then strip sp2 sp3 cs2
            else
              match cs2 with
              | c :: cs3 => if sp3 a b c then strip sp2 sp3 cs3 else cs
              | [] => cs
              end
        | [] => cs
        end
  | [] => []
  end.

Definition drop_space (cs : list ascii) : list ascii := strip is_space2 is_space3 cs.

(** The same on a string read back to front. *)
Definition drop_space_back (cs : list ascii) : list ascii :=
  strip (fun b a => is_space2 a b) (fun c b a => is_space3 a b c) cs.

Definition trim (s : string) : string :=
  string_of_list_ascii
    (rev (drop_space_back (rev (drop_space (list_ascii_of_string s))))).

(** [toLowerCase] on the letters A to Z.  The octets of a character
    beyond ASCII are left as they are; the handlers compare the result
    with names made of ASCII letters only, and of the characters beyond
    ASCII only U+0130 and U+212A have an ASCII letter in their lower
    case, [i] and [k], which none of those names holds. *)
Definition lower (c : ascii) : ascii :=
  let n := code c in
  if (65 <=? n) && (n <=? 90) then char (n + 32) else c.

Definition toLowerCase (s : string) : string :=
  string_of_list_ascii (map lower (list_ascii_of_string s)).

(** [arr.includes(x)] on an array of strings. *)
Definition includes (arr : list string) (x : string) : bool :=
  existsb (String.eqb x) arr.

(** *** [parseFloat] *)

Fixpoint take_digits (cs : list ascii) : list Z * list ascii :=
  match cs with
  | c :: cs' =>
      if is_digit c then
        let (ds, rest) := take_digits cs' in (code c - 48 :: ds, rest)
      else ([], cs)
  | [] => ([], [])
  end.

Definition digits_value (ds : list Z) : Z :=
  fold_left (fun acc d => 10 * acc + d) ds 0.

Definition take_sign (cs : list ascii) : bool * list ascii :=
  match cs with
  | "-"%char :: cs' => (true, cs')
  | "+"%char :: cs' => (false, cs')
  | _ => (false, cs)
  end.

Fixpoint starts_with (p cs : list ascii) : bool :=
  match p, cs with
  | [], _ => true
  | a :: p', c :: cs' => Ascii.eqb a c && starts_with p' cs'
  | _ :: _, [] => false
  end.

Definition take_exponent (cs : list ascii) : Z :=
  match cs with
  | c :: cs' =>
      if Ascii.eqb c "e" || Ascii.eqb c "E" then
        let (neg, cs'') := take_sign cs' in
        match fst (take_digits cs'') with
        | [] => 0
        | ds => if neg then - digits_value ds else digits_value ds
        end
      else 0
  | [] => 0
  end.

(** The longest prefix that is a decimal literal, after leading white
    space; [NaN] when there is none. *)
Definition parseFloat_string (s : string) : number :=
  let (neg, cs) := take_sign (drop_space (list_ascii_of_string s)) in
  if starts_with (list_ascii_of_string "Infinity") cs then S754_infinity neg
  else
    let (ip, cs1) := take_digits cs in
    let (fp, cs2) :=
      match cs1 with
      | "."%char :: cs1' => take_digits cs1'
      | _ => ([], cs1)
      end in
    match (ip ++ fp)%list with
    | [] => NaN
    | ds => of_decimal neg (digits_value ds)
              (take_exponent cs2 - Z.of_nat (length fp))
    end.

(** A field of a parsed JSON body, as far as the controller reads it. *)
Inductive value :=
| Undefined
| Num (x : number)
| Str (s : string).

(** [parseFloat(v)] first turns [v] into a string; a Number survives
    that round trip, except that the sign of zero is lost. *)
Definition parseFloat (v : value) : number :=
  match v with
  | Undefined => NaN
  | Num (S754_zero _) => S754_zero false
  | Num x => x
  | Str s => parseFloat_string s
  end.

(** [!v] is true on [undefined], [0], [NaN] and the empty string. *)
Definition falsy (v : value) : bool :=
  match v with
  | Undefined => true
  | Num (S754_zero _) | Num S754_nan => true
  | Num _ => false
  | Str s => String.eqb s ""
  end.

(** [!s] for a field that is a string when present. *)
Definition falsy_str (s : option string) : bool :=
  match s with
  | None => true
  | Some s => String.eqb s ""
  end.

End Js.

(** ** Node's encoders: base64, percent-encoding, JSON text *)

Module Node.

Definition is_alnum (c : ascii) : bool :=
  let n := Js.code c in
  ((48 <=? n) && (n <=? 57)) || ((65 <=? n) && (n <=? 90))
  || ((97 <=? n) && (n <=? 122)).

Definition HEX (d : Z) : ascii :=
  Js.char (if d <? 10 then 48 + d else 55 + d).

Definition percent (c : ascii) : list ascii :=
  ["%"%char; HEX (Js.code c / 16); HEX (Js.code c mod 16)].

Definition one_of (set : string) (c : ascii) : bool :=
  existsb (Ascii.eqb c) (list_ascii_of_string set).

(** [encodeURIComponent]: letters, digits and [-_.!~*'()] stay. *)
Definition encodeURIComponent (s : string) : string :=
  string_of_list_ascii
    (flat_map (fun c => if is_alnum c || one_of "-_.!~*'()" c then [c]
                        else percent c)
       (list_ascii_of_string s)).

(** The form-urlencoded serialiser behind [URLSearchParams.toString]:
    letters, digits and [*-._] stay, a space becomes a plus sign. *)
Definition form_encode (s : string) : string :=
  string_of_list_ascii
    (flat_map (fun c => if is_alnum c || one_of "*-._" c then [c]
                        else if Ascii.eqb c " " then ["+"%char]
                        else percent c)
       (list_ascii_of_string s)).

Fixpoint URLSearchParams_toString (ps : list (string * string)) : string :=
  match ps with
  | [] => ""
  | [(k, v)] => form_encode k ++ "=" ++ form_encode v
  | (k, v) :: rest =>
      form_encode k ++ "=" ++ form_encode v ++ "&" ++ URLSearchParams_toString rest
  end.

Definition b64_char (n : Z) : ascii :=
  Js.char (if n <? 26 then 65 + n
           else if n <? 52 then 71 + n
           else if n <? 62 then n - 4
           else if n =? 62 then 43 else 47).

Fixpoint b64_groups (fuel : nat) (bs : list Z) : list ascii :=
  match fuel with
  | O => []
  | S fuel' =>
      match bs with
      | [] => []
      | [a] =>
          [b64_char (a / 4); b64_char (a mod 4 * 16); "="%char; "="%char]
      | [a; b] =>
          [b64_char (a / 4); b64_char (a mod 4 * 16 + b / 16);
           b64_char (b mod 16 * 4); "="%char]
      | a :: b :: c :: rest =>
          b64_char (a / 4) :: b64_char (a mod 4 * 16 + b / 16)
            :: b64_char (b mod 16 * 4 + c / 64) :: b64_char (c mod 64)
            :: b64_groups fuel' rest
      end
  end.

(** [Buffer.from(s).toString('base64')]. *)
Definition base64 (s : string) : string :=
  let bs := Bytes.of_string s in
  string_of_list_ascii (b64_groups (S (length bs)) bs).

(** The object literals the controller hands to [JSON.stringify]. *)
#[warnings="-register-all"]
Inductive Json :=
| JNull
| JBool (b : bool)
| JNum (x : Js.number)
| JStr (s : string)
| JObj (fields : list (string * Json)).

Definition json_escape (c : ascii) : list ascii :=
  let n := Js.code c in
  if n =? 34 then ["\"%char; c]
  else if n =? 92 then ["\"%char; c]
  else if n =? 8 then ["\"%char; "b"%char]
  else if n =? 12 then ["\"%char; "f"%char]
  else if n =? 10 then ["\"%char; "n"%char]
  else if n =? 13 then ["\"%char; "r"%char]
  else if n =? 9 then ["\"%char; "t"%char]
  else if n <? 32 then
    ["\"%char; "u"%char; "0"%char; "0"%char;
     Bytes.hex_digit (n / 16); Bytes.hex_digit (n mod 16)]
  else [c].

Definition json_quote (s : string) : string :=
  String (Js.char 34)
    (string_of_list_ascii (flat_map json_escape (list_ascii_of_string s))
     ++ String (Js.char 34) "").

Section Stringify.

(** [Number::toString] in base ten, supplied by the host. *)
Variable number_text : Js.number -> string.

Fixpoint JSON_stringify (j : Json) : string :=
  match j with
  | JNull => "null"
  | JBool b => if b then "true" else "false"
  | JNum x =>
      match x with
      | S754_nan | S754_infinity _ => "null"
      | _ => number_text x
      end
  | JStr s => json_quote s
  | JObj fields =>
      "{" ++
      (fix members (fs : list (string * Json)) : string :=
         match fs with
         | [] => ""
         | p :: rest =>
             json_quote (fst p) ++ ":" ++ JSON_stringify (snd p)
             ++ match rest with [] => "" | _ => "," ++ members rest end
         end) fields
      ++ "}"
  end.

End Stringify.

(** [obj.a.b]: the member reached by a path of keys. *)
Fixpoint member (path : list string) (j : Json) : option Json :=
  match path with
  | [] => Some j
  | k :: path' =>
      match j with
      | JObj fields =>
          match find (fun p => String.eqb (fst p) k) fields with
          | Some p => member path' (snd p)
          | None => None
          end
      | _ => None
      end
  end.

(** [haystack] contains [needle]: a regular expression that is a plain
    word, tested with [test]. *)
Fixpoint contains (needle : list ascii) (haystack : list ascii) : bool :=
  Js.starts_with needle haystack
  || match haystack with
     | [] => false
     | _ :: rest => contains needle rest
     end.

Definition test (word text : string) : bool :=
  contains (list_ascii_of_string word) (list_ascii_of_string text).

End Node.

(** ** The host: what the process gets from its environment

    [process.env.MERCHANT_SECRET], read once when the controller module is
    loaded, and [Number::toString], which the controller reaches through
    template literals, [toString(36)] and [JSON.stringify]. *)

Record Host := {
  env_MERCHANT_SECRET : option string;
  Number_toString : Z -> Js.number -> string
}.

(** ** The models: [Setting.js], [Transaction.js], [Order.js] *)

Definition ObjectId : Type := string.

Record Settings := {
  merchantUPI : string;
  merchantSecret : string;
  siteName : string;
  siteEmail : string;
  settingsVersion : Z
}.

(** [Settings.create({})]: every path takes its schema default. *)
Definition Settings_defaults : Settings := {|
  merchantUPI := "mstandwafuelcentre@sbi";
  merchantSecret := "my_super_secret_key";
  siteName := "My E-Commerce Store";
  siteEmail := "admin@example.com";
  settingsVersion := 1
|}.

(** Times are milliseconds since the epoch, as [Date] holds them. *)
Record Transaction := {
  tid : string;
  userId : option ObjectId;
  orderId : option ObjectId;
  amount : Js.number;
  payType : string;
  upi : string;
  status : string;
  payload : string;
  signature : string;
  redirectUrl : string;
  note : string;
  upiRef : option string;
  expires : Z;
  completedAt : option Z;
  errorMessage : option string;
  createdAt : Z;
  updatedAt : Z
}.

Definition set_status (v : string) (t : Transaction) : Transaction :=
  {| tid := tid t; userId := userId t; orderId := orderId t;
     amount := amount t; payType := payType t; upi := upi t;
     status := v;
     payload := payload t; signature := signature t;
     redirectUrl := redirectUrl t; note := note t; upiRef := upiRef t;
     expires := expires t; completedAt := completedAt t;
     errorMessage := errorMessage t;
     createdAt := createdAt t; updatedAt := updatedAt t |}.

Definition set_completedAt (v : option Z) (t : Transaction) : Transaction :=
  {| tid := tid t; userId := userId t; orderId := orderId t;
     amount := amount t; payType := payType t; upi := upi t;
     status := status t;
     payload := payload t; signature := signature t;
     redirectUrl := redirectUrl t; note := note t; upiRef := upiRef t;
     expires := expires t; completedAt := v;
     errorMessage := errorMessage t;
     createdAt := createdAt t; updatedAt := updatedAt t |}.

Definition set_upiRef (v : option string) (t : Transaction) : Transaction :=
  {| tid := tid t; userId := userId t; orderId := orderId t;
     amount := amount t; payType := payType t; upi := upi t;
     status := status t;
     payload := payload t; signature := signature t;
     redirectUrl := redirectUrl t; note := note t; upiRef := v;
     expires := expires t; completedAt := completedAt t;
     errorMessage := errorMessage t;
     createdAt := createdAt t; updatedAt := updatedAt t |}.

Definition set_updatedAt (v : Z) (t : Transaction) : Transaction :=
  {| tid := tid t; userId := userId t; orderId := orderId t;
     amount := amount t; payType := payType t; upi := upi t;
     status := status t;
     payload := payload t; signature := signature t;
     redirectUrl := redirectUrl t; note := note t; upiRef := upiRef t;
     expires := expires t; completedAt := completedAt t;
     errorMessage := errorMessage t;
     createdAt := createdAt t; updatedAt := v |}.

(** [timestamps: true]: a new document is stamped when it is saved. *)
Definition stamp_new (now : Z) (t : Transaction) : Transaction :=
  {| tid := tid t; userId := userId t; orderId := orderId t;
     amount := amount t; payType := payType t; upi := upi t;
     status := status t;
     payload := payload t; signature := signature t;
     redirectUrl := redirectUrl t; note := note t; upiRef := upiRef t;
     expires := expires t; completedAt := completedAt t;
     errorMessage := errorMessage t;
     createdAt := now; updatedAt := now |}.

(** An order, path by path as its schema declares it; a path the stored
    document lacks is [None].  [status] and [paymentStatus], the two
    paths the payment controller assigns, have defaults and are always
    there.  The timestamps of an order are left out: no handler reads
    them.  So is the hook that numbers an order before it is saved: it
    acts on new documents, and the payment controller saves loaded
    ones. *)
Record Address := {
  address_fullName : option string;
  address_phone : option string;
  address_pincode : option string;
  address_address : option string;
  address_city : option string;
  address_state : option string
}.

Record Product := {
  product_productId : option string;
  product_name : option string;
  product_brand : option string;
  product_weight : option string;
  product_image : option string;
  product_category : option string;
  product_mrp : option Js.number;
  product_dmartPrice : option Js.number;
  product_discount : option Js.number;
  product_discountPercent : option Js.number;
  product_quantity : option Js.number;
  product_totalPrice : option Js.number;
  product_isVeg : option bool;
  product_rating : option Js.number
}.

Record Summary := {
  summary_totalItems : option Js.number;
  summary_subtotal : option Js.number;
  summary_totalMRP : option Js.number;
  summary_totalSavings : option Js.number;
  summary_couponDiscount : option Js.number;
  summary_deliveryFee : option Js.number;
  summary_finalTotal : option Js.number
}.

Record Coupon := {
  coupon_code : option string;
  coupon_discount : option Js.number;
  coupon_discountType : option string
}.

Record Order := {
  order_userId : option string;
  order_orderNumber : option string;
  order_deliveryAddress : Address;
  order_products : list Product;
  order_orderSummary : Summary;
  order_couponUsed : Coupon;
  order_status : string;
  order_paymentMethod : option string;
  order_paymentStatus : string;
  order_dataSource : option string
}.

Definition set_order_status (v : string) (o : Order) : Order :=
  {| order_userId := order_userId o; order_orderNumber := order_orderNumber o;
     order_deliveryAddress := order_deliveryAddress o;
     order_products := order_products o;
     order_orderSummary := order_orderSummary o;
     order_couponUsed := order_couponUsed o;
     order_status := v;
     order_paymentMethod := order_paymentMethod o;
     order_paymentStatus := order_paymentStatus o;
     order_dataSource := order_dataSource o |}.

Definition set_order_paymentStatus (v : string) (o : Order) : Order :=
  {| order_userId := order_userId o; order_orderNumber := order_orderNumber o;
     order_deliveryAddress := order_deliveryAddress o;
     order_products := order_products o;
     order_orderSummary := order_orderSummary o;
     order_couponUsed := order_couponUsed o;
     order_status := order_status o;
     order_paymentMethod := order_paymentMethod o;
     order_paymentStatus := v;
     order_dataSource := order_dataSource o |}.

Definition set_order_top (userId orderNumber paymentMethod dataSource : option string)
    (o : Order) : Order :=
  {| order_userId := userId; order_orderNumber := orderNumber;
     order_deliveryAddress := order_deliveryAddress o;
     order_products := order_products o;
     order_orderSummary := order_orderSummary o;
     order_couponUsed := order_couponUsed o;
     order_status := order_status o;
     order_paymentMethod := paymentMethod;
     order_paymentStatus := order_paymentStatus o;
     order_dataSource := dataSource |}.

(** What a rejected [save] throws; [error.message] is its text. *)
Inductive Error :=
| ValidationError (paths : list string)
| DuplicateKeyError (path : string).

(** *** Schema validation *)

Definition Transaction_status_enum : list string :=
  ["pending"; "success"; "failed"; "expired"].

Definition Transaction_payType_enum : list string := ["phonepe"; "paytm"].

Definition is_NaN (x : Js.number) : bool :=
  match x with S754_nan => true | _ => false end.

Definition failing (path : string) (ok : bool) : list string :=
  if ok then [] else [path].

Definition is_hex (c : ascii) : bool :=
  let n := Js.code c in
  ((48 <=? n) && (n <=? 57)) || ((65 <=? n) && (n <=? 70))
  || ((97 <=? n) && (n <=? 102)).

(** A string casts to an ObjectId when it is 24 hexadecimal digits. *)
Definition is_ObjectId (s : string) : bool :=
  (Z.of_nat (String.length s) =? 24) && forallb is_hex (list_ascii_of_string s).

Definition casts_to_ObjectId (v : option ObjectId) : bool :=
  match v with
  | None => true
  | Some s => is_ObjectId s
  end.

(** The paths of a new transaction that fail: [required] on an empty
    string, the casts to ObjectId and of [NaN] to Number, [min: 0], and
    the enums. *)
Definition Transaction_validate (t : Transaction) : list string :=
  (failing "tid" (negb (String.eqb (tid t) ""))
   ++ failing "userId" (casts_to_ObjectId (userId t))
   ++ failing "orderId" (casts_to_ObjectId (orderId t))
   ++ failing "amount" (negb (is_NaN (amount t)) && Js.leb (Js.of_Z 0) (amount t))
   ++ failing "payType" (Js.includes Transaction_payType_enum (payType t))
   ++ failing "upi" (negb (String.eqb (upi t) ""))
   ++ failing "status" (Js.includes Transaction_status_enum (status t)))%list.

(** The validators of the order schema.  [required] fails on a path
    that is absent and, for a string, on the empty string; a Number that
    is [NaN] does not cast; [enum], [min] and [max] let an absent path
    through. *)
Definition required_string (v : option string) : bool := negb (Js.falsy_str v).

Definition casts_to_Number (v : option Js.number) : bool :=
  match v with
  | Some x => negb (is_NaN x)
  | None => true
  end.

Definition required_number (v : option Js.number) : bool :=
  match v with
  | Some x => negb (is_NaN x)
  | None => false
  end.

Definition in_enum (values : list string) (v : option string) : bool :=
  match v with
  | Some s => Js.includes values s
  | None => true
  end.

Definition at_least (lo : Z) (v : option Js.number) : bool :=
  match v with
  | Some x => Js.leb (Js.of_Z lo) x
  | None => true
  end.

Definition at_most (hi : Z) (v : option Js.number) : bool :=
  match v with
  | Some x => Js.leb x (Js.of_Z hi)
  | None => true
  end.

Definition Order_status_enum : list string :=
  ["pending"; "confirmed"; "processing"; "shipped"; "delivered"; "cancelled"].

Definition Order_paymentMethod_enum : list string := ["cod"; "online"].

Definition Order_paymentStatus_enum : list string := ["pending"; "paid"; "failed"].

Definition Order_dataSource_enum : list string := ["cart"; "buyNow"].

Definition Coupon_discountType_enum : list string := ["percentage"; "fixed"].

Definition Address_validate (a : Address) : list string :=
  (failing "deliveryAddress.fullName" (required_string (address_fullName a))
   ++ failing "deliveryAddress.phone" (required_string (address_phone a))
   ++ failing "deliveryAddress.pincode" (required_string (address_pincode a))
   ++ failing "deliveryAddress.address" (required_string (address_address a))
   ++ failing "deliveryAddress.city" (required_string (address_city a))
   ++ failing "deliveryAddress.state" (required_string (address_state a)))%list.

(** The product at index [i] of the array. *)
Definition Product_validate (i : nat) (p : Product) : list string :=
  let path name := "products." ++ pretty i ++ "." ++ name in
  (failing (path "productId") (required_string (product_productId p))
   ++ failing (path "name") (required_string (product_name p))
   ++ failing (path "brand") (required_string (product_brand p))
   ++ failing (path "weight") (required_string (product_weight p))
   ++ failing (path "mrp") (required_number (product_mrp p))
   ++ failing (path "dmartPrice") (required_number (product_dmartPrice p))
   ++ failing (path "discount") (casts_to_Number (product_discount p))
   ++ failing (path "discountPercent") (casts_to_Number (product_discountPercent p))
   ++ failing (path "quantity")
        (required_number (product_quantity p) && at_least 1 (product_quantity p))
   ++ failing (path "totalPrice") (required_number (product_totalPrice p))
   ++ failing (path "rating")
        (casts_to_Number (product_rating p) && at_least 0 (product_rating p)
         && at_most 5 (product_rating p)))%list.

Definition Summary_validate (m : Summary) : list string :=
  (failing "orderSummary.totalItems" (required_number (summary_totalItems m))
   ++ failing "orderSummary.subtotal" (required_number (summary_subtotal m))
   ++ failing "orderSummary.totalMRP" (required_number (summary_totalMRP m))
   ++ failing "orderSummary.totalSavings" (required_number (summary_totalSavings m))
   ++ failing "orderSummary.couponDiscount" (casts_to_Number (summary_couponDiscount m))
   ++ failing "orderSummary.deliveryFee" (required_number (summary_deliveryFee m))
   ++ failing "orderSummary.finalTotal" (required_number (summary_finalTotal m)))%list.

Definition Coupon_validate (c : Coupon) : list string :=
  (failing "couponUsed.discount" (casts_to_Number (coupon_discount c))
   ++ failing "couponUsed.discountType"
        (in_enum Coupon_discountType_enum (coupon_discountType c)))%list.

(** The paths of an order that fail. *)
Definition Order_validate (o : Order) : list string :=
  (failing "orderNumber" (required_string (order_orderNumber o))
   ++ Address_validate (order_deliveryAddress o)
   ++ concat (imap Product_validate (order_products o))
   ++ Summary_validate (order_orderSummary o)
   ++ Coupon_validate (order_couponUsed o)
   ++ failing "status" (Js.includes Order_status_enum (order_status o))
   ++ failing "paymentMethod" (in_enum Order_paymentMethod_enum (order_paymentMethod o))
   ++ failing "paymentStatus"
        (Js.includes Order_paymentStatus_enum (order_paymentStatus o))
   ++ failing "dataSource"
        (required_string (order_dataSource o)
         && in_enum Order_dataSource_enum (order_dataSource o)))%list.

(** [save] on a loaded document validates the whole document and sends
    the modified paths only. *)
Definition Transaction_merge (stored loaded cur : Transaction) : Transaction :=
  let t1 := if decide (status cur = status loaded) then stored
            else set_status (status cur) stored in
  let t2 := if decide (completedAt cur = completedAt loaded) then t1
            else set_completedAt (completedAt cur) t1 in
  if decide (upiRef cur = upiRef loaded) then t2
  else set_upiRef (upiRef cur) t2.

Definition Transaction_modified (loaded cur : Transaction) : bool :=
  negb (bool_decide (status cur = status loaded)
        && bool_decide (completedAt cur = completedAt loaded)
        && bool_decide (upiRef cur = upiRef loaded)).

Definition Order_merge (stored loaded cur : Order) : Order :=
  let o1 := if decide (order_status cur = order_status loaded) then stored
            else set_order_status (order_status cur) stored in
  if decide (order_paymentStatus cur = order_paymentStatus loaded) then o1
  else set_order_paymentStatus (order_paymentStatus cur) o1.

(** [findByIdAndUpdate] with an update that names paths of the top level
    and gives them strings: a path the schema does not declare is
    dropped, and no validator is run. *)
Fixpoint Order_apply (update : list (string * string)) (o : Order) : Order :=
  match update with
  | [] => o
  | (path, v) :: rest =>
      Order_apply rest
        (if String.eqb path "status" then set_order_status v o
         else if String.eqb path "paymentStatus" then set_order_paymentStatus v o
         else if String.eqb path "userId" then
           set_order_top (Some v) (order_orderNumber o) (order_paymentMethod o)
             (order_dataSource o) o
         else if String.eqb path "orderNumber" then
           set_order_top (order_userId o) (Some v) (order_paymentMethod o)
             (order_dataSource o) o
         else if String.eqb path "paymentMethod" then
           set_order_top (order_userId o) (order_orderNumber o) (Some v)
             (order_dataSource o) o
         else if String.eqb path "dataSource" then
           set_order_top (order_userId o) (order_orderNumber o) (order_paymentMethod o)
             (Some v) o
         else o)
  end.

(** ** The world a request runs in

    The collections, the clock and the random numbers still to be drawn.
    Transactions are filed by [tid], which the schema declares unique and
    no handler assigns after creation; orders by their identifier.

    [clock] is the instant the next reading of the clock gives.  Time
    goes on while a request is served: after each reading the clock
    moves on by the head of [ticks], in milliseconds, and stands still
    once the list is used up. *)

Record World := {
  transactions : gmap string Transaction;
  orders : gmap string Order;
  settings : option Settings;
  clock : Z;
  entropy : list Js.number;
  ticks : list N
}.

Definition with_transactions (m : gmap string Transaction) (w : World) : World :=
  {| transactions := m; orders := orders w; settings := settings w;
     clock := clock w; entropy := entropy w; ticks := ticks w |}.

Definition with_orders (m : gmap string Order) (w : World) : World :=
  {| transactions := transactions w; orders := m; settings := settings w;
     clock := clock w; entropy := entropy w; ticks := ticks w |}.

Definition with_settings (s : option Settings) (w : World) : World :=
  {| transactions := transactions w; orders := orders w; settings := s;
     clock := clock w; entropy := entropy w; ticks := ticks w |}.

Definition with_entropy (l : list Js.number) (w : World) : World :=
  {| transactions := transactions w; orders := orders w; settings := settings w;
     clock := clock w; entropy := l; ticks := ticks w |}.

Definition with_ticks (l : list N) (w : World) : World :=
  {| transactions := transactions w; orders := orders w; settings := settings w;
     clock := clock w; entropy := entropy w; ticks := l |}.

(** The world once the clock has been read. *)
Definition tick (w : World) : World :=
  {| transactions := transactions w; orders := orders w; settings := settings w;
     clock := clock w + Z.of_N (hd 0%N (ticks w)); entropy := entropy w;
     ticks := tl (ticks w) |}.

(** What the clock gives at the [n]th reading from now, counted from 0. *)
Definition reading (n : nat) (w : World) : Z := clock (Nat.iter n tick w).

(** ** Programs: what a handler asks of the world *)

Inductive saved := Saved | Rejected (e : Error).

Inductive Event : Type -> Type :=
| Date_now : Event Z
| Math_random : Event Js.number
| Settings_findOne : Event (option Settings)
| Settings_create : Event Settings
| Transaction_findOne (t : string) : Event (option Transaction)
| Transaction_save_new (doc : Transaction) : Event saved
| Transaction_save (loaded cur : Transaction) : Event saved
| Order_findById (id : ObjectId) : Event (option Order)
| Order_save (id : ObjectId) (loaded cur : Order) : Event saved
| Order_findByIdAndUpdate (id : ObjectId) (update : list (string * string)) : Event unit.

Inductive Prog (A : Type) : Type :=
| Ret (a : A)
| Throw (e : Error)
| Vis {X : Type} (ev : Event X) (k : X -> Prog A).

Arguments Ret {A} a.
Arguments Throw {A} e.
Arguments Vis {A X} ev k.

Fixpoint bind {A B : Type} (p : Prog A) (f : A -> Prog B) : Prog B :=
  match p with
  | Ret a => f a
  | Throw e => Throw e
  | Vis ev k => Vis ev (fun x => bind (k x) f)
  end.

(** [try { p } catch (error) { h error }]. *)
Fixpoint try_catch {A : Type} (p : Prog A) (h : Error -> Prog A) : Prog A :=
  match p with
  | Ret a => Ret a
  | Throw e => h e
  | Vis ev k => Vis ev (fun x => try_catch (k x) h)
  end.

Definition call {X : Type} (ev : Event X) : Prog X := Vis ev Ret.

(** [await doc.save()]: a rejected promise is thrown at the await. *)
Definition await_save (ev : Event saved) : Prog unit :=
  Vis ev (fun r => match r with Saved => Ret tt | Rejected e => Throw e end).

Declare Scope prog_scope.
Delimit Scope prog_scope with prog.
Notation "'let*' x := p 'in' q" := (bind p (fun x => q))
  (at level 10, x name, p at level 100, q at level 200) : prog_scope.
Local Open Scope prog_scope.

(** *** What each call does to the world

    [save] on a new document validates it, stamps it, which is a
    reading of the clock, then inserts it unless its [tid] is taken.
    [save] on a loaded document validates the document and writes the
    paths that were assigned, with a new stamp, whatever the stored
    record has become since it was loaded; when nothing was assigned, or
    the record is gone, nothing is written.  A document that fails
    validation is not stamped. *)

Definition handle {X : Type} (ev : Event X) (w : World) : X * World :=
  match ev in Event X return X * World with
  | Date_now => (clock w, tick w)
  | Math_random =>
      match entropy w with
      | r :: rest => (r, with_entropy rest w)
      | [] => (S754_zero false, w)
      end
  | Settings_findOne => (settings w, w)
  | Settings_create => (Settings_defaults, with_settings (Some Settings_defaults) w)
  | Transaction_findOne t => (transactions w !! t, w)
  | Transaction_save_new doc =>
      match Transaction_validate doc with
      | [] =>
          match transactions w !! tid doc with
          | Some _ => (Rejected (DuplicateKeyError "tid"), tick w)
          | None =>
              (Saved,
               with_transactions
                 (<[tid doc := stamp_new (clock w) doc]> (transactions w)) (tick w))
          end
      | paths => (Rejected (ValidationError paths), w)
      end
  | Transaction_save loaded cur =>
      match Transaction_validate cur with
      | [] =>
          match transactions w !! tid loaded with
          | Some stored =>
              if Transaction_modified loaded cur then
                (Saved,
                 with_transactions
                   (<[tid loaded :=
                        set_updatedAt (clock w) (Transaction_merge stored loaded cur)]>
                      (transactions w)) (tick w))
              else (Saved, w)
          | None => (Saved, w)
          end
      | paths => (Rejected (ValidationError paths), w)
      end
  | Order_findById id => (orders w !! id, w)
  | Order_save id loaded cur =>
      match Order_validate cur with
      | [] =>
          match orders w !! id with
          | Some stored =>
              (Saved, with_orders (<[id := Order_merge stored loaded cur]> (orders w)) w)
          | None => (Saved, w)
          end
      | paths => (Rejected (ValidationError paths), w)
      end
  | Order_findByIdAndUpdate id update =>
      match orders w !! id with
      | Some stored => (tt, with_orders (<[id := Order_apply update stored]> (orders w)) w)
      | None => (tt, w)
      end
  end.

Inductive Outcome (A : Type) : Type :=
| Returned (a : A)
| Threw (e : Error).

Arguments Returned {A} a.
Arguments Threw {A} e.

(** One request served alone, from its first line to its response. *)
Fixpoint run {A : Type} (p : Prog A) (w : World) : Outcome A * World :=
  match p with
  | Ret a => (Returned a, w)
  | Throw e => (Threw e, w)
  | Vis ev k => let (x, w') := handle ev w in run (k x) w'
  end.

(** ** Requests and responses *)

(** The fields of [req.body] and [req.headers] that [createPayment]
    reads.  [amount] may arrive as a number or as a string; the other
    fields are strings when they are present, and the two identifiers
    are cast to ObjectId when the document is validated. *)
Record CreateRequest := {
  create_amount : Js.value;
  create_payType : option string;
  create_orderId : option ObjectId;
  create_userId : option ObjectId;
  create_user_agent : option string
}.

(** The fields of [req.body] that verify, webhook and simulate read,
    strings when they are present ([amount] a number or a string); each
    handler takes the ones it names and ignores the rest. *)
Record Body := {
  body_tid : option string;
  body_status : option string;
  body_amount : Js.value;
  body_upi_ref : option string;
  body_signature : option string
}.

Definition with_signature (sig : option string) (b : Body) : Body :=
  {| body_tid := body_tid b; body_status := body_status b;
     body_amount := body_amount b; body_upi_ref := body_upi_ref b;
     body_signature := sig |}.

Inductive field :=
| FUndefined
| FNull
| FBool (b : bool)
| FNum (x : Js.number)
| FStr (s : string)
| FDate (ms : Z)
| FMessage (e : Error).

(** [res.status(code).json(body)]. *)
Record Response := {
  res_status : Z;
  res_body : list (string * field)
}.

Definition json (code : Z) (body : list (string * field)) : Response :=
  {| res_status := code; res_body := body |}.

Definition opt_date (d : option Z) : field :=
  match d with
  | Some ms => FDate ms
  | None => FUndefined
  end.

(** [x || null] on an optional string. *)
Definition or_null (v : option string) : option string :=
  if Js.falsy_str v then None else v.

(** ** [paymentController.js] *)

Section Controller.

Variable host : Host.

Definition toString10 (x : Js.number) : string := Number_toString host 10 x.

(** [`${v}`] *)
Definition template (v : Js.value) : string :=
  match v with
  | Js.Undefined => "undefined"
  | Js.Num x => toString10 x
  | Js.Str s => s
  end.

Definition MERCHANT_SECRET : string :=
  match env_MERCHANT_SECRET host with
  | Some s => if String.eqb s "" then "my_super_secret_key" else s
  | None => "my_super_secret_key"
  end.

(** [crypto.createHmac('sha256', key).update(data).digest('hex')] *)
Definition createHmac_sha256_hex (key data : string) : string :=
  Bytes.hex (Hmac.hmac_sha256 (Bytes.of_string key) (Bytes.of_string data)).

Definition generateTransactionId : Prog string :=
  let* now := call Date_now in
  let* r := call Math_random in
  let timestamp := Number_toString host 36 (Js.of_Z now) in
  let random := String.substring 2 13 (Number_toString host 36 r) in
  Ret ("cw" ++ timestamp ++ random).

Definition generateNote : Prog string :=
  let* r := call Math_random in
  Ret ("s" ++ toString10
                (Js.add (Js.Math_floor (Js.mul r (Js.of_Z 900))) (Js.of_Z 100))).

Definition createSignature (payload : string) : string :=
  createHmac_sha256_hex MERCHANT_SECRET payload.

(** [Settings.getSettings()] *)
Definition Settings_getSettings : Prog Settings :=
  let* found := call Settings_findOne in
  match found with
  | Some s => Ret s
  | None => call Settings_create
  end.

Definition device_name (isIOS isAndroid : bool) (ios android desktop : string)
  : string :=
  if isIOS then ios else if isAndroid then android else desktop.

(** The PhonePe payload object. *)
Definition phonepe_payloadJson (MERCHANT_UPI note : string)
    (paymentAmount : Js.number) : Node.Json :=
  Node.JObj
    [ ("contact",
        Node.JObj [ ("cbsName", Node.JStr "");
                    ("nickName", Node.JStr "");
                    ("vpa", Node.JStr MERCHANT_UPI);
                    ("type", Node.JStr "VPA") ]);
      ("p2pPaymentCheckoutParams",
        Node.JObj [ ("note", Node.JStr note);
                    ("isByDefaultKnownContact", Node.JBool true);
                    ("initialAmount",
                      Node.JNum (Js.Math_floor (Js.mul paymentAmount (Js.of_Z 100))));
                    ("currency", Node.JStr "INR");
                    ("checkoutType", Node.JStr "DEFAULT");
                    ("transactionContext", Node.JStr "p2p") ]) ].

Definition paytm_queryParams (MERCHANT_UPI note : string)
    (paymentAmount : Js.number) : list (string * string) :=
  [ ("pa", MERCHANT_UPI); ("am", toString10 paymentAmount); ("tn", note);
    ("pn", MERCHANT_UPI); ("mc", ""); ("cu", "INR"); ("url", "");
    ("mode", ""); ("purpose", ""); ("orgid", ""); ("sign", "");
    ("featuretype", "money_transfer") ].

Definition paytm_payloadJson (redirectUrl tid : string) (expires : Z) : Node.Json :=
  Node.JObj [ ("redirect", Node.JStr redirectUrl);
              ("tid", Node.JStr tid);
              ("exp", Node.JNum (Js.of_Z expires)) ].

(** What the two branches of [createPayment] leave in [response],
    [payloadB64], [signature] and [redirectUrl]. *)
Record Built := {
  built_response : list (string * field);
  built_payloadB64 : string;
  built_signature : string;
  built_redirectUrl : string
}.

Definition build_phonepe (MERCHANT_UPI tid note : string) (expires : Z)
    (paymentAmount : Js.number) (isIOS isAndroid : bool) : Built :=
  let payloadJson := phonepe_payloadJson MERCHANT_UPI note paymentAmount in
  let payloadStr := Node.JSON_stringify toString10 payloadJson in
  let payloadB64 := Node.base64 payloadStr in
  let signature := createSignature payloadB64 in
  let payloadUrlenc := Node.encodeURIComponent payloadB64 in
  let androidUrl := "phonepe://native?data=" ++ payloadUrlenc ++ "&id=p2ppayment" in
  let iosUrl :=
    "phonepe://pay?pa=" ++ Node.encodeURIComponent MERCHANT_UPI
    ++ "&pn=Merchant&am=" ++ toString10 paymentAmount
    ++ "&tn=" ++ Node.encodeURIComponent note ++ "&cu=INR" in
  let redirectUrl := if isIOS then iosUrl else androidUrl in
  {| built_response :=
       [ ("redirect_url", FStr redirectUrl);
         ("ios_url", FStr iosUrl);
         ("android_url", FStr androidUrl);
         ("payload", FStr payloadB64);
         ("sig", FStr signature);
         ("expires", FNum (Js.of_Z expires));
         ("tid", FStr tid);
         ("amount", FStr (toString10 paymentAmount));
         ("device", FStr (device_name isIOS isAndroid "iOS" "Android" "Desktop")) ];
     built_payloadB64 := payloadB64;
     built_signature := signature;
     built_redirectUrl := redirectUrl |}.

Definition build_paytm (MERCHANT_UPI tid note : string) (expires : Z)
    (paymentAmount : Js.number) (isIOS isAndroid : bool) : Built :=
  let queryParams := paytm_queryParams MERCHANT_UPI note paymentAmount in
  let redirectUrl :=
    "paytmmp://cash_wallet?" ++ Node.URLSearchParams_toString queryParams in
  let iosUrl := "paytm://pay?" ++ Node.URLSearchParams_toString queryParams in
  let payloadJson := paytm_payloadJson redirectUrl tid expires in
  let payloadStr := Node.JSON_stringify toString10 payloadJson in
  let payloadB64 := Node.base64 payloadStr in
  let signature := createSignature payloadB64 in
  {| built_response :=
       [ ("redirect_url", FStr redirectUrl);
         ("ios_url", FStr iosUrl);
         ("android_url", FStr redirectUrl);
         ("payload", FStr payloadB64);
         ("sig", FStr signature);
         ("expires", FNum (Js.of_Z expires));
         ("tid", FStr tid);
         ("amount", FStr (toString10 paymentAmount));
         ("device", FStr (device_name isIOS isAndroid "ios" "android" "desktop")) ];
     built_payloadB64 := payloadB64;
     built_signature := signature;
     built_redirectUrl := redirectUrl |}.

(** [new Transaction({...})] as [createPayment] calls it; the schema
    trims [upi]. *)
Definition Transaction_new (tid : string) (userId orderId : option ObjectId)
    (amount : Js.number) (payType upi payload signature redirectUrl note : string)
    (expires : Z) : Transaction :=
  {| tid := tid; userId := userId; orderId := orderId; amount := amount;
     payType := payType; upi := Js.trim upi; status := "pending";
     payload := payload; signature := signature; redirectUrl := redirectUrl;
     note := note; upiRef := None; expires := expires; completedAt := None;
     errorMessage := None; createdAt := 0; updatedAt := 0 |}.

(** POST /api/payment/create.  The second branch is taken when
    [paymentType] is not ['phonepe']; by the [includes] test above it,
    that is when [paymentType === 'paytm']. *)
Definition createPayment (req : CreateRequest) : Prog Response :=
  try_catch
    (if Js.falsy (create_amount req) || Js.falsy_str (create_payType req) then
       Ret (json 400 [("error", FStr "Invalid payload")])
     else
       let paymentAmount := Js.parseFloat (create_amount req) in
       let paymentType :=
         Js.trim (Js.toLowerCase (default "" (create_payType req))) in
       if negb (Js.includes ["phonepe"; "paytm"] paymentType) then
         Ret (json 400 [("error", FStr "Unsupported payment type")])
       else
         let* settings := Settings_getSettings in
         let MERCHANT_UPI := merchantUPI settings in
         let* tid := generateTransactionId in
         let* now := call Date_now in
         let expires := now / 1000 + 600 in
         let* note := generateNote in
         let userAgent := default "" (create_user_agent req) in
         let isIOS := Node.test "iPad" userAgent || Node.test "iPhone" userAgent
                      || Node.test "iPod" userAgent in
         let isAndroid := Node.test "Android" userAgent in
         let built :=
           if String.eqb paymentType "phonepe" then
             build_phonepe MERCHANT_UPI tid note expires paymentAmount isIOS isAndroid
           else
             build_paytm MERCHANT_UPI tid note expires paymentAmount isIOS isAndroid in
         let transaction :=
           Transaction_new tid (or_null (create_userId req))
             (or_null (create_orderId req)) paymentAmount paymentType MERCHANT_UPI
             (built_payloadB64 built) (built_signature built)
             (built_redirectUrl built) note (expires * 1000) in
         let* _ := await_save (Transaction_save_new transaction) in
         Ret (json 200 (built_response built)))
    (fun error =>
       Ret (json 500 [("error", FStr "Failed to create payment");
                      ("message", FMessage error)])).

(** GET /api/payment/status/:tid *)
Definition checkPaymentStatus (tid_param : option string) : Prog Response :=
  try_catch
    (if Js.falsy_str tid_param then
       Ret (json 400 [("error", FStr "Transaction ID is required")])
     else
       let* found := call (Transaction_findOne (default "" tid_param)) in
       match found with
       | None => Ret (json 404 [("error", FStr "Transaction not found")])
       | Some loaded =>
           let respond (transaction : Transaction) :=
             Ret (json 200 [("tid", FStr (tid transaction));
                            ("status", FStr (status transaction));
                            ("amount", FNum (amount transaction));
                            ("payType", FStr (payType transaction));
                            ("upi", FStr (upi transaction));
                            ("createdAt", FDate (createdAt transaction));
                            ("completedAt", opt_date (completedAt transaction))]) in
           if String.eqb (status loaded) "pending" then
             let* now := call Date_now in
             if expires loaded <? now then
               let transaction := set_status "expired" loaded in
               let* _ := await_save (Transaction_save loaded transaction) in
               let* _ :=
                 match orderId transaction with
                 | Some id =>
                     call (Order_findByIdAndUpdate id
                             [("paymentStatus", "failed");
                              ("orderStatus", "cancelled")])
                 | None => Ret tt
                 end in
               respond transaction
             else respond loaded
           else respond loaded
       end)
    (fun error =>
       Ret (json 500 [("error", FStr "Failed to check payment status");
                      ("message", FMessage error)])).

(** What verify and the webhook assign to the order they loaded. *)
Definition Order_settle (status : string) (order : Order) : Order :=
  let paid := String.eqb status "success" in
  set_order_status (if paid then "confirmed" else "cancelled")
    (set_order_paymentStatus (if paid then "paid" else "failed") order).

(** The order update that verify and webhook share: load, assign, save. *)
Definition reconcile_by_save (transaction : Transaction) (status : string)
  : Prog unit :=
  match orderId transaction with
  | Some id =>
      let* found := call (Order_findById id) in
      match found with
      | Some order => await_save (Order_save id order (Order_settle status order))
      | None => Ret tt
      end
  | None => Ret tt
  end.

(** POST /api/payment/verify *)
Definition verifyPayment (body : Body) : Prog Response :=
  try_catch
    (if Js.falsy_str (body_tid body) || Js.falsy_str (body_status body) then
       Ret (json 400 [("error", FStr "Transaction ID and status are required")])
     else
       let tid_ := default "" (body_tid body) in
       let status_ := default "" (body_status body) in
       let* found := call (Transaction_findOne tid_) in
       match found with
       | None => Ret (json 404 [("error", FStr "Transaction not found")])
       | Some loaded =>
           if negb (Js.falsy_str (body_signature body))
              && negb (String.eqb (default "" (body_signature body))
                         (createSignature (payload loaded)))
           then Ret (json 400 [("error", FStr "Invalid signature")])
           else if negb (String.eqb (status loaded) "pending") then
             Ret (json 400
                    [("error", FStr ("Transaction already " ++ status loaded))])
           else
             let* now := call Date_now in
             let transaction :=
               set_completedAt (Some now) (set_status status_ loaded) in
             let* _ := await_save (Transaction_save loaded transaction) in
             let* _ := reconcile_by_save transaction status_ in
             Ret (json 200 [("success", FBool true);
                            ("message", FStr ("Payment " ++ status_));
                            ("tid", FStr (tid transaction));
                            ("status", FStr (status transaction));
                            ("amount", FNum (amount transaction))])
       end)
    (fun error =>
       Ret (json 500 [("error", FStr "Failed to verify payment");
                      ("message", FMessage error)])).

(** POST /api/payment/webhook *)
Definition paymentWebhook (body : Body) : Prog Response :=
  try_catch
    (if Js.falsy_str (body_tid body) || Js.falsy_str (body_status body) then
       Ret (json 400 [("error", FStr "Invalid webhook data")])
     else
       let tid_ := default "" (body_tid body) in
       let status_ := default "" (body_status body) in
       let* found := call (Transaction_findOne tid_) in
       match found with
       | None => Ret (json 404 [("error", FStr "Transaction not found")])
       | Some loaded =>
           if negb (Js.falsy_str (body_signature body))
              && negb (String.eqb (default "" (body_signature body))
                         (createHmac_sha256_hex MERCHANT_SECRET
                            (tid_ ++ status_ ++ template (body_amount body))))
           then Ret (json 400 [("error", FStr "Invalid signature")])
           else
             let* _ :=
               if String.eqb (status loaded) "pending" then
                 let* now := call Date_now in
                 let t1 := set_completedAt (Some now) (set_status status_ loaded) in
                 let transaction :=
                   if Js.falsy_str (body_upi_ref body) then t1
                   else set_upiRef (body_upi_ref body) t1 in
                 let* _ := await_save (Transaction_save loaded transaction) in
                 reconcile_by_save transaction status_
               else Ret tt in
             Ret (json 200 [("success", FBool true);
                            ("message", FStr "Webhook processed successfully")])
       end)
    (fun error =>
       Ret (json 500 [("error", FStr "Webhook processing failed");
                      ("message", FMessage error)])).

(** POST /api/payment/simulate *)
Definition simulatePayment (body : Body) : Prog Response :=
  try_catch
    (if Js.falsy_str (body_tid body) || Js.falsy_str (body_status body) then
       Ret (json 400 [("error", FStr "TID and status required")])
     else
       let tid_ := default "" (body_tid body) in
       let status_ := default "" (body_status body) in
       let* found := call (Transaction_findOne tid_) in
       match found with
       | None => Ret (json 404 [("error", FStr "Transaction not found")])
       | Some loaded =>
           if negb (String.eqb (status loaded) "pending") then
             Ret (json 400
                    [("error", FStr ("Transaction already " ++ status loaded))])
           else
             let* now := call Date_now in
             let* now' := call Date_now in
             let transaction :=
               set_upiRef (Some ("SIM" ++ toString10 (Js.of_Z now')))
                 (set_completedAt (Some now) (set_status status_ loaded)) in
             let* _ := await_save (Transaction_save loaded transaction) in
             let* _ :=
               match orderId transaction with
               | Some id =>
                   let paid := String.eqb status_ "success" in
                   call (Order_findByIdAndUpdate id
                           [("paymentStatus", if paid then "paid" else "failed");
                            ("orderStatus",
                              if paid then "confirmed" else "cancelled")])
               | None => Ret tt
               end in
             Ret (json 200 [("success", FBool true);
                            ("message", FStr ("Payment simulated as " ++ status_));
                            ("tid", FStr tid_);
                            ("status", FStr status_);
                            ("amount", FNum (amount transaction))])
       end)
    (fun _ => Ret (json 500 [("error", FStr "Simulation failed")])).

End Controller.

(** ** A host to run the controller on

    No [MERCHANT_SECRET] in the environment, and [Number::toString] by
    the language definition: in base ten the shortest digit string that
    reads back as the same Number; in another base the exact expansion
    (every binary64 value has a finite one in base 36), where an engine
    may stop at the first digits that identify the Number. *)

Module RefHost.

Definition digit_char (d : Z) : ascii :=
  Js.char (if d <? 10 then 48 + d else 87 + d).

Fixpoint digits_of (fuel : nat) (radix n : Z) (acc : list ascii) : list ascii :=
  match fuel with
  | O => acc
  | S fuel' =>
      if n <? radix then digit_char n :: acc
      else digits_of fuel' radix (n / radix) (digit_char (n mod radix) :: acc)
  end.

Definition integer_text (radix n : Z) : list ascii :=
  digits_of (S (Z.to_nat (Z.log2 n))) radix n [].

(** [x < 10^n] for [x = num / den]. *)
Definition below_pow10 (num den n : Z) : bool :=
  if 0 <=? n then num <? den * 10 ^ n else num * 10 ^ (- n) <? den.

Fixpoint first_above (fuel : nat) (num den n : Z) : Z :=
  match fuel with
  | O => n
  | S fuel' =>
      if below_pow10 num den n then n else first_above fuel' num den (n + 1)
  end.

(** The [n] with [10^(n-1) <= num / den < 10^n]. *)
Definition decimal_exponent (num den : Z) : Z :=
  first_above 8 num den ((Z.log2 num - Z.log2 den) * 30103 / 100000 - 2).

(** The [k]-digit decimals next to [x = num / den], nearest first, as
    pairs (digits, n). *)
Definition candidates (num den n k : Z) : list (Z * Z) :=
  let p := n - k in
  let (a, b) := if 0 <=? p then (num, den * 10 ^ p) else (num * 10 ^ (- p), den) in
  let lo := a / b in
  let hi := lo + 1 in
  let norm s := if s =? 10 ^ k then (10 ^ (k - 1), n + 1) else (s, n) in
  let twice := 2 * a - (2 * lo + 1) * b in
  if (twice <? 0) || ((twice =? 0) && Z.even lo)
  then [norm lo; norm hi] else [norm hi; norm lo].

Definition reads_back (x : Js.number) (k : Z) (c : Z * Z) : bool :=
  SFeqb (Js.of_decimal false (fst c) (snd c - k)) x.

Fixpoint shortest (fuel : nat) (x : Js.number) (num den n k : Z) : Z * Z * Z :=
  match fuel with
  | O => (num, n, k)
  | S fuel' =>
      match find (reads_back x k) (candidates num den n k) with
      | Some c => (fst c, snd c, k)
      | None => shortest fuel' x num den n (k + 1)
      end
  end.

Definition zeros (n : Z) : list ascii := repeat "0"%char (Z.to_nat n).

Definition layout (ds : list ascii) (n k : Z) : list ascii :=
  (if (k <=? n) && (n <=? 21) then ds ++ zeros (n - k)
   else if (0 <? n) && (n <=? 21) then
     firstn (Z.to_nat n) ds ++ "."%char :: skipn (Z.to_nat n) ds
   else if (-6 <? n) && (n <=? 0) then
     "0"%char :: "."%char :: zeros (- n) ++ ds
   else
     let e := n - 1 in
     let exp := (if e <? 0 then "-"%char else "+"%char)
                  :: integer_text 10 (Z.abs e) in
     match ds with
     | d :: (_ :: _) as rest => d :: "."%char :: rest ++ "e"%char :: exp
     | _ => ds ++ "e"%char :: exp
     end)%list.

Definition ratio (m : positive) (e : Z) : Z * Z :=
  if 0 <=? e then (Zpos m * 2 ^ e, 1) else (Zpos m, 2 ^ (- e)).

Definition decimal_text (m : positive) (e : Z) : list ascii :=
  let (num, den) := ratio m e in
  let n := decimal_exponent num den in
  let '(s, n', k) := shortest 17 (S754_finite false m e) num den n 1 in
  layout (integer_text 10 s) n' k.

Fixpoint fraction_digits (fuel : nat) (radix num den : Z) : list ascii :=
  match fuel with
  | O => []
  | S fuel' =>
      if num =? 0 then []
      else digit_char (radix * num / den)
             :: fraction_digits fuel' radix (radix * num mod den) den
  end.

Definition radix_text (radix : Z) (m : positive) (e : Z) : list ascii :=
  let (num, den) := ratio m e in
  (integer_text radix (num / den)
   ++ match fraction_digits 1100 radix (num mod den) den with
      | [] => []
      | ds => "."%char :: ds
      end)%list.

Definition toString (radix : Z) (x : Js.number) : string :=
  match x with
  | S754_nan => "NaN"
  | S754_zero _ => "0"
  | S754_infinity s => if s then "-Infinity" else "Infinity"
  | S754_finite s m e =>
      string_of_list_ascii
        ((if s then ["-"%char] else [])
         ++ (if radix =? 10 then decimal_text m e else radix_text radix m e))%list
  end.

Definition node : Host :=
  {| env_MERCHANT_SECRET := None; Number_toString := toString |}.

End RefHost.

(** ** Resolve: the three endpoints that report an outcome *)

Inductive Endpoint := Verify | Webhook | Simulate.

Definition resolve (host : Host) (ep : Endpoint) (body : Body) : Prog Response :=
  match ep with
  | Verify => verifyPayment host body
  | Webhook => paymentWebhook host body
  | Simulate => simulatePayment host body
  end.

(** The string each endpoint signs when it checks a signature at all. *)
Definition signed_text (host : Host) (ep : Endpoint) (body : Body)
    (stored : Transaction) : option string :=
  match ep with
  | Verify => Some (payload stored)
  | Webhook =>
      Some (default "" (body_tid body) ++ default "" (body_status body)
            ++ template host (body_amount body))
  | Simulate => None
  end.

Definition lookup_field (k : string) (body : list (string * field)) : option field :=
  match find (fun p => String.eqb (fst p) k) body with
  | Some p => Some (snd p)
  | None => None
  end.

(** The responses of the controller that the properties below name. *)
Definition invalid_signature : Response :=
  json 400 [("error", FStr "Invalid signature")].

Definition already (st : string) : Response :=
  json 400 [("error", FStr ("Transaction already " ++ st))].

Definition webhook_ack : Response :=
  json 200 [("success", FBool true);
            ("message", FStr "Webhook processed successfully")].

Definition save_failed (ep : Endpoint) (e : Error) : Response :=
  match ep with
  | Verify => json 500 [("error", FStr "Failed to verify payment");
                        ("message", FMessage e)]
  | Webhook => json 500 [("error", FStr "Webhook processing failed");
                         ("message", FMessage e)]
  | Simulate => json 500 [("error", FStr "Simulation failed")]
  end.


(** The answer of a Resolve that was applied to the record [tx]. *)
Definition applied_response (ep : Endpoint) (t s : string) (tx : Transaction)
    : Response :=
  match ep with
  | Verify =>
      json 200 [("success", FBool true);
                ("message", FStr ("Payment " ++ s));
                ("tid", FStr (tid tx));
                ("status", FStr s);
                ("amount", FNum (amount tx))]
  | Webhook => webhook_ack
  | Simulate =>
      json 200 [("success", FBool true);
                ("message", FStr ("Payment simulated as " ++ s));
                ("tid", FStr t);
                ("status", FStr s);
                ("amount", FNum (amount tx))]
  end.

(** ** Reading the handlers

    Names for what a handler computes on the way, so that the properties
    below can speak of it. *)

(** Whether the signature test of an endpoint lets a request through:
    there is no test, no signature, or the signature is the expected
    HMAC. *)
Definition signature_ok (host : Host) (ep : Endpoint) (body : Body)
    (stored : Transaction) : bool :=
  match signed_text host ep body stored with
  | Some text =>
      Js.falsy_str (body_signature body)
      || String.eqb (default "" (body_signature body))
           (createHmac_sha256_hex (MERCHANT_SECRET host) text)
  | None => true
  end.

(** How many times a Resolve reads the clock before it saves. *)
Definition readings_before_save (ep : Endpoint) : nat :=
  match ep with
  | Simulate => 2%nat
  | _ => 1%nat
  end.

(** The document a Resolve has in hand when it calls [save] on the
    record [loaded]. *)
Definition reported (host : Host) (ep : Endpoint) (body : Body) (w : World)
    (loaded : Transaction) : Transaction :=
  let t1 :=
    set_completedAt (Some (clock w))
      (set_status (default "" (body_status body)) loaded) in
  match ep with
  | Verify => t1
  | Webhook =>
      if Js.falsy_str (body_upi_ref body) then t1
      else set_upiRef (body_upi_ref body) t1
  | Simulate =>
      set_upiRef (Some ("SIM" ++ toString10 host (Js.of_Z (reading 1 w)))) t1
  end.

(** The world in which [createPayment] calls [save]: the settings were
    read, and created when there were none, the clock was read twice and
    two random numbers were drawn. *)
Definition at_save (w : World) : World :=
  with_entropy (tl (tl (entropy w)))
    (tick (tick (with_settings (Some (default Settings_defaults (settings w))) w))).

(** The update simulate sends for the order. *)
Definition simulate_update (s : string) : list (string * string) :=
  let paid := String.eqb s "success" in
  [("paymentStatus", if paid then "paid" else "failed");
   ("orderStatus", if paid then "confirmed" else "cancelled")].

(** The update of the lazy expiry. *)
Definition expiry_update : list (string * string) :=
  [("paymentStatus", "failed"); ("orderStatus", "cancelled")].

(** The orders once [update] was applied by query to the order [id]. *)
Definition orders_updated (id : option ObjectId) (update : list (string * string))
    (w : World) : gmap string Order :=
  match id with
  | Some id =>
      match orders w !! id with
      | Some o => <[id := Order_apply update o]> (orders w)
      | None => orders w
      end
  | None => orders w
  end.

(** The orders once the order [id] was loaded, assigned the report [s]
    and saved. *)
Definition orders_settled (id : option ObjectId) (s : string) (w : World)
    : gmap string Order :=
  match id with
  | Some id =>
      match orders w !! id with
      | Some o => <[id := Order_settle s o]> (orders w)
      | None => orders w
      end
  | None => orders w
  end.

(** The paths no handler assigns after creation. *)
Definition same_creation (before after : Transaction) : Prop :=
  tid after = tid before /\ userId after = userId before
  /\ orderId after = orderId before /\ amount after = amount before
  /\ payType after = payType before /\ upi after = upi before
  /\ payload after = payload before /\ signature after = signature before
  /\ redirectUrl after = redirectUrl before /\ note after = note before
  /\ expires after = expires before /\ createdAt after = createdAt before.

Definition transition (s : string) (now : Z) (before after : Transaction) : Prop :=
  status after = s /\ completedAt after = Some now /\ same_creation before after.

(** Two worlds that differ in their orders at most. *)
Definition orders_apart (w w' : World) : Prop :=
  transactions w' = transactions w /\ settings w' = settings w
  /\ clock w' = clock w /\ entropy w' = entropy w /\ ticks w' = ticks w.

(** The settings [getSettings] returns: the stored ones, or the defaults
    it creates. *)
Definition current_settings (w : World) : Settings :=
  default Settings_defaults (settings w).

(** The [n]th call of [Math.random] from now. *)
Definition draw (n : nat) (w : World) : Js.number :=
  nth n (entropy w) (S754_zero false).

Definition next_tid (host : Host) (w : World) : string :=
  "cw" ++ Number_toString host 36 (Js.of_Z (clock w))
  ++ String.substring 2 13 (Number_toString host 36 (draw 0 w)).

Definition next_note (host : Host) (w : World) : string :=
  "s" ++ toString10 host
           (Js.add (Js.Math_floor (Js.mul (draw 1 w) (Js.of_Z 900))) (Js.of_Z 100)).

(** What [createPayment] takes from the request once it is accepted. *)
Definition paymentAmount (req : CreateRequest) : Js.number :=
  Js.parseFloat (create_amount req).

Definition paymentType (req : CreateRequest) : string :=
  Js.trim (Js.toLowerCase (default "" (create_payType req))).

Definition castable_ids (req : CreateRequest) : Prop :=
  casts_to_ObjectId (or_null (create_userId req)) = true
  /\ casts_to_ObjectId (or_null (create_orderId req)) = true.

Definition isIOS (req : CreateRequest) : bool :=
  let userAgent := default "" (create_user_agent req) in
  Node.test "iPad" userAgent || Node.test "iPhone" userAgent
  || Node.test "iPod" userAgent.

Definition isAndroid (req : CreateRequest) : bool :=
  Node.test "Android" (default "" (create_user_agent req)).

(** The bundle an accepted request gets in the world [w].  The
    identifier is made of the first reading of the clock, the expiry of
    the second. *)
Definition built_for (host : Host) (req : CreateRequest) (w : World) : Built :=
  let upi := merchantUPI (current_settings w) in
  let expires := reading 1 w / 1000 + 600 in
  if String.eqb (paymentType req) "phonepe" then
    build_phonepe host upi (next_tid host w) (next_note host w) expires
      (paymentAmount req) (isIOS req) (isAndroid req)
  else
    build_paytm host upi (next_tid host w) (next_note host w) expires
      (paymentAmount req) (isIOS req) (isAndroid req).

(** The document it constructs, before [save] stamps it. *)
Definition document_for (host : Host) (req : CreateRequest) (w : World) : Transaction :=
  let built := built_for host req w in
  Transaction_new (next_tid host w) (or_null (create_userId req))
    (or_null (create_orderId req)) (paymentAmount req) (paymentType req)
    (merchantUPI (current_settings w))
    (built_payloadB64 built) (built_signature built) (built_redirectUrl built)
    (next_note host w) ((reading 1 w / 1000 + 600) * 1000).

(** ** Invariants of the store *)

Definition completedAt_iff_resolved (t : Transaction) : Prop :=
  is_Some (completedAt t) <-> status t <> "pending".

(** Every record is filed under its own [tid] (the unique index). *)
Definition keyed_by_tid (w : World) : Prop :=
  forall k t, transactions w !! k = Some t -> tid t = k.

(** ** Requests in flight together

    Node runs one handler until it awaits; another handler may run before
    the awaited call returns.  A pool holds what is left of each handler;
    a schedule names, step after step, whose next event happens.  Reading
    the clock is a step of its own here, where Node does it in the same
    turn as the call that follows: every order of calls Node can produce
    is a schedule. *)




(** ** Minor units, in the words of the specification *)

(** The integer a Number is, when it is one. *)
Definition integer_value (x : Js.number) : option Z :=
  match x with
  | S754_zero _ => Some 0
  | S754_finite s m e =>
      if 0 <=? e then Some ((if s then -1 else 1) * (Zpos m * 2 ^ e))
      else if Zpos m mod 2 ^ (- e) =? 0
           then Some ((if s then -1 else 1) * (Zpos m / 2 ^ (- e)))
           else None
  | _ => None
  end.

(** [amount * 100] rounded to the nearest integer (a half goes up), on
    the exact value of the amount. *)
Definition nearest_minor_units (a : Js.number) : option Z :=
  match a with
  | S754_zero _ => Some 0
  | S754_finite s m e =>
      let num := (if s then -1 else 1) * (Zpos m * 100) in
      if 0 <=? e then Some (num * 2 ^ e)
      else Some ((2 * num + 2 ^ (- e)) / (2 * 2 ^ (- e)))
  | _ => None
  end.

(** ** The operations of the core, and what goes on around them *)

Inductive Request :=
| Create (req : CreateRequest)
| GetStatus (tid_param : option string)
| Resolve (ep : Endpoint) (body : Body).

Definition serve (host : Host) (q : Request) : Prog Response :=
  match q with
  | Create req => createPayment host req
  | GetStatus tid_param => checkPaymentStatus tid_param
  | Resolve ep body => resolve host ep body
  end.

(** Between two requests time passes, randomness is drawn, and other
    controllers edit the settings and the orders; none of them writes a
    transaction. *)
Record Outside := {
  later : Z;
  pauses : list N;
  draws : list Js.number;
  edited_settings : option Settings;
  edited_orders : gmap string Order
}.

Definition elapse (o : Outside) (w : World) : World :=
  {| transactions := transactions w; orders := edited_orders o;
     settings := edited_settings o; clock := later o; entropy := draws o;
     ticks := pauses o |}.

Inductive Action :=
| Serve (q : Request)
| Elsewhere (o : Outside).

Definition act (host : Host) (w : World) (a : Action) : World :=
  match a with
  | Serve q => snd (run (serve host q) w)
  | Elsewhere o => elapse o w
  end.

(** Requests served one after the other. *)
Definition play (host : Host) (l : list Action) (w : World) : World :=
  fold_left (act host) l w.

(** ** The properties as the specification words them *)

Definition all_records (P : Transaction -> Prop) (w : World) : Prop :=
  forall k t, transactions w !! k = Some t -> P t.

(** A Resolve that reports anything but success or failure on a pending
    record fails and changes nothing. *)
Definition reported_status_guard (host : Host) : Prop :=
  forall ep body w t s tx,
    body_tid body = Some t -> body_status body = Some s ->
    transactions w !! t = Some tx -> status tx = "pending" ->
    s <> "success" -> s <> "failed" ->
    exists r w',
      run (resolve host ep body) w = (Returned r, w')
      /\ res_status r <> 200 /\ transactions w' = transactions w.

(** A supplied signature is compared with the HMAC of the stored
    payload on every endpoint. *)
Definition signature_over_payload (host : Host) : Prop :=
  forall ep body w t s sig tx,
    body_tid body = Some t -> t <> "" ->
    body_status body = Some s -> s <> "" ->
    body_signature body = Some sig -> sig <> "" ->
    transactions w !! t = Some tx ->
    sig <> createSignature host (payload tx) ->
    run (resolve host ep body) w = (Returned invalid_signature, w).


(** What a request must satisfy for [createPayment] to go through. *)
Definition acceptable (host : Host) (req : CreateRequest) (w : World) : Prop :=
  Js.ltb (Js.of_Z 0) (paymentAmount req) = true
  /\ Js.includes ["phonepe"; "paytm"] (paymentType req) = true
  /\ Js.trim (merchantUPI (current_settings w)) <> ""
  /\ castable_ids req
  /\ transactions w !! next_tid host w = None.

(** The record expires 600 seconds after its creation time. *)
Definition expires_600s_after_creation (host : Host) : Prop :=
  forall req w,
    acceptable host req w ->
    exists r w' tx,
      run (createPayment host req) w = (Returned r, w')
      /\ transactions w' !! next_tid host w = Some tx
      /\ status tx = "pending"
      /\ expires tx = createdAt tx + 600 * 1000.

(** The signature is the HMAC under the secret of the settings record. *)
Definition signed_with_configured_secret (host : Host) : Prop :=
  forall req w,
    acceptable host req w ->
    exists r w' tx,
      run (createPayment host req) w = (Returned r, w')
      /\ transactions w' !! next_tid host w = Some tx
      /\ upi tx = Js.trim (merchantUPI (current_settings w))
      /\ signature tx =
         createHmac_sha256_hex (merchantSecret (current_settings w)) (payload tx).

(** An amount that is not positive is refused and nothing is stored. *)
Definition nonpositive_amount_refused (host : Host) : Prop :=
  forall req w,
    Js.leb (paymentAmount req) (Js.of_Z 0) = true ->
    exists r w',
      run (createPayment host req) w = (Returned r, w')
      /\ res_status r <> 200 /\ transactions w' = transactions w.

Definition initialAmount_path : list string :=
  ["p2pPaymentCheckoutParams"; "initialAmount"].

(** The PhonePe payload carries [amount * 100] rounded to the nearest
    integer. *)
Definition minor_units_rounded_to_nearest : Prop :=
  forall upi note a,
    Js.ltb (Js.of_Z 0) a = true ->
    exists x,
      Node.member initialAmount_path (phonepe_payloadJson upi note a)
      = Some (Node.JNum x)
      /\ integer_value x = nearest_minor_units a.

Definition terminal_report (s : string) : Prop :=
  s = "success" \/ s = "failed" \/ s = "expired".


(** The record the lazy expiry of [checkPaymentStatus] leaves. *)
Definition lapsed (now : Z) (t : Transaction) : Transaction :=
  set_updatedAt now (set_status "expired" t).

(** ** Sample data *)

Module Sample.

Definition host : Host := RefHost.node.

Definition tx : Transaction :=
  {| tid := "cwlp3k9x2a7f1"; userId := None; orderId := None;
     amount := Js.of_Z 250; payType := "paytm"; upi := "shop@upi";
     status := "pending";
     payload := "eyJyZWRpcmVjdCI6InBheXRtbXA6Ly9jYXNoX3dhbGxldCJ9";
     signature :=
       createSignature host "eyJyZWRpcmVjdCI6InBheXRtbXA6Ly9jYXNoX3dhbGxldCJ9";
     redirectUrl := "paytmmp://cash_wallet"; note := "s417";
     upiRef := None; expires := 1700000600000; completedAt := None;
     errorMessage := None;
     createdAt := 1700000000250; updatedAt := 1700000000250 |}.

(** One pending transaction, read at the instant [now]. *)
Definition world (now : Z) : World :=
  {| transactions := {[ "cwlp3k9x2a7f1" := tx ]};
     orders := ∅;
     settings := Some Settings_defaults;
     clock := now;
     entropy := [];
     ticks := [] |}.

(** U+00A0, the no-break space, and U+2028, the line separator. *)
Definition nbsp : string := String (Js.char 194) (String (Js.char 160) "").
Definition line_separator : string :=
  String (Js.char 226) (String (Js.char 128) (String (Js.char 168) "")).

Definition report (st : string) (sig : option string) : Body :=
  {| body_tid := Some "cwlp3k9x2a7f1"; body_status := Some st;
     body_amount := Js.Str "250"; body_upi_ref := None;
     body_signature := sig |}.


Definition create (amount : Js.value) (payType : string) : CreateRequest :=
  {| create_amount := amount; create_payType := Some payType;
     create_orderId := None; create_userId := None;
     create_user_agent := Some "Mozilla/5.0 (Linux; Android 14)" |}.

(** An empty store, the settings with a secret of their own, and one
    random draw for the identifier and one for the note. *)
Definition fresh (now : Z) (secret : string) : World :=
  {| transactions := ∅;
     orders := ∅;
     settings :=
       Some {| merchantUPI := "shop@upi"; merchantSecret := secret;
               siteName := "Shop"; siteEmail := "shop@example.com";
               settingsVersion := 2 |};
     clock := now;
     entropy := [Js.parseFloat_string "0.4375"; Js.parseFloat_string "0.25"];
     ticks := [] |}.

End Sample.

(** ** The rest of [paymentController.js] *)

(** GET /api/payment/merchant-upi *)
Definition getMerchantUPI : Prog Response :=
  try_catch
    (let* settings := Settings_getSettings in
     Ret (json 200 [("upi", FStr (merchantUPI settings))]))
    (fun _ => Ret (json 500 [("error", FStr "Failed to get merchant UPI")])).

(** ** Regular expressions

    The patterns the repository tests whole strings against, [^...$],
    are regular: a string matches when the pattern, derived by each of
    its characters in turn, accepts the empty string. *)

Module Regex.

Inductive re :=
| Void
| Eps
| Class (p : ascii -> bool)
| Seq (r s : re)
| Alt (r s : re)
| Star (r : re).

Fixpoint nullable (r : re) : bool :=
  match r with
  | Void => false
  | Eps => true
  | Class _ => false
  | Seq r s => nullable r && nullable s
  | Alt r s => nullable r || nullable s
  | Star _ => true
  end.

Fixpoint deriv (c : ascii) (r : re) : re :=
  match r with
  | Void => Void
  | Eps => Void
  | Class p => if p c then Eps else Void
  | Seq r s =>
      if nullable r then Alt (Seq (deriv c r) s) (deriv c s)
      else Seq (deriv c r) s
  | Alt r s => Alt (deriv c r) (deriv c s)
  | Star r => Seq (deriv c r) (Star r)
  end.

Definition matches (r : re) (cs : list ascii) : bool :=
  nullable (fold_left (fun r c => deriv c r) cs r).

(** [r+] *)
Definition Plus (r : re) : re := Seq r (Star r).

(** [/^r$/.test(s)] *)
Definition test (r : re) (s : string) : bool :=
  matches r (list_ascii_of_string s).

End Regex.

(** [[\w.-]]: a letter, a digit, an underscore, a dot or a hyphen. *)
Definition word_dot_hyphen (c : ascii) : bool :=
  Node.is_alnum c || Node.one_of "_.-" c.

(** [/^[\w.-]+@[\w.-]+$/] *)
Definition upiRegex : Regex.re :=
  Regex.Seq (Regex.Plus (Regex.Class word_dot_hyphen))
    (Regex.Seq (Regex.Class (Ascii.eqb "@"))
       (Regex.Plus (Regex.Class word_dot_hyphen))).

(** ** [settingController.js]

    The settings document is read through [Settings.getSettings] and
    written back with [save]; the handlers are written with the world
    passed from one awaited call to the next. *)

(** Assigning [merchantUPI] runs the schema's [trim] setter. *)
Definition set_merchantUPI (v : string) (s : Settings) : Settings :=
  {| merchantUPI := Js.trim v; merchantSecret := merchantSecret s;
     siteName := siteName s; siteEmail := siteEmail s;
     settingsVersion := settingsVersion s |}.

Definition set_merchantSecret (v : string) (s : Settings) : Settings :=
  {| merchantUPI := merchantUPI s; merchantSecret := v;
     siteName := siteName s; siteEmail := siteEmail s;
     settingsVersion := settingsVersion s |}.

Definition set_siteName (v : string) (s : Settings) : Settings :=
  {| merchantUPI := merchantUPI s; merchantSecret := merchantSecret s;
     siteName := v; siteEmail := siteEmail s;
     settingsVersion := settingsVersion s |}.

Definition set_siteEmail (v : string) (s : Settings) : Settings :=
  {| merchantUPI := merchantUPI s; merchantSecret := merchantSecret s;
     siteName := siteName s; siteEmail := v;
     settingsVersion := settingsVersion s |}.

Definition set_settingsVersion (v : Z) (s : Settings) : Settings :=
  {| merchantUPI := merchantUPI s; merchantSecret := merchantSecret s;
     siteName := siteName s; siteEmail := siteEmail s;
     settingsVersion := v |}.

(** The one validator of the settings schema: [required] on
    [merchantUPI], which an empty string fails. *)
Definition Settings_validate (s : Settings) : list string :=
  failing "merchantUPI" (negb (String.eqb (merchantUPI s) "")).

(** [await settings.save()] on the document [getSettings] returned. *)
Definition Settings_save (cur : Settings) (w : World) : saved * World :=
  match Settings_validate cur with
  | [] => (Saved, with_settings (Some cur) w)
  | paths => (Rejected (ValidationError paths), w)
  end.

(** The fields of [req.body] that [updateSettings] reads, strings when
    they are present. *)
Record SettingsBody := {
  put_merchantUPI : option string;
  put_merchantSecret : option string;
  put_siteName : option string;
  put_siteEmail : option string
}.

(** A response body whose members are values or, one level down,
    objects of values. *)
Inductive part :=
| Plain (f : field)
| Nested (fields : list (string * field)).

Record Reply := {
  reply_status : Z;
  reply_body : list (string * part)
}.

Definition reply (code : Z) (body : list (string * part)) : Reply :=
  {| reply_status := code; reply_body := body |}.

(** [if (v) settings.path = v] *)
Definition assign_if_truthy (v : option string) (set : string -> Settings -> Settings)
    (s : Settings) : Settings :=
  if Js.falsy_str v then s else set (default "" v) s.

Module SettingController.

Definition data (settings : Settings) : part :=
  Nested [("merchantUPI", FStr (merchantUPI settings));
          ("siteName", FStr (siteName settings));
          ("siteEmail", FStr (siteEmail settings))].

(** GET /api/settings *)
Definition getSettings (w : World) : Reply * World :=
  match run Settings_getSettings w with
  | (Returned settings, w1) =>
      (reply 200 [("success", Plain (FBool true)); ("data", data settings)], w1)
  | (Threw error, w1) =>
      (reply 500 [("success", Plain (FBool false));
                  ("error", Plain (FStr "Failed to fetch settings"));
                  ("message", Plain (FMessage error))], w1)
  end.

(** PUT /api/settings *)
Definition updateSettings (body : SettingsBody) (w : World) : Reply * World :=
  let failed error :=
    reply 500 [("success", Plain (FBool false));
               ("error", Plain (FStr "Failed to update settings"));
               ("message", Plain (FMessage error))] in
  match run Settings_getSettings w with
  | (Returned loaded, w1) =>
      let s1 := assign_if_truthy (put_merchantUPI body) set_merchantUPI loaded in
      let s2 := assign_if_truthy (put_merchantSecret body) set_merchantSecret s1 in
      let s3 := assign_if_truthy (put_siteName body) set_siteName s2 in
      let s4 := assign_if_truthy (put_siteEmail body) set_siteEmail s3 in
      let settings := set_settingsVersion (settingsVersion s4 + 1) s4 in
      match Settings_save settings w1 with
      | (Saved, w2) =>
          (reply 200 [("success", Plain (FBool true));
                      ("message", Plain (FStr "Settings updated successfully"));
                      ("data", data settings)], w2)
      | (Rejected error, w2) => (failed error, w2)
      end
  | (Threw error, w1) => (failed error, w1)
  end.

(** GET /api/settings/merchant-upi *)
Definition getMerchantUPI (w : World) : Reply * World :=
  match run Settings_getSettings w with
  | (Returned settings, w1) =>
      (reply 200 [("success", Plain (FBool true));
                  ("upi", Plain (FStr (merchantUPI settings)))], w1)
  | (Threw _, w1) =>
      (reply 500 [("success", Plain (FBool false));
                  ("error", Plain (FStr "Failed to fetch merchant UPI"))], w1)
  end.

End SettingController.

(** The other copy of the model and of the controller.  The model
    differs in the default of [merchantSecret]; the controller tests the
    format of the address before it reads the settings, assigns every
    field the body names, the empty string included, and trims what it
    assigns. *)

(** [x || ''] on a string. *)
Definition or_empty (x : string) : string := if String.eqb x "" then "" else x.

(** [if (v !== undefined) settings.path = f(v)] *)
Definition assign_if_defined (v : option string) (set : string -> Settings -> Settings)
    (s : Settings) : Settings :=
  match v with
  | Some x => set x s
  | None => s
  end.

Module SettingControllerChecked.

Definition Settings_defaults : Settings := {|
  merchantUPI := "mstandwafuelcentre@sbi";
  merchantSecret := "mysupersecretkey";
  siteName := "My E-Commerce Store";
  siteEmail := "admin@example.com";
  settingsVersion := 1
|}.

(** [Settings.getSettings()]: what it catches it throws again. *)
Definition Settings_getSettings (w : World) : Outcome Settings * World :=
  match settings w with
  | Some found => (Returned found, w)
  | None => (Returned Settings_defaults, with_settings (Some Settings_defaults) w)
  end.

(** GET /api/settings *)
Definition getSettings (w : World) : Reply * World :=
  match Settings_getSettings w with
  | (Returned settings, w1) =>
      (reply 200
         [("success", Plain (FBool true));
          ("data", Nested [("merchantUPI", FStr (or_empty (merchantUPI settings)));
                           ("siteName", FStr (or_empty (siteName settings)));
                           ("siteEmail", FStr (or_empty (siteEmail settings)))])], w1)
  | (Threw error, w1) =>
      (reply 500 [("success", Plain (FBool false));
                  ("error", Plain (FStr "Failed to fetch settings"));
                  ("message", Plain (FMessage error))], w1)
  end.

(** PUT /api/settings *)
Definition updateSettings (body : SettingsBody) (w : World) : Reply * World :=
  let failed error :=
    reply 500 [("success", Plain (FBool false));
               ("error", Plain (FStr "Failed to update settings"));
               ("message", Plain (FMessage error))] in
  if negb (Js.falsy_str (put_merchantUPI body))
     && negb (Regex.test upiRegex (Js.trim (default "" (put_merchantUPI body))))
  then
    (reply 400 [("success", Plain (FBool false));
                ("error", Plain (FStr "Invalid UPI ID format. Example: yourname@upi"))],
     w)
  else
    match Settings_getSettings w with
    | (Returned loaded, w1) =>
        let s1 := assign_if_defined (option_map Js.trim (put_merchantUPI body))
                    set_merchantUPI loaded in
        let s2 := assign_if_defined (put_merchantSecret body) set_merchantSecret s1 in
        let s3 := assign_if_defined (option_map Js.trim (put_siteName body))
                    set_siteName s2 in
        let s4 := assign_if_defined (option_map Js.trim (put_siteEmail body))
                    set_siteEmail s3 in
        let settings := set_settingsVersion (settingsVersion s4 + 1) s4 in
        match Settings_save settings w1 with
        | (Saved, w2) =>
            (reply 200 [("success", Plain (FBool true));
                        ("message", Plain (FStr "Settings updated successfully"));
                        ("data", SettingController.data settings)], w2)
        | (Rejected error, w2) => (failed error, w2)
        end
    | (Threw error, w1) => (failed error, w1)
    end.

(** GET /api/settings/merchant-upi *)
Definition getMerchantUPI (w : World) : Reply * World :=
  match Settings_getSettings w with
  | (Returned settings, w1) =>
      (reply 200 [("success", Plain (FBool true));
                  ("upi", Plain (FStr (or_empty (merchantUPI settings))))], w1)
  | (Threw error, w1) =>
      (reply 500 [("success", Plain (FBool false));
                  ("error", Plain (FStr "Failed to fetch merchant UPI"));
                  ("message", Plain (FMessage error))], w1)
  end.

(** The settings this copy reads: the stored ones, or its defaults. *)
Definition current_settings (w : World) : Settings :=
  default Settings_defaults (settings w).

End SettingControllerChecked.

(** ** [middleware/validation.js] *)

(** The fields of [req.body] that the middleware reads. *)
Record PaymentBody := {
  pay_amount : Js.value;
  pay_payType : option string;
  pay_upi : option string
}.

(** What the middleware does with the request: it calls [next()], or it
    answers 400 with [success: false] and the list of errors. *)
Inductive Checked :=
| Next
| Refused (errors : list string).

Definition validatePaymentRequest (body : PaymentBody) : Checked :=
  let errors : list string := [] in
  let errors :=
    if Js.falsy (pay_amount body) then (errors ++ ["Amount is required"])%list
    else
      let parsedAmount := Js.parseFloat (pay_amount body) in
      let errors :=
        if is_NaN parsedAmount || Js.leb parsedAmount (Js.of_Z 0)
        then (errors ++ ["Amount must be a positive number"])%list else errors in
      if Js.ltb (Js.of_Z 100000) parsedAmount
      then (errors ++ ["Amount exceeds maximum limit"])%list else errors in
  let errors :=
    if Js.falsy_str (pay_payType body)
    then (errors ++ ["Payment type is required"])%list
    else if negb (Js.includes ["phonepe"; "paytm"; "PhonePe"; "Paytm"]
                    (default "" (pay_payType body)))
    then (errors ++ ["Invalid payment type. Must be phonepe or paytm"])%list
    else errors in
  let errors :=
    if Js.falsy_str (pay_upi body) then (errors ++ ["UPI ID is required"])%list
    else if negb (Regex.test upiRegex (Js.trim (default "" (pay_upi body))))
    then (errors ++ ["Invalid UPI ID format"])%list
    else errors in
  match errors with
  | [] => Next
  | _ => Refused errors
  end.

(** ** Names for the properties of the store and of the settings *)

(** A record satisfies the transaction schema. *)
Definition schema_valid (t : Transaction) : Prop := Transaction_validate t = [].

(** A store as the controller builds it: every record filed under its
    own [tid] and valid for the schema. *)
Definition sound_store (w : World) : Prop :=
  keyed_by_tid w /\ all_records schema_valid w.

(** The same world with another merchant secret in its settings. *)
Definition with_secret (secret : string) (w : World) : World :=
  with_settings (option_map (set_merchantSecret secret) (settings w)) w.

Definition with_body_secret (secret : option string) (b : SettingsBody) : SettingsBody :=
  {| put_merchantUPI := put_merchantUPI b; put_merchantSecret := secret;
     put_siteName := put_siteName b; put_siteEmail := put_siteEmail b |}.

(** The body the middleware sees when it stands before [createPayment]. *)
Definition body_of (req : CreateRequest) (upi : option string) : PaymentBody :=
  {| pay_amount := create_amount req; pay_payType := create_payType req;
     pay_upi := upi |}.

(** A string is a lower-case hexadecimal digest of [n] characters. *)
Definition lower_hex (n : nat) (s : string) : Prop :=
  String.length s = n
  /\ Forall (fun c => Node.one_of "0123456789abcdef" c = true) (list_ascii_of_string s).

(** The 200 answer of [checkPaymentStatus] for the document [transaction]. *)
Definition status_response (transaction : Transaction) : Response :=
  json 200 [("tid", FStr (tid transaction));
            ("status", FStr (status transaction));
            ("amount", FNum (amount transaction));
            ("payType", FStr (payType transaction));
            ("upi", FStr (upi transaction));
            ("createdAt", FDate (createdAt transaction));
            ("completedAt", opt_date (completedAt transaction))].

(** A pending transaction that belongs to an order. *)
Module Linked.

Definition order_id : ObjectId := "64b7f0c2a1d3e4f5a6b7c8d9".

Definition tx : Transaction :=
  {| tid := "cwlp3k9x2a7f1"; userId := None; orderId := Some order_id;
     amount := Js.of_Z 250; payType := "paytm"; upi := "shop@upi";
     status := "pending";
     payload := payload Sample.tx; signature := signature Sample.tx;
     redirectUrl := "paytmmp://cash_wallet"; note := "s417";
     upiRef := None; expires := 1700000600000; completedAt := None;
     errorMessage := None;
     createdAt := 1700000000250; updatedAt := 1700000000250 |}.

Definition order : Order :=
  {| order_userId := None;
     order_orderNumber := Some "ORD1700000000000042";
     order_deliveryAddress :=
       {| address_fullName := Some "A Buyer"; address_phone := Some "9000000000";
          address_pincode := Some "110001"; address_address := Some "1 Main Road";
          address_city := Some "Delhi"; address_state := Some "Delhi" |};
     order_products :=
       [ {| product_productId := Some "p1"; product_name := Some "Rice";
            product_brand := Some "Acme"; product_weight := Some "1 kg";
            product_image := None; product_category := None;
            product_mrp := Some (Js.of_Z 130); product_dmartPrice := Some (Js.of_Z 125);
            product_discount := Some (Js.of_Z 5);
            product_discountPercent := Some (Js.of_Z 4);
            product_quantity := Some (Js.of_Z 2);
            product_totalPrice := Some (Js.of_Z 250);
            product_isVeg := Some true; product_rating := Some (Js.of_Z 4) |} ];
     order_orderSummary :=
       {| summary_totalItems := Some (Js.of_Z 2); summary_subtotal := Some (Js.of_Z 250);
          summary_totalMRP := Some (Js.of_Z 260);
          summary_totalSavings := Some (Js.of_Z 10);
          summary_couponDiscount := Some (Js.of_Z 0);
          summary_deliveryFee := Some (Js.of_Z 0);
          summary_finalTotal := Some (Js.of_Z 250) |};
     order_couponUsed :=
       {| coupon_code := None; coupon_discount := Some (Js.of_Z 0);
          coupon_discountType := None |};
     order_status := "pending";
     order_paymentMethod := Some "online";
     order_paymentStatus := "pending";
     order_dataSource := Some "cart" |}.

(** The same order as an older version of the application left it:
    without [dataSource], which the schema requires. *)
Definition legacy_order : Order :=
  set_order_top (order_userId order) (order_orderNumber order)
    (order_paymentMethod order) None order.

Definition world_with (o : Order) (now : Z) : World :=
  {| transactions := {[ "cwlp3k9x2a7f1" := tx ]};
     orders := {[ order_id := o ]};
     settings := Some Settings_defaults;
     clock := now;
     entropy := [];
     ticks := [] |}.

Definition world (now : Z) : World := world_with order now.

End Linked.

(** The transaction [t] names no order that fails its schema once
    verify or the webhook have assigned it the report [s]: [order.save()]
    is not called, or goes through. *)
Definition order_admits (s : string) (w : World) (t : Transaction) : Prop :=
  forall id o,
    orderId t = Some id -> orders w !! id = Some o ->
    Order_validate (Order_settle s o) = [].

(** An order that satisfies its schema. *)
Definition order_valid (o : Order) : Prop := Order_validate o = [].

(** The address [u] is the one in force in the world [w]: the payment
    controller reports it and files it in the next transaction. *)
Definition address_in_force (u : string) (w : World) : Prop :=
  fst (run getMerchantUPI w) = Returned (json 200 [("upi", FStr u)])
  /\ forall host req,
       acceptable host req w ->
       exists r w' tx,
         run (createPayment host req) w = (Returned r, w')
         /\ transactions w' !! next_tid host w = Some tx
         /\ upi tx = u.

(** The answers of [updateSettings] when it refuses. *)
Definition update_failed (error : Error) : Reply :=
  reply 500 [("success", Plain (FBool false));
             ("error", Plain (FStr "Failed to update settings"));
             ("message", Plain (FMessage error))].

Definition invalid_upi_format : Reply :=
  reply 400 [("success", Plain (FBool false));
             ("error", Plain (FStr "Invalid UPI ID format. Example: yourname@upi"))].

(** The strings a pattern stands for. *)
Inductive lang : Regex.re -> list ascii -> Prop :=
| lang_eps : lang Regex.Eps []
| lang_class p c : p c = true -> lang (Regex.Class p) [c]
| lang_seq r s u v : lang r u -> lang s v -> lang (Regex.Seq r s) (u ++ v)
| lang_alt_l r s u : lang r u -> lang (Regex.Alt r s) u
| lang_alt_r r s u : lang s u -> lang (Regex.Alt r s) u
| lang_star_nil r : lang (Regex.Star r) []
| lang_star_cons r u v :
    lang r u -> lang (Regex.Star r) v -> lang (Regex.Star r) (u ++ v).


(** Two settings documents that show the same: equal but for the
    secret and the version counter. *)
Definition shows_same (a b : Settings) : Prop :=
  merchantUPI a = merchantUPI b /\ siteName a = siteName b
  /\ siteEmail a = siteEmail b.

(** * Properties *)

#[local] Arguments createHmac_sha256_hex : simpl never.
#[local] Arguments createSignature : simpl never.
#[local] Arguments MERCHANT_SECRET : simpl never.
#[local] Arguments toString10 : simpl never.
#[local] Arguments template : simpl never.
#[local] Arguments Js.includes : simpl never.
#[local] Arguments Settings_getSettings : simpl never.
#[local] Arguments generateTransactionId : simpl never.
#[local] Arguments generateNote : simpl never.
#[local] Arguments build_phonepe : simpl never.
#[local] Arguments build_paytm : simpl never.
#[local] Arguments Js.parseFloat : simpl never.
#[local] Arguments Js.trim : simpl never.
#[local] Arguments Js.toLowerCase : simpl never.
#[local] Arguments Node.test : simpl never.
#[local] Arguments Js.leb : simpl never.
#[local] Arguments Js.ltb : simpl never.
#[local] Arguments Js.of_Z : simpl never.
#[local] Arguments is_ObjectId : simpl never.
#[local] Arguments Transaction_validate : simpl never.
#[local] Arguments Transaction_new : simpl never.

(** ** The runtime model on known values *)

(** FIPS 180-4, the one-block message. *)
Example sha256_abc :
  Bytes.hex (Sha256.digest (Bytes.of_string "abc"))
  = "ba7816bf8f01cfea414140de5dae2223b00361a396177a9cb410ff61f20015ad".
Proof. vm_compute. reflexivity. Qed.

(** RFC 4231, test case 2. *)
Example hmac_rfc4231_case2 :
  Bytes.hex (Hmac.hmac_sha256 (Bytes.of_string "Jefe")
               (Bytes.of_string "what do ya want for nothing?"))
  = "5bdcc146bf60754e6a042426089575c75a003f089d2739839dec58b964ec3843".
Proof. vm_compute. reflexivity. Qed.

(** [parseFloat] rounds a decimal to the nearest binary64 value, and the
    product with 100 is rounded again before [Math.floor] sees it. *)
Example parseFloat_19_99 :
  Js.parseFloat_string "19.99" = S754_finite false 5626684784446013 (-48).
Proof. vm_compute. reflexivity. Qed.

Example floor_of_19_99_times_100 :
  Js.Math_floor (Js.mul (Js.parseFloat_string "19.99") (Js.of_Z 100)) = Js.of_Z 1998.
Proof. vm_compute. reflexivity. Qed.

Example parseFloat_prefix :
  Js.parseFloat_string "  -0.5e1abc" = Js.of_Z (-5)
  /\ Js.parseFloat_string "abc" = Js.NaN
  /\ Js.falsy (Js.Str "0") = false /\ Js.falsy (Js.Num (S754_zero false)) = true.
Proof. vm_compute. repeat split; reflexivity. Qed.

Example toString_shortest :
  map (fun s => RefHost.toString 10 (Js.parseFloat_string s))
    ["250.50"; "0.1"; "1e21"; "0.0000001"; "1998.9999999999998"]
  = ["250.5"; "0.1"; "1e+21"; "1e-7"; "1998.9999999999998"]
  /\ RefHost.toString 36 (Js.of_Z 1700000000000) = "loyw3v28".
Proof. vm_compute. split; reflexivity. Qed.

Example base64_and_percent :
  Node.base64 "ab" = "YWI="
  /\ Node.encodeURIComponent "shop@upi" = "shop%40upi"
  /\ Node.form_encode "a b~" = "a+b%7E".
Proof. vm_compute. repeat split; reflexivity. Qed.

(** ** Running programs *)
Lemma run_bind {A B : Type} (p : Prog A) (f : A -> Prog B) (w : World) :
  run (bind p f) w =
  match run p w with
  | (Returned a, w') => run (f a) w'
  | (Threw e, w') => (Threw e, w')
  end.
Proof.
  revert w. induction p as [a | e | X ev k IH]; intros w; cbn; try reflexivity.
  destruct (handle ev w) as [x w']. apply IH.
Qed.

Lemma run_try_catch {A : Type} (p : Prog A) (h : Error -> Prog A) (w : World) :
  run (try_catch p h) w =
  match run p w with
  | (Returned a, w') => (Returned a, w')
  | (Threw e, w') => run (h e) w'
  end.
Proof.
  revert w. induction p as [a | e | X ev k IH]; intros w; cbn; try reflexivity.
  destruct (handle ev w) as [x w']. apply IH.
Qed.

(** ** Resolve, branch by branch *)
Lemma falsy_str_Some (s : string) : s <> "" -> Js.falsy_str (Some s) = false.
Proof. intros H. cbn. now apply String.eqb_neq. Qed.

Lemma includes_cons (x a : string) (l : list string) :
  Js.includes (a :: l) x = String.eqb x a || Js.includes l x.
Proof. reflexivity. Qed.

Lemma not_in_enum_not_pending (s : string) :
  Js.includes Transaction_status_enum s = false -> String.eqb s "pending" = false.
Proof.
  unfold Transaction_status_enum. rewrite includes_cons.
  intros H. now apply orb_false_iff in H as [H _].
Qed.

(** Reading the clock changes nothing that is stored. *)
Lemma tick_stores (n : nat) (w : World) :
  transactions (Nat.iter n tick w) = transactions w
  /\ orders (Nat.iter n tick w) = orders w
  /\ settings (Nat.iter n tick w) = settings w
  /\ entropy (Nat.iter n tick w) = entropy w.
Proof.
  induction n as [|n IH]; [repeat split; reflexivity|].
  cbn. exact IH.
Qed.

(** The clock does not go back while a request is served. *)
Lemma clock_tick (w : World) : clock w <= clock (tick w).
Proof.
  unfold tick. cbn [clock].
  pose proof (N2Z.is_nonneg (hd 0%N (ticks w))). lia.
Qed.

Lemma reading_mono (n : nat) (w : World) : reading n w <= reading (S n) w.
Proof. unfold reading. cbn [Nat.iter]. apply clock_tick. Qed.

(** With nothing saved in between, the merge is the document itself. *)
Lemma Transaction_merge_self (tx cur : Transaction) :
  Transaction_merge tx tx cur =
  set_upiRef (upiRef cur) (set_completedAt (completedAt cur) (set_status (status cur) tx)).
Proof.
  unfold Transaction_merge. destruct tx, cur; cbn.
  repeat case_decide; subst; reflexivity.
Qed.

Lemma Order_merge_self (o cur : Order) :
  Order_merge o o cur
  = set_order_paymentStatus (order_paymentStatus cur)
      (set_order_status (order_status cur) o).
Proof.
  unfold Order_merge. destruct o, cur; cbn.
  repeat case_decide; subst; reflexivity.
Qed.

Lemma Order_merge_settle (s : string) (o : Order) :
  Order_merge o o (Order_settle s o) = Order_settle s o.
Proof. rewrite Order_merge_self. destruct o. reflexivity. Qed.

(** The order update of verify and of the webhook: the order the
    transaction names is loaded, assigned and saved when it satisfies its
    schema; when it does not, the save throws. *)
Lemma run_reconcile_by_save (tx : Transaction) (s : string) (w : World) :
  run (reconcile_by_save tx s) w =
  match orderId tx with
  | Some id =>
      match orders w !! id with
      | Some o =>
          match Order_validate (Order_settle s o) with
          | [] => (Returned tt, with_orders (orders_settled (orderId tx) s w) w)
          | paths => (Threw (ValidationError paths), w)
          end
      | None => (Returned tt, w)
      end
  | None => (Returned tt, w)
  end.
Proof.
  unfold reconcile_by_save, orders_settled. destruct (orderId tx) as [id|]; cbn.
  - destruct (orders w !! id) as [o|] eqn:Ho; cbn; [|reflexivity].
    destruct (Order_validate (Order_settle s o)) as [|p ps]; [|reflexivity].
    rewrite Ho. cbn. now rewrite Order_merge_settle.
  - reflexivity.
Qed.

(** The one of simulate and of the lazy expiry, which is made by query. *)
Lemma run_findByIdAndUpdate (id : option ObjectId) (upd : list (string * string))
    (w : World) :
  run (match id with
       | Some id => call (Order_findByIdAndUpdate id upd)
       | None => Ret tt
       end) w
  = (Returned tt, with_orders (orders_updated id upd w) w).
Proof.
  unfold orders_updated. destruct id as [id|]; cbn.
  - destruct (orders w !! id); cbn; [reflexivity|]. now destruct w.
  - now destruct w.
Qed.

Lemma verify_check (host : Host) (body : Body) (tx : Transaction) :
  signature_ok host Verify body tx = true ->
  negb (Js.falsy_str (body_signature body))
  && negb (String.eqb (default "" (body_signature body))
             (createHmac_sha256_hex (MERCHANT_SECRET host) (payload tx))) = false.
Proof.
  unfold signature_ok. cbn. intros H. rewrite <- negb_orb. now rewrite H.
Qed.

Lemma webhook_check (host : Host) (body : Body) (tx : Transaction) (t s : string) :
  body_tid body = Some t -> body_status body = Some s ->
  signature_ok host Webhook body tx = true ->
  negb (Js.falsy_str (body_signature body))
  && negb (String.eqb (default "" (body_signature body))
             (createHmac_sha256_hex (MERCHANT_SECRET host)
                (t ++ s ++ template host (body_amount body)))) = false.
Proof.
  unfold signature_ok. cbn. intros -> -> H. cbn in H.
  rewrite <- negb_orb. now rewrite H.
Qed.

Ltac enter Htid Hstatus Hstored :=
  unfold verifyPayment, paymentWebhook, simulatePayment;
  rewrite run_try_catch;
  rewrite Htid, Hstatus, !falsy_str_Some by assumption; cbn [orb default];
  cbn; rewrite Hstored; cbn; unfold createSignature.

Ltac pass_check Htid Hstatus Hsig :=
  lazymatch type of Hsig with
  | signature_ok _ Verify _ _ = true => rewrite (verify_check _ _ _ Hsig)
  | signature_ok _ Webhook _ _ = true =>
      rewrite (webhook_check _ _ _ _ _ Htid Hstatus Hsig)
  | _ => idtac
  end.

(** A settled record: nothing is written. *)
Lemma resolve_non_pending (host : Host) (ep : Endpoint) (body : Body) (w : World)
    (t s : string) (tx : Transaction) :
  body_tid body = Some t -> t <> "" ->
  body_status body = Some s -> s <> "" ->
  transactions w !! t = Some tx ->
  signature_ok host ep body tx = true ->
  status tx <> "pending" ->
  run (resolve host ep body) w =
  (Returned (match ep with Webhook => webhook_ack | _ => already (status tx) end), w).
Proof.
  intros Htid Ht Hstatus Hs Hstored Hsig Hst. apply String.eqb_neq in Hst.
  destruct ep; cbn [resolve]; enter Htid Hstatus Hstored;
    pass_check Htid Hstatus Hsig; rewrite Hst; reflexivity.
Qed.

(** No [tid] or no [status]: answered at once. *)
Lemma resolve_missing_field (host : Host) (ep : Endpoint) (body : Body) (w : World) :
  Js.falsy_str (body_tid body) || Js.falsy_str (body_status body) = true ->
  exists msg,
    run (resolve host ep body) w = (Returned (json 400 [("error", FStr msg)]), w).
Proof.
  intros H. destruct ep; cbn [resolve];
    unfold verifyPayment, paymentWebhook, simulatePayment;
    rewrite run_try_catch, H; cbn; eauto.
Qed.

Lemma resolve_not_found (host : Host) (ep : Endpoint) (body : Body) (w : World)
    (t s : string) :
  body_tid body = Some t -> t <> "" ->
  body_status body = Some s -> s <> "" ->
  transactions w !! t = None ->
  run (resolve host ep body) w =
  (Returned (json 404 [("error", FStr "Transaction not found")]), w).
Proof.
  intros Htid Ht Hstatus Hs Hnone.
  destruct ep; cbn [resolve]; enter Htid Hstatus Hnone; reflexivity.
Qed.

(** A signature that fails the endpoint's test. *)
Lemma resolve_bad_signature (host : Host) (ep : Endpoint) (body : Body) (w : World)
    (t s : string) (tx : Transaction) :
  body_tid body = Some t -> t <> "" ->
  body_status body = Some s -> s <> "" ->
  transactions w !! t = Some tx ->
  signature_ok host ep body tx = false ->
  run (resolve host ep body) w = (Returned invalid_signature, w).
Proof.
  intros Htid Ht Hstatus Hs Hstored Hsig. unfold signature_ok, signed_text in Hsig.
  destruct ep; try discriminate; cbn [resolve]; enter Htid Hstatus Hstored;
    rewrite ?Htid, ?Hstatus in Hsig; cbn in Hsig;
    apply orb_false_iff in Hsig as [-> ->]; reflexivity.
Qed.

Lemma handle_Date_now (w : World) : handle Date_now w = (clock w, tick w).
Proof. reflexivity. Qed.

(** A pending record and a request that passes the signature test: the
    handler reads the clock, saves the document it has assigned and
    updates the order. *)
Lemma resolve_pending (host : Host) (ep : Endpoint) (body : Body) (w : World)
    (t s : string) (tx : Transaction) :
  body_tid body = Some t -> t <> "" ->
  body_status body = Some s -> s <> "" ->
  transactions w !! t = Some tx ->
  signature_ok host ep body tx = true ->
  status tx = "pending" ->
  run (resolve host ep body) w =
  match handle (Transaction_save tx (reported host ep body w tx))
          (Nat.iter (readings_before_save ep) tick w) with
  | (Saved, w1) =>
      match ep with
      | Simulate =>
          (Returned (applied_response ep t s tx),
           with_orders (orders_updated (orderId tx) (simulate_update s) w1) w1)
      | _ =>
          match run (reconcile_by_save tx s) w1 with
          | (Returned _, w2) => (Returned (applied_response ep t s tx), w2)
          | (Threw e, w2) => (Returned (save_failed ep e), w2)
          end
      end
  | (Rejected e, w1) => (Returned (save_failed ep e), w1)
  end.
Proof.
  intros Htid Ht Hstatus Hs Hstored Hsig Hst.
  unfold reported. rewrite Hstatus. cbn [default].
  destruct ep; cbn [resolve readings_before_save Nat.iter];
    match goal with |- _ = ?r => set (rhs := r) end;
    enter Htid Hstatus Hstored;
    pass_check Htid Hstatus Hsig; rewrite Hst; cbn -[handle];
    rewrite ?handle_Date_now; cbn -[handle]; subst rhs.
  - destruct (handle _ _) as [[|e] w1]; cbn -[handle]; [|reflexivity].
    rewrite run_bind.
    change (reconcile_by_save (set_completedAt (Some (clock w)) (set_status s tx)) s)
      with (reconcile_by_save tx s).
    destruct (run (reconcile_by_save tx s) w1) as [[[]|e] w2]; reflexivity.
  - assert (E : forall cur : Transaction,
               orderId cur = orderId tx -> reconcile_by_save cur s = reconcile_by_save tx s).
    { intros cur H. unfold reconcile_by_save. now rewrite H. }
    destruct (Js.falsy_str (body_upi_ref body));
      (destruct (handle _ _) as [[|e] w1]; cbn -[handle]; [|reflexivity]);
      rewrite run_bind, E by reflexivity;
      destruct (run (reconcile_by_save tx s) w1) as [[[]|e] w2]; reflexivity.
  - change (clock (tick w)) with (reading 1 w).
    destruct (handle _ _) as [[|e] w1]; cbn -[handle]; [|reflexivity].
    rewrite run_bind.
    change (orderId (set_upiRef (Some ("SIM" ++ toString10 host (Js.of_Z (reading 1 w))))
                       (set_completedAt (Some (clock w)) (set_status s tx))))
      with (orderId tx).
    pose proof (run_findByIdAndUpdate (orderId tx) (simulate_update s) w1) as Hq.
    unfold simulate_update in Hq |- *. rewrite Hq. reflexivity.
Qed.

(** A [save] that passes validation files the assigned paths under the
    record's key and touches nothing else. *)
Lemma save_loaded (w : World) (t : string) (tx cur : Transaction) :
  transactions w !! t = Some tx -> tid tx = t ->
  Transaction_validate cur = [] ->
  same_creation tx cur ->
  exists tx' w',
    handle (Transaction_save tx cur) w = (Saved, w')
    /\ status tx' = status cur /\ completedAt tx' = completedAt cur
    /\ upiRef tx' = upiRef cur /\ same_creation tx tx'
    /\ transactions w' = <[t := tx']> (transactions w)
    /\ orders w' = orders w /\ settings w' = settings w
    /\ entropy w' = entropy w.
Proof.
  intros Hstored Hkey Hvalid Hsame. cbn. rewrite Hvalid, Hkey, Hstored.
  destruct (Transaction_modified tx cur) eqn:Hmod.
  - exists (set_updatedAt (clock w) (Transaction_merge tx tx cur)). eexists.
    split; [reflexivity|]. rewrite Transaction_merge_self.
    cbn. unfold same_creation. cbn. repeat split; reflexivity.
  - exists tx, w. split; [reflexivity|].
    unfold Transaction_modified in Hmod. apply negb_false_iff in Hmod.
    apply andb_true_iff in Hmod as [Hmod H3]. apply andb_true_iff in Hmod as [H1 H2].
    apply bool_decide_eq_true in H1, H2, H3.
    rewrite (insert_id _ _ _ Hstored).
    unfold same_creation. repeat split; congruence.
Qed.

Lemma save_rejected (w : World) (tx cur : Transaction) :
  Transaction_validate cur <> [] ->
  handle (Transaction_save tx cur) w
  = (Rejected (ValidationError (Transaction_validate cur)), w).
Proof.
  intros H. cbn. destruct (Transaction_validate cur); [contradiction | reflexivity].
Qed.

(** ** Create, step by step *)
Lemma positive_not_falsy (v : Js.value) :
  Js.ltb (Js.of_Z 0) (Js.parseFloat v) = true -> Js.falsy v = false.
Proof.
  destruct v as [| x | s]; cbn.
  - discriminate.
  - destruct x; try reflexivity; discriminate.
  - destruct s; [discriminate | reflexivity].
Qed.

Lemma positive_valid (x : Js.number) :
  Js.ltb (Js.of_Z 0) x = true -> negb (is_NaN x) && Js.leb (Js.of_Z 0) x = true.
Proof.
  destruct x as [s | s | | s m e]; cbn; try discriminate;
    destruct s; cbn; discriminate || reflexivity.
Qed.

Lemma negative_invalid (x : Js.number) :
  Js.ltb x (Js.of_Z 0) = true -> negb (is_NaN x) && Js.leb (Js.of_Z 0) x = false.
Proof.
  destruct x as [s | s | | s m e]; cbn; try discriminate; try reflexivity;
    destruct s; cbn; discriminate || reflexivity.
Qed.

(** [getSettings] returns the settings in force and leaves them stored. *)
Lemma run_getSettings (w : World) :
  run Settings_getSettings w
  = (Returned (current_settings w), with_settings (Some (current_settings w)) w).
Proof.
  unfold Settings_getSettings, current_settings. cbn.
  destruct w as [t o [s|] c e k]; reflexivity.
Qed.

Lemma run_generateTransactionId (host : Host) (w : World) :
  run (generateTransactionId host) w =
  (Returned (next_tid host w), with_entropy (tl (entropy w)) (tick w)).
Proof.
  unfold generateTransactionId, next_tid, draw. cbn.
  destruct w as [txs os st c en tk]; destruct en; reflexivity.
Qed.

Lemma run_generateNote (host : Host) (w : World) :
  run (generateNote host) w =
  (Returned ("s" ++ toString10 host
               (Js.add (Js.Math_floor (Js.mul (draw 0 w) (Js.of_Z 900))) (Js.of_Z 100))),
   with_entropy (tl (entropy w)) w).
Proof.
  unfold generateNote, draw. cbn.
  destruct w as [txs os st c en tk]; destruct en; reflexivity.
Qed.

Lemma draw_tl (w : World) : draw 0 (with_entropy (tl (entropy w)) w) = draw 1 w.
Proof. unfold draw. cbn. destruct (entropy w) as [|a [|b l]]; reflexivity. Qed.

(** What [at_save] keeps of the world, and what it reads next. *)
Lemma at_save_stores (w : World) :
  transactions (at_save w) = transactions w /\ orders (at_save w) = orders w
  /\ settings (at_save w) = Some (current_settings w)
  /\ clock (at_save w) = reading 2 w.
Proof. repeat split; reflexivity. Qed.

(** Once the two input checks pass, [createPayment] reads the settings,
    draws the identifier and the note, and tries to save the document. *)
Lemma createPayment_reaches_save (host : Host) (req : CreateRequest) (w : World) :
  Js.falsy (create_amount req) = false ->
  Js.falsy_str (create_payType req) = false ->
  Js.includes ["phonepe"; "paytm"] (paymentType req) = true ->
  run (createPayment host req) w =
  match handle (Transaction_save_new (document_for host req w)) (at_save w) with
  | (Saved, w2) => (Returned (json 200 (built_response (built_for host req w))), w2)
  | (Rejected e, w2) =>
      (Returned (json 500 [("error", FStr "Failed to create payment");
                           ("message", FMessage e)]), w2)
  end.
Proof.
  intros Ha Hp Hin. unfold createPayment. rewrite run_try_catch, Ha, Hp.
  cbn [orb]. fold (paymentType req). rewrite Hin. cbn [negb].
  rewrite run_bind, run_getSettings.
  rewrite run_bind, run_generateTransactionId.
  cbn -[handle]. rewrite handle_Date_now. cbn -[handle].
  rewrite run_bind, run_generateNote. cbn -[handle].
  set (w0 := with_settings (Some (current_settings w)) w).
  assert (Hd : nth 0 (tail (entropy w)) (S754_zero false) = draw 1 w).
  { unfold draw. destruct (entropy w) as [|a [|b l]]; reflexivity. }
  change (entropy w0) with (entropy w). rewrite Hd.
  change (next_tid host w0) with (next_tid host w).
  change (clock (tick w0)) with (reading 1 w).
  change (with_entropy (tl (tl (entropy w)))
            (tick (with_entropy (tl (entropy w)) (tick w0))))
    with (at_save w).
  unfold document_for, built_for, paymentAmount, isIOS, isAndroid, next_note.
  destruct (handle _ _) as [[|e] w2]; reflexivity.
Qed.

Lemma payType_present (req : CreateRequest) :
  Js.includes ["phonepe"; "paytm"] (paymentType req) = true ->
  Js.falsy_str (create_payType req) = false.
Proof.
  unfold paymentType. destruct (create_payType req) as [[|c p]|];
    [discriminate | reflexivity | discriminate].
Qed.

Lemma failing_nil (path : string) (ok : bool) : failing path ok = [] <-> ok = true.
Proof. destruct ok; cbn; split; intros H; try reflexivity; discriminate H. Qed.

Lemma validate_nil (t : Transaction) :
  Transaction_validate t = [] <->
  negb (String.eqb (tid t) "") = true
  /\ casts_to_ObjectId (userId t) = true
  /\ casts_to_ObjectId (orderId t) = true
  /\ negb (is_NaN (amount t)) && Js.leb (Js.of_Z 0) (amount t) = true
  /\ Js.includes Transaction_payType_enum (payType t) = true
  /\ negb (String.eqb (upi t) "") = true
  /\ Js.includes Transaction_status_enum (status t) = true.
Proof.
  unfold Transaction_validate. rewrite !app_nil, !failing_nil. tauto.
Qed.

Lemma validate_all_ok (t : Transaction) :
  String.eqb (tid t) "" = false ->
  casts_to_ObjectId (userId t) = true ->
  casts_to_ObjectId (orderId t) = true ->
  negb (is_NaN (amount t)) && Js.leb (Js.of_Z 0) (amount t) = true ->
  Js.includes Transaction_payType_enum (payType t) = true ->
  String.eqb (upi t) "" = false ->
  Js.includes Transaction_status_enum (status t) = true ->
  Transaction_validate t = [].
Proof.
  intros H1 H2 H3 H4 H5 H6 H7. unfold Transaction_validate.
  now rewrite H1, H2, H3, H4, H5, H6, H7.
Qed.

Lemma validate_amount (t : Transaction) :
  negb (is_NaN (amount t)) && Js.leb (Js.of_Z 0) (amount t) = false ->
  In "amount" (Transaction_validate t).
Proof.
  intros H. unfold Transaction_validate. rewrite H.
  rewrite !in_app_iff. right. right. right. left. now left.
Qed.

Lemma validate_status (t : Transaction) :
  Js.includes Transaction_status_enum (status t) = false ->
  In "status" (Transaction_validate t).
Proof.
  intros H. unfold Transaction_validate. rewrite H.
  rewrite !in_app_iff. do 6 right. now left.
Qed.

Lemma tid_document_for (host : Host) (req : CreateRequest) (w : World) :
  tid (document_for host req w) = next_tid host w.
Proof. reflexivity. Qed.

(** The document of an acceptable request passes validation. *)
Lemma document_valid (host : Host) (req : CreateRequest) (w : World) :
  Js.leb (Js.of_Z 0) (paymentAmount req) = true ->
  is_NaN (paymentAmount req) = false ->
  Js.includes ["phonepe"; "paytm"] (paymentType req) = true ->
  Js.trim (merchantUPI (current_settings w)) <> "" ->
  castable_ids req ->
  Transaction_validate (document_for host req w) = [].
Proof.
  intros Hle Hnan Hin Hupi [Hu Ho]. apply validate_all_ok.
  - reflexivity.
  - exact Hu.
  - exact Ho.
  - cbn. change (amount _) with (paymentAmount req). now rewrite Hnan, Hle.
  - exact Hin.
  - cbn. now apply String.eqb_neq.
  - reflexivity.
Qed.

(** The world a successful [createPayment] leaves. *)
Lemma createPayment_ok (host : Host) (req : CreateRequest) (w : World) :
  Js.ltb (Js.of_Z 0) (paymentAmount req) = true ->
  Js.includes ["phonepe"; "paytm"] (paymentType req) = true ->
  Js.trim (merchantUPI (current_settings w)) <> "" ->
  castable_ids req ->
  transactions w !! next_tid host w = None ->
  run (createPayment host req) w =
  (Returned (json 200 (built_response (built_for host req w))),
   with_transactions
     (<[next_tid host w := stamp_new (reading 2 w) (document_for host req w)]>
        (transactions w))
     (tick (at_save w))).
Proof.
  intros Hpos Hin Hupi Hids Hfresh.
  rewrite createPayment_reaches_save;
    [| now apply positive_not_falsy | now apply payType_present | exact Hin].
  pose proof (positive_valid _ Hpos) as Hv. apply andb_true_iff in Hv as [Hn Hl].
  apply negb_true_iff in Hn.
  cbn. rewrite (document_valid host req w Hl Hn Hin Hupi Hids).
  rewrite tid_document_for. change (transactions (at_save w)) with (transactions w).
  rewrite Hfresh. reflexivity.
Qed.

(** A document that fails validation is not saved: the handler answers
    500 and nothing that was stored before has changed. *)
Lemma createPayment_invalid (host : Host) (req : CreateRequest) (w : World) (p : string) :
  Js.falsy (create_amount req) = false ->
  Js.falsy_str (create_payType req) = false ->
  Js.includes ["phonepe"; "paytm"] (paymentType req) = true ->
  In p (Transaction_validate (document_for host req w)) ->
  run (createPayment host req) w =
  (Returned (json 500 [("error", FStr "Failed to create payment");
                       ("message",
                         FMessage (ValidationError
                                     (Transaction_validate (document_for host req w))))]),
   at_save w).
Proof.
  intros Ha Hp Hin Hbad.
  rewrite (createPayment_reaches_save host req w Ha Hp Hin).
  cbn. destruct (Transaction_validate (document_for host req w)) as [|q qs] eqn:E.
  - destruct Hbad.
  - reflexivity.
Qed.

(** ** What each operation can do to the store *)
Lemma falsy_str_false (v : option string) :
  Js.falsy_str v = false -> exists s, v = Some s /\ s <> "".
Proof.
  destruct v as [s|]; cbn; [|discriminate].
  intros H. exists s. split; [reflexivity|]. now apply String.eqb_neq.
Qed.

Lemma same_creation_refl (t : Transaction) : same_creation t t.
Proof. unfold same_creation. repeat split; reflexivity. Qed.

Lemma same_creation_trans (a b c : Transaction) :
  same_creation a b -> same_creation b c -> same_creation a c.
Proof.
  unfold same_creation. intros H1 H2.
  destruct H1 as (?&?&?&?&?&?&?&?&?&?&?&?), H2 as (?&?&?&?&?&?&?&?&?&?&?&?).
  repeat split; congruence.
Qed.

(** Validation looks at the paths set at creation and at the status. *)
Lemma validate_congr (a b : Transaction) :
  same_creation a b -> status b = status a ->
  Transaction_validate b = Transaction_validate a.
Proof.
  intros (H1 & H2 & H3 & H4 & H5 & H6 & _) H7. unfold Transaction_validate.
  now rewrite H1, H2, H3, H4, H5, H6, H7.
Qed.

(** A record that differs from a valid one in the paths assigned after
    creation is valid when its status is one of the enum. *)
Lemma validate_same_creation (before after : Transaction) :
  same_creation before after ->
  Js.includes Transaction_status_enum (status after) = true ->
  schema_valid before -> schema_valid after.
Proof.
  unfold schema_valid. rewrite !validate_nil.
  intros (H1 & H2 & H3 & H4 & H5 & H6 & _) Hin (V1 & V2 & V3 & V4 & V5 & V6 & _).
  rewrite H1, H2, H3, H4, H5, H6. tauto.
Qed.

(** What a Resolve assigns before it saves. *)
Lemma reported_paths (host : Host) (ep : Endpoint) (body : Body) (w : World)
    (s : string) (tx : Transaction) :
  body_status body = Some s ->
  status (reported host ep body w tx) = s
  /\ completedAt (reported host ep body w tx) = Some (clock w)
  /\ same_creation tx (reported host ep body w tx).
Proof.
  intros Hs. unfold reported. rewrite Hs. cbn [default].
  destruct ep; [| destruct (Js.falsy_str (body_upi_ref body)) |];
    cbn; unfold same_creation; repeat split; reflexivity.
Qed.

Lemma reported_valid (host : Host) (ep : Endpoint) (body : Body) (w : World)
    (s : string) (tx : Transaction) :
  body_status body = Some s ->
  Js.includes Transaction_status_enum s = true ->
  schema_valid tx ->
  Transaction_validate (reported host ep body w tx) = [].
Proof.
  intros Hs Hin Hv.
  destruct (reported_paths host ep body w s tx Hs) as (H1 & _ & H3).
  apply (validate_same_creation tx); [exact H3 | now rewrite H1 | exact Hv].
Qed.

Lemma reported_invalid (host : Host) (ep : Endpoint) (body : Body) (w : World)
    (s : string) (tx : Transaction) :
  body_status body = Some s ->
  Js.includes Transaction_status_enum s = false ->
  In "status" (Transaction_validate (reported host ep body w tx)).
Proof.
  intros Hs Hin.
  destruct (reported_paths host ep body w s tx Hs) as (H1 & _ & _).
  apply validate_status. now rewrite H1.
Qed.

(** The [save] of a Resolve whose document passes validation. *)
Lemma resolve_saves (host : Host) (ep : Endpoint) (body : Body) (w : World)
    (t s : string) (tx : Transaction) :
  body_status body = Some s ->
  transactions w !! t = Some tx -> tid tx = t ->
  Transaction_validate (reported host ep body w tx) = [] ->
  exists tx' w1,
    handle (Transaction_save tx (reported host ep body w tx))
      (Nat.iter (readings_before_save ep) tick w) = (Saved, w1)
    /\ transition s (clock w) tx tx'
    /\ upiRef tx' = upiRef (reported host ep body w tx)
    /\ schema_valid tx'
    /\ transactions w1 = <[t := tx']> (transactions w)
    /\ orders w1 = orders w /\ settings w1 = settings w /\ entropy w1 = entropy w.
Proof.
  intros Hs Hstored Hkey Hvalid.
  destruct (reported_paths host ep body w s tx Hs) as (H1 & H2 & H3).
  destruct (tick_stores (readings_before_save ep) w) as (Et & Eo & Es & Ee).
  destruct (save_loaded (Nat.iter (readings_before_save ep) tick w) t tx
              (reported host ep body w tx))
    as (tx' & w1 & Hsave & S1 & S2 & S3 & S4 & Hmap & Ho & Hset & Hent);
    [now rewrite Et | exact Hkey | exact Hvalid | exact H3 |].
  exists tx', w1. split; [exact Hsave|].
  split; [split; [|split]; [congruence .. | exact S4]|].
  split; [exact S3|]. split.
  - unfold schema_valid. rewrite <- Hvalid. apply validate_congr; [|congruence].
    destruct S4 as (?&?&?&?&?&?&?&?&?&?&?&?), H3 as (?&?&?&?&?&?&?&?&?&?&?&?).
    unfold same_creation. repeat split; congruence.
  - rewrite Hmap, Ho, Hset, Hent, Et, Eo, Es, Ee. auto.
Qed.

(** A document that fails validation: [save] is rejected, nothing is
    written, only the clock was read. *)
Lemma resolve_save_rejected (host : Host) (ep : Endpoint) (body : Body) (w : World)
    (t s : string) (tx : Transaction) :
  body_tid body = Some t -> t <> "" ->
  body_status body = Some s -> s <> "" ->
  transactions w !! t = Some tx ->
  signature_ok host ep body tx = true ->
  status tx = "pending" ->
  Transaction_validate (reported host ep body w tx) <> [] ->
  run (resolve host ep body) w =
  (Returned (save_failed ep
               (ValidationError (Transaction_validate (reported host ep body w tx)))),
   Nat.iter (readings_before_save ep) tick w).
Proof.
  intros Htid Ht Hstatus Hs Hstored Hsig Hst Hbad.
  rewrite (resolve_pending host ep body w t s tx) by assumption.
  now rewrite save_rejected.
Qed.

Lemma admitted_order (s : string) (w : World) (tx : Transaction) :
  order_admits s w tx ->
  run (reconcile_by_save tx s) w
  = (Returned tt, with_orders (orders_settled (orderId tx) s w) w).
Proof.
  intros Hadm. rewrite run_reconcile_by_save. unfold orders_settled.
  destruct (orderId tx) as [id|] eqn:Hid; [|now destruct w].
  destruct (orders w !! id) as [o|] eqn:Ho; [|now destruct w].
  now rewrite (Hadm id o Hid Ho).
Qed.

(** A pending record that satisfies the schema, a status of the enum,
    the signature test passed, and an order that can be saved: the report
    is written and answered 200. *)
Lemma resolve_applied (host : Host) (ep : Endpoint) (body : Body) (w : World)
    (t s : string) (tx : Transaction) :
  body_tid body = Some t -> t <> "" ->
  body_status body = Some s -> s <> "" ->
  transactions w !! t = Some tx -> tid tx = t ->
  signature_ok host ep body tx = true ->
  status tx = "pending" ->
  Js.includes Transaction_status_enum s = true ->
  schema_valid tx ->
  ep = Simulate \/ order_admits s w tx ->
  exists tx' w',
    run (resolve host ep body) w = (Returned (applied_response ep t s tx), w')
    /\ transition s (clock w) tx tx'
    /\ upiRef tx' = upiRef (reported host ep body w tx)
    /\ transactions w' = <[t := tx']> (transactions w)
    /\ settings w' = settings w /\ entropy w' = entropy w
    /\ orders w' = match ep with
                   | Simulate => orders_updated (orderId tx) (simulate_update s) w
                   | _ => orders_settled (orderId tx) s w
                   end.
Proof.
  intros Htid Ht Hstatus Hs Hstored Hkey Hsig Hst Hin Hv Hord.
  rewrite (resolve_pending host ep body w t s tx) by assumption.
  destruct (resolve_saves host ep body w t s tx Hstatus Hstored Hkey)
    as (tx' & w1 & -> & Htr & Hup & _ & Hmap & Ho & Hset & Hent).
  { now apply (reported_valid host ep body w s tx). }
  assert (Hadm : ep <> Simulate -> order_admits s w1 tx).
  { intros Hep id o Hid Hl. destruct Hord as [-> | Hadm]; [contradiction|].
    rewrite Ho in Hl. exact (Hadm id o Hid Hl). }
  exists tx'.
  destruct ep.
  - rewrite (admitted_order s w1 tx) by (apply Hadm; discriminate).
    eexists. split; [reflexivity|]. cbn. unfold orders_settled. rewrite Ho. auto 10.
  - rewrite (admitted_order s w1 tx) by (apply Hadm; discriminate).
    eexists. split; [reflexivity|]. cbn. unfold orders_settled. rewrite Ho. auto 10.
  - eexists. split; [reflexivity|]. cbn. unfold orders_updated. rewrite Ho. auto 10.
Qed.

(** The same with an order that fails its schema: the transaction is
    written, then the order save throws and the answer is 500. *)
Lemma resolve_order_rejected (host : Host) (ep : Endpoint) (body : Body) (w : World)
    (t s : string) (tx : Transaction) (id : ObjectId) (o : Order) :
  body_tid body = Some t -> t <> "" ->
  body_status body = Some s -> s <> "" ->
  transactions w !! t = Some tx -> tid tx = t ->
  signature_ok host ep body tx = true ->
  status tx = "pending" ->
  Js.includes Transaction_status_enum s = true ->
  schema_valid tx ->
  ep <> Simulate ->
  orderId tx = Some id -> orders w !! id = Some o ->
  Order_validate (Order_settle s o) <> [] ->
  exists tx' w',
    run (resolve host ep body) w
    = (Returned (save_failed ep (ValidationError (Order_validate (Order_settle s o)))), w')
    /\ transition s (clock w) tx tx'
    /\ upiRef tx' = upiRef (reported host ep body w tx)
    /\ transactions w' = <[t := tx']> (transactions w)
    /\ settings w' = settings w /\ entropy w' = entropy w
    /\ orders w' = orders w.
Proof.
  intros Htid Ht Hstatus Hs Hstored Hkey Hsig Hst Hin Hv Hep Hid Ho Hbad.
  rewrite (resolve_pending host ep body w t s tx) by assumption.
  destruct (resolve_saves host ep body w t s tx Hstatus Hstored Hkey)
    as (tx' & w1 & -> & Htr & Hup & _ & Hmap & Ho1 & Hset & Hent).
  { now apply (reported_valid host ep body w s tx). }
  exists tx', w1.
  rewrite run_reconcile_by_save, Hid, Ho1, Ho.
  destruct (Order_validate (Order_settle s o)) as [|p ps]; [contradiction|].
  destruct ep; [| |contradiction]; auto 10.
Qed.

Lemma order_admits_dec (s : string) (w : World) (tx : Transaction) :
  order_admits s w tx
  \/ exists id o,
       orderId tx = Some id /\ orders w !! id = Some o
       /\ Order_validate (Order_settle s o) <> [].
Proof.
  unfold order_admits.
  destruct (orderId tx) as [id|]; [|left; intros ? ? [=]].
  destruct (orders w !! id) as [o|] eqn:Ho; [|left; intros ? ? [= <-]; congruence].
  destruct (Order_validate (Order_settle s o)) as [|p ps] eqn:Hv.
  - left. intros id' o' [= <-] Ho'. congruence.
  - right. exists id, o. rewrite Hv. repeat split; congruence.
Qed.

(** Either way the report is written to the transaction. *)
Lemma resolve_written (host : Host) (ep : Endpoint) (body : Body) (w : World)
    (t s : string) (tx : Transaction) :
  body_tid body = Some t -> t <> "" ->
  body_status body = Some s -> s <> "" ->
  transactions w !! t = Some tx -> tid tx = t ->
  signature_ok host ep body tx = true ->
  status tx = "pending" ->
  Js.includes Transaction_status_enum s = true ->
  schema_valid tx ->
  exists r tx' w',
    run (resolve host ep body) w = (Returned r, w')
    /\ transition s (clock w) tx tx'
    /\ upiRef tx' = upiRef (reported host ep body w tx)
    /\ transactions w' = <[t := tx']> (transactions w)
    /\ settings w' = settings w /\ entropy w' = entropy w
    /\ (ep = Simulate \/ order_admits s w tx ->
        r = applied_response ep t s tx
        /\ orders w' = match ep with
                       | Simulate => orders_updated (orderId tx) (simulate_update s) w
                       | _ => orders_settled (orderId tx) s w
                       end)
    /\ (forall id o,
          ep <> Simulate -> orderId tx = Some id -> orders w !! id = Some o ->
          Order_validate (Order_settle s o) <> [] ->
          r = save_failed ep (ValidationError (Order_validate (Order_settle s o)))
          /\ orders w' = orders w).
Proof.
  intros Htid Ht Hstatus Hs Hstored Hkey Hsig Hst Hin Hv.
  assert (Hcase : ep = Simulate \/ order_admits s w tx
                  \/ (ep <> Simulate
                      /\ exists id o,
                           orderId tx = Some id /\ orders w !! id = Some o
                           /\ Order_validate (Order_settle s o) <> [])).
  { destruct (order_admits_dec s w tx) as [H | H]; [right; now left|].
    destruct ep; [right; right | right; right | now left];
      (split; [discriminate | exact H]). }
  assert (Hgood : ep = Simulate \/ order_admits s w tx ->
            forall id o,
              ep <> Simulate -> orderId tx = Some id -> orders w !! id = Some o ->
              Order_validate (Order_settle s o) <> [] -> False).
  { intros [E | Hadm] id o Hep Hid Ho Hbad; [contradiction|].
    exact (Hbad (Hadm id o Hid Ho)). }
  destruct Hcase as [E | [Hadm | (Hep & id & o & Hid & Ho & Hbad)]].
  - destruct (resolve_applied host ep body w t s tx)
      as (tx' & w' & Hrun & Htr & Hup & Hmap & Hset & Hent & Hord);
      try assumption; [now left|].
    exists (applied_response ep t s tx), tx', w'.
    repeat (split; [assumption|]). split; [auto|].
    intros id o Hep. contradiction.
  - destruct (resolve_applied host ep body w t s tx)
      as (tx' & w' & Hrun & Htr & Hup & Hmap & Hset & Hent & Hord);
      try assumption; [now right|].
    exists (applied_response ep t s tx), tx', w'.
    repeat (split; [assumption|]). split; [auto|].
    intros id o Hep Hid Ho Hbad. destruct (Hbad (Hadm id o Hid Ho)).
  - destruct (resolve_order_rejected host ep body w t s tx id o)
      as (tx' & w' & Hrun & Htr & Hup & Hmap & Hset & Hent & Hord); try assumption.
    exists (save_failed ep (ValidationError (Order_validate (Order_settle s o)))), tx', w'.
    repeat (split; [assumption|]). split.
    + intros Hg. destruct (Hgood Hg id o Hep Hid Ho Hbad).
    + intros id' o' _ Hid' Ho'. assert (id' = id) as -> by congruence.
      assert (o' = o) as -> by congruence. auto.
Qed.

(** What a Resolve can do, whatever it is sent: leave the transactions
    as they are, or make the one transition of a pending record to the
    reported status. *)
Lemma resolve_cases (host : Host) (ep : Endpoint) (body : Body) (w : World) :
  keyed_by_tid w ->
  exists r w',
    run (resolve host ep body) w = (Returned r, w')
    /\ (transactions w' = transactions w
        \/ exists t s tx tx',
             body_tid body = Some t /\ body_status body = Some s
             /\ transactions w !! t = Some tx /\ status tx = "pending"
             /\ signature_ok host ep body tx = true
             /\ schema_valid tx'
             /\ transition s (clock w) tx tx'
             /\ transactions w' = <[t := tx']> (transactions w)).
Proof.
  intros Hkey.
  destruct (Js.falsy_str (body_tid body) || Js.falsy_str (body_status body)) eqn:Hf.
  { destruct (resolve_missing_field host ep body w Hf) as [msg ->]. eauto. }
  apply orb_false_iff in Hf as [Hf1 Hf2].
  destruct (falsy_str_false _ Hf1) as (t & Htid & Ht).
  destruct (falsy_str_false _ Hf2) as (s & Hstatus & Hs).
  destruct (transactions w !! t) as [tx|] eqn:Hstored.
  2: { rewrite (resolve_not_found host ep body w t s) by assumption. eauto. }
  destruct (signature_ok host ep body tx) eqn:Hsig.
  2: { rewrite (resolve_bad_signature host ep body w t s tx) by assumption. eauto. }
  destruct (decide (status tx = "pending")) as [Hst|Hst].
  2: { rewrite (resolve_non_pending host ep body w t s tx) by assumption. eauto. }
  destruct (Transaction_validate (reported host ep body w tx)) as [|p ps] eqn:Hval.
  2: { rewrite (resolve_save_rejected host ep body w t s tx) by (congruence || assumption).
       eexists _, _. split; [reflexivity|]. left.
       now destruct (tick_stores (readings_before_save ep) w). }
  rewrite (resolve_pending host ep body w t s tx) by assumption.
  destruct (resolve_saves host ep body w t s tx Hstatus Hstored (Hkey _ _ Hstored) Hval)
    as (tx' & w1 & -> & Htr & _ & Hv' & Hmap & Ho & _).
  assert (Hfin : forall w', transactions w' = transactions w1 ->
            transactions w' = transactions w
            \/ exists t0 s0 tx0 tx0',
                 body_tid body = Some t0 /\ body_status body = Some s0
                 /\ transactions w !! t0 = Some tx0 /\ status tx0 = "pending"
                 /\ signature_ok host ep body tx0 = true
                 /\ schema_valid tx0'
                 /\ transition s0 (clock w) tx0 tx0'
                 /\ transactions w' = <[t0 := tx0']> (transactions w)).
  { intros w' E. right. exists t, s, tx, tx'. rewrite E. auto 10. }
  destruct ep.
  - rewrite run_reconcile_by_save.
    destruct (orderId tx) as [id|];
      [destruct (orders w1 !! id) as [o|];
       [destruct (Order_validate (Order_settle s o))|]|];
      eexists _, _; (split; [reflexivity|]); apply Hfin; reflexivity.
  - rewrite run_reconcile_by_save.
    destruct (orderId tx) as [id|];
      [destruct (orders w1 !! id) as [o|];
       [destruct (Order_validate (Order_settle s o))|]|];
      eexists _, _; (split; [reflexivity|]); apply Hfin; reflexivity.
  - eexists _, _. split; [reflexivity|]. apply Hfin. reflexivity.
Qed.

Lemma keyed_insert (w w' : World) (t : string) (tx : Transaction) :
  keyed_by_tid w -> tid tx = t ->
  transactions w' = <[t := tx]> (transactions w) ->
  keyed_by_tid w'.
Proof.
  intros Hk Ht Hmap k u. rewrite Hmap. rewrite lookup_insert.
  case_decide as E.
  - intros [= <-]. congruence.
  - apply Hk.
Qed.

Lemma keyed_same (w w' : World) :
  keyed_by_tid w -> transactions w' = transactions w -> keyed_by_tid w'.
Proof. intros Hk E k u. rewrite E. apply Hk. Qed.

Lemma transition_tid (s : string) (now : Z) (tx tx' : Transaction) :
  transition s now tx tx' -> tid tx' = tid tx.
Proof. intros (_ & _ & H & _). exact H. Qed.

(** A record that has left [pending] is out of reach of Resolve. *)
Lemma resolve_keeps_settled (host : Host) (ep : Endpoint) (body : Body) (w : World)
    (t : string) (tx : Transaction) :
  keyed_by_tid w ->
  transactions w !! t = Some tx -> status tx <> "pending" ->
  exists r w',
    run (resolve host ep body) w = (Returned r, w')
    /\ transactions w' !! t = Some tx /\ keyed_by_tid w'.
Proof.
  intros Hkey Hstored Hst.
  destruct (resolve_cases host ep body w Hkey) as (r & w' & Hrun & [E | Hcase]).
  - exists r, w'. split; [exact Hrun|]. split; [now rewrite E|].
    now apply (keyed_same w).
  - destruct Hcase as (t2 & s & tx2 & tx2' & _ & _ & H2 & Hp & _ & _ & Htr & Hmap).
    exists r, w'. split; [exact Hrun|]. split.
    + rewrite Hmap, lookup_insert_ne; [exact Hstored|]. congruence.
    + eapply keyed_insert; [exact Hkey| |exact Hmap].
      rewrite (transition_tid _ _ _ _ Htr). exact (Hkey _ _ H2).
Qed.

(** ** Status requests, branch by branch *)

Lemma checkPaymentStatus_missing (tid_param : option string) (w : World) :
  Js.falsy_str tid_param = true ->
  run (checkPaymentStatus tid_param) w
  = (Returned (json 400 [("error", FStr "Transaction ID is required")]), w).
Proof.
  intros Hf. unfold checkPaymentStatus. rewrite run_try_catch, Hf. reflexivity.
Qed.

Lemma checkPaymentStatus_not_found (t : string) (w : World) :
  t <> "" -> transactions w !! t = None ->
  run (checkPaymentStatus (Some t)) w
  = (Returned (json 404 [("error", FStr "Transaction not found")]), w).
Proof.
  intros Ht Hl. unfold checkPaymentStatus.
  rewrite run_try_catch, falsy_str_Some by assumption.
  cbn. rewrite Hl. reflexivity.
Qed.

(** A settled record is reported as it is; the clock is not read. *)
Lemma checkPaymentStatus_settled (w : World) (t : string) (tx : Transaction) :
  t <> "" -> transactions w !! t = Some tx -> status tx <> "pending" ->
  run (checkPaymentStatus (Some t)) w = (Returned (status_response tx), w).
Proof.
  intros Ht Hl Hst.
  unfold checkPaymentStatus. rewrite run_try_catch, falsy_str_Some by assumption.
  cbn. rewrite Hl. cbn. apply String.eqb_neq in Hst. rewrite Hst. reflexivity.
Qed.

(** A pending record read at its expiry or before it is reported as it
    is. *)
Lemma checkPaymentStatus_pending (w : World) (t : string) (tx : Transaction) :
  t <> "" -> transactions w !! t = Some tx -> status tx = "pending" ->
  clock w <= expires tx ->
  run (checkPaymentStatus (Some t)) w = (Returned (status_response tx), tick w).
Proof.
  intros Ht Hl Hst Hle.
  unfold checkPaymentStatus. rewrite run_try_catch, falsy_str_Some by assumption.
  cbn. rewrite Hl. cbn. rewrite Hst. cbn.
  assert (E : (expires tx <? clock w) = false) by (apply Z.ltb_ge; lia).
  rewrite E. unfold status_response. rewrite Hst. reflexivity.
Qed.

(** A pending record past its expiry is saved as expired, when it
    satisfies the schema, and reported so; its order is updated by
    query. *)
Lemma checkPaymentStatus_expires (w : World) (t : string) (tx : Transaction) :
  t <> "" -> transactions w !! t = Some tx -> tid tx = t ->
  status tx = "pending" -> expires tx < clock w ->
  Transaction_validate (set_status "expired" tx) = [] ->
  run (checkPaymentStatus (Some t)) w
  = (Returned (status_response (set_status "expired" tx)),
     with_orders (orders_updated (orderId tx) expiry_update w)
       (with_transactions (<[t := lapsed (reading 1 w) tx]> (transactions w))
          (tick (tick w)))).
Proof.
  intros Ht Hstored Hkey Hst Hexp Hval.
  unfold checkPaymentStatus. rewrite run_try_catch, falsy_str_Some by assumption.
  cbn. rewrite Hstored. cbn. rewrite Hst. cbn.
  apply Z.ltb_lt in Hexp. rewrite Hexp. cbn.
  rewrite Hval, Hkey, Hstored.
  assert (Hmod : Transaction_modified tx (set_status "expired" tx) = true).
  { unfold Transaction_modified. cbn. rewrite Hst. reflexivity. }
  rewrite Hmod. cbn. rewrite Transaction_merge_self.
  assert (Hl : set_updatedAt (clock w + Z.of_N (hd 0%N (ticks w)))
                 (set_upiRef (upiRef (set_status "expired" tx))
                    (set_completedAt (completedAt (set_status "expired" tx))
                       (set_status (status (set_status "expired" tx)) tx)))
               = lapsed (reading 1 w) tx) by (destruct tx; reflexivity).
  rewrite Hl. unfold status_response, orders_updated, expiry_update. cbn. rewrite Hkey.
  destruct (orderId tx) as [id|]; cbn; [|reflexivity].
  destruct (orders w !! id) as [o|]; reflexivity.
Qed.

(** One that does not satisfy the schema is not saved: the answer is
    500. *)
Lemma checkPaymentStatus_rejected (w : World) (t : string) (tx : Transaction) :
  t <> "" -> transactions w !! t = Some tx ->
  status tx = "pending" -> expires tx < clock w ->
  Transaction_validate (set_status "expired" tx) <> [] ->
  run (checkPaymentStatus (Some t)) w
  = (Returned (json 500 [("error", FStr "Failed to check payment status");
                         ("message",
                           FMessage (ValidationError
                                       (Transaction_validate (set_status "expired" tx))))]),
     tick w).
Proof.
  intros Ht Hstored Hst Hexp Hbad.
  unfold checkPaymentStatus. rewrite run_try_catch, falsy_str_Some by assumption.
  cbn. rewrite Hstored. cbn. rewrite Hst. cbn.
  apply Z.ltb_lt in Hexp. rewrite Hexp. cbn.
  destruct (Transaction_validate (set_status "expired" tx)); [contradiction | reflexivity].
Qed.

Lemma lapsed_same_creation (now : Z) (t : Transaction) : same_creation t (lapsed now t).
Proof. unfold same_creation. repeat split; reflexivity. Qed.

Lemma expired_valid (tx : Transaction) :
  schema_valid tx -> Transaction_validate (set_status "expired" tx) = [].
Proof.
  intros Hv. apply (validate_same_creation tx); [|reflexivity | exact Hv].
  unfold same_creation. repeat split; reflexivity.
Qed.

Lemma checkPaymentStatus_cases (tid_param : option string) (w : World) :
  keyed_by_tid w ->
  exists r w',
    run (checkPaymentStatus tid_param) w = (Returned r, w')
    /\ (transactions w' = transactions w
        \/ exists t tx,
             tid_param = Some t /\ transactions w !! t = Some tx
             /\ status tx = "pending" /\ expires tx < clock w
             /\ schema_valid (lapsed (reading 1 w) tx)
             /\ transactions w' = <[t := lapsed (reading 1 w) tx]> (transactions w)).
Proof.
  intros Hkey.
  destruct (Js.falsy_str tid_param) eqn:Hf.
  { rewrite checkPaymentStatus_missing by exact Hf. eauto. }
  destruct (falsy_str_false _ Hf) as (t & -> & Ht).
  destruct (transactions w !! t) as [tx|] eqn:Hstored.
  2: { rewrite checkPaymentStatus_not_found by assumption. eauto. }
  destruct (decide (status tx = "pending")) as [Hst|Hst].
  2: { rewrite (checkPaymentStatus_settled w t tx) by assumption. eauto. }
  destruct (Z.ltb (expires tx) (clock w)) eqn:Hexp.
  2: { apply Z.ltb_ge in Hexp.
       rewrite (checkPaymentStatus_pending w t tx) by assumption. eauto. }
  apply Z.ltb_lt in Hexp.
  destruct (Transaction_validate (set_status "expired" tx)) as [|p ps] eqn:Hval.
  2: { rewrite (checkPaymentStatus_rejected w t tx) by (congruence || assumption).
       eauto. }
  rewrite (checkPaymentStatus_expires w t tx Ht Hstored (Hkey _ _ Hstored) Hst Hexp Hval).
  eexists _, _. split; [reflexivity|]. right. exists t, tx.
  repeat split; assumption.
Qed.

Lemma createPayment_cases (host : Host) (req : CreateRequest) (w : World) :
  exists r w',
    run (createPayment host req) w = (Returned r, w')
    /\ orders w' = orders w
    /\ (transactions w' = transactions w /\ res_status r <> 200
        \/ transactions w !! next_tid host w = None
           /\ Transaction_validate (document_for host req w) = []
           /\ r = json 200 (built_response (built_for host req w))
           /\ transactions w' =
              <[next_tid host w := stamp_new (reading 2 w) (document_for host req w)]>
                (transactions w)).
Proof.
  destruct (Js.falsy (create_amount req) || Js.falsy_str (create_payType req)) eqn:Hf.
  { unfold createPayment. rewrite run_try_catch, Hf. cbn.
    eexists _, w. split; [reflexivity|]. cbn. intuition discriminate. }
  apply orb_false_iff in Hf as [Ha Hp].
  destruct (Js.includes ["phonepe"; "paytm"] (paymentType req)) eqn:Hin.
  2: { unfold createPayment. rewrite run_try_catch, Ha, Hp. cbn [orb].
       fold (paymentType req). rewrite Hin. cbn.
       eexists _, w. split; [reflexivity|]. cbn. intuition discriminate. }
  rewrite (createPayment_reaches_save host req w Ha Hp Hin).
  cbn. destruct (Transaction_validate (document_for host req w)) as [|q qs] eqn:E.
  - rewrite tid_document_for. change (transactions (at_save w)) with (transactions w).
    destruct (transactions w !! next_tid host w) eqn:Hl.
    + eexists _, _. split; [reflexivity|]. cbn. intuition discriminate.
    + eexists _, _. split; [reflexivity|]. cbn. auto 10.
  - eexists _, _. split; [reflexivity|]. cbn. intuition discriminate.
Qed.

Lemma checkPaymentStatus_keeps_settled (tid_param : option string) (w : World)
    (t : string) (tx : Transaction) :
  keyed_by_tid w ->
  transactions w !! t = Some tx -> status tx <> "pending" ->
  exists r w',
    run (checkPaymentStatus tid_param) w = (Returned r, w')
    /\ transactions w' !! t = Some tx /\ keyed_by_tid w'.
Proof.
  intros Hkey Hstored Hst.
  destruct (checkPaymentStatus_cases tid_param w Hkey) as (r & w' & Hrun & [E | Hcase]).
  - exists r, w'. split; [exact Hrun|]. split; [now rewrite E|].
    now apply (keyed_same w).
  - destruct Hcase as (t2 & tx2 & _ & H2 & Hp & _ & _ & Hmap).
    exists r, w'. split; [exact Hrun|]. split.
    + rewrite Hmap, lookup_insert_ne; [exact Hstored|]. congruence.
    + eapply keyed_insert; [exact Hkey| |exact Hmap].
      exact (Hkey _ _ H2).
Qed.

Lemma createPayment_keeps_settled (host : Host) (req : CreateRequest) (w : World)
    (t : string) (tx : Transaction) :
  keyed_by_tid w ->
  transactions w !! t = Some tx ->
  exists r w',
    run (createPayment host req) w = (Returned r, w')
    /\ transactions w' !! t = Some tx /\ keyed_by_tid w'.
Proof.
  intros Hkey Hstored.
  destruct (createPayment_cases host req w)
    as (r & w' & Hrun & _ & [[Hsame _] | (Hfresh & _ & _ & Hmap)]).
  - exists r, w'. split; [exact Hrun|]. split.
    + now rewrite Hsame.
    + intros k u. rewrite Hsame. apply Hkey.
  - exists r, w'. split; [exact Hrun|]. split.
    + rewrite Hmap, lookup_insert_ne; [exact Hstored|]. congruence.
    + eapply keyed_insert; [exact Hkey| |exact Hmap]. reflexivity.
Qed.

(** One action, whatever it is, leaves a settled record as it is. *)
Lemma act_keeps_settled (host : Host) (a : Action) (w : World)
    (t : string) (tx : Transaction) :
  keyed_by_tid w ->
  transactions w !! t = Some tx -> status tx <> "pending" ->
  transactions (act host w a) !! t = Some tx /\ keyed_by_tid (act host w a).
Proof.
  intros Hkey Hstored Hst. destruct a as [[req | tid_param | ep body] | o]; cbn [act serve].
  - destruct (createPayment_keeps_settled host req w t tx Hkey Hstored)
      as (r & w' & -> & H). exact H.
  - destruct (checkPaymentStatus_keeps_settled tid_param w t tx Hkey Hstored Hst)
      as (r & w' & -> & H). exact H.
  - destruct (resolve_keeps_settled host ep body w t tx Hkey Hstored Hst)
      as (r & w' & -> & H). exact H.
  - split; [exact Hstored | exact Hkey].
Qed.

Lemma play_keeps_settled (host : Host) (l : list Action) (w : World)
    (t : string) (tx : Transaction) :
  keyed_by_tid w ->
  transactions w !! t = Some tx -> status tx <> "pending" ->
  transactions (play host l w) !! t = Some tx /\ keyed_by_tid (play host l w).
Proof.
  revert w. induction l as [|a l IH]; intros w Hkey Hstored Hst.
  - split; assumption.
  - cbn. destruct (act_keeps_settled host a w t tx Hkey Hstored Hst) as [H1 H2].
    apply IH; assumption.
Qed.



(** The sample order satisfies its schema, whatever is reported. *)
Lemma linked_admits (s : string) (now : Z) :
  order_admits s (Linked.world now) Linked.tx.
Proof.
  intros id o Hid Ho. injection Hid as <-.
  unfold Linked.world, Linked.world_with in Ho. cbn [orders] in Ho.
  apply lookup_singleton_Some in Ho as [_ <-].
  unfold Order_settle. destruct (String.eqb s "success"); reflexivity.
Qed.

(** A transaction that names no order. *)
Lemma unlinked_admits (s : string) (w : World) (tx : Transaction) :
  orderId tx = None -> order_admits s w tx.
Proof. intros H id o Hid. congruence. Qed.

(** C1 (the code departs from the claim).  The claim: after every
    operation, [completedAt] is set if and only if the status is not
    pending.  At the sample record, pending and past its expiry, a status
    request marks the record expired and saves it without assigning
    [completedAt]: the law held before the request and fails after it. *)
Theorem lazy_expiry_leaves_completedAt_unset :
  let w := Sample.world 1700000700000 in
  all_records completedAt_iff_resolved w
  /\ exists r w' t',
       run (checkPaymentStatus (Some "cwlp3k9x2a7f1")) w = (Returned r, w')
       /\ res_status r = 200
       /\ lookup_field "completedAt" (res_body r) = Some FUndefined
       /\ transactions w' !! "cwlp3k9x2a7f1" = Some t'
       /\ status t' = "expired" /\ completedAt t' = None
       /\ ~ completedAt_iff_resolved t'.
Proof.
  cbv zeta. split.
  - intros k t H. cbn in H. apply lookup_singleton_Some in H as [_ <-].
    split.
    + intros [x Hx]. discriminate Hx.
    + intros Hne. now contradiction Hne.
  - eexists _, _, (lapsed 1700000700000 Sample.tx). split.
    { apply (checkPaymentStatus_expires (Sample.world 1700000700000)
               "cwlp3k9x2a7f1" Sample.tx);
        [discriminate | apply lookup_singleton_eq | reflexivity | reflexivity
        | reflexivity | reflexivity]. }
    split; [reflexivity|]. split; [reflexivity|].
    split; [apply lookup_insert_eq|].
    split; [reflexivity|]. split; [reflexivity|].
    intros [_ H]. destruct H as [x Hx]; [discriminate | discriminate Hx].
Qed.


(** C2, counterexample.  A verify call that reports [expired] on the
    pending sample record is answered 200 and the record is written, so a
    reported status outside success and failed is not refused. *)
Lemma verify_accepts_expired_report :
  (exists r w' tx',
     run (verifyPayment Sample.host (Sample.report "expired" None))
       (Sample.world 1700000100000) = (Returned r, w')
     /\ res_status r = 200
     /\ transactions w' !! "cwlp3k9x2a7f1" = Some tx'
     /\ status tx' = "expired")
  /\ ~ reported_status_guard Sample.host.
Proof.
  assert (Hrun : exists w',
             run (verifyPayment Sample.host (Sample.report "expired" None))
               (Sample.world 1700000100000)
             = (Returned (applied_response Verify "cwlp3k9x2a7f1" "expired" Sample.tx),
                w')
             /\ transactions w' !! "cwlp3k9x2a7f1"
                = Some (set_updatedAt 1700000100000
                          (set_completedAt (Some 1700000100000)
                             (set_status "expired" Sample.tx)))).
  { eexists. split; [vm_compute; reflexivity|]. vm_compute. reflexivity. }
  destruct Hrun as (w1 & Hrun & Hl).
  split.
  { eexists _, w1, _. split; [exact Hrun|].
    split; [reflexivity|]. split; [exact Hl | reflexivity]. }
  intros H.
  destruct (H Verify (Sample.report "expired" None) (Sample.world 1700000100000)
              "cwlp3k9x2a7f1" "expired" Sample.tx)
    as (r & w' & Hrun' & Hcode & _).
  - reflexivity.
  - reflexivity.
  - apply lookup_singleton_eq.
  - reflexivity.
  - discriminate.
  - discriminate.
  - cbn [resolve] in Hrun'. rewrite Hrun in Hrun'.
    apply (f_equal fst) in Hrun'. cbn [fst] in Hrun'. injection Hrun' as <-.
    now apply Hcode.
Qed.

(** C2, as amended.  On a pending record the reported status is held to
    the enum of the transaction schema, pending, success, failed and
    expired, and by nothing else.  A report outside it, or none, fails:
    with 400 when a field is missing or the signature fails the test,
    and otherwise with 500, when [save] rejects the document on its
    [status]; nothing stored is changed, only the clock was read.  A
    report inside it that passes the signature test is written to the
    record, when the record satisfies the schema, together with the time
    of the call; the answer is 200, unless the order the record names
    fails its own schema, which the order update that follows rejects
    after the record is written: then the answer is 500. *)
Theorem reported_status_held_to_schema_enum (host : Host) (ep : Endpoint)
    (body : Body) (w : World) (t : string) (tx : Transaction) :
  body_tid body = Some t ->
  transactions w !! t = Some tx -> tid tx = t ->
  status tx = "pending" ->
  (Js.includes Transaction_status_enum (default "" (body_status body)) = false ->
   (Js.falsy_str (body_tid body) || Js.falsy_str (body_status body) = true ->
    exists msg,
      run (resolve host ep body) w = (Returned (json 400 [("error", FStr msg)]), w))
   /\ (Js.falsy_str (body_tid body) || Js.falsy_str (body_status body) = false ->
       signature_ok host ep body tx = false ->
       run (resolve host ep body) w = (Returned invalid_signature, w))
   /\ (Js.falsy_str (body_tid body) || Js.falsy_str (body_status body) = false ->
       signature_ok host ep body tx = true ->
       exists paths,
         In "status" paths
         /\ res_status (save_failed ep (ValidationError paths)) = 500
         /\ run (resolve host ep body) w
            = (Returned (save_failed ep (ValidationError paths)),
               Nat.iter (readings_before_save ep) tick w)))
  /\ (Js.includes Transaction_status_enum (default "" (body_status body)) = true ->
      t <> "" -> signature_ok host ep body tx = true -> schema_valid tx ->
      exists r tx' w',
        run (resolve host ep body) w = (Returned r, w')
        /\ transactions w' !! t = Some tx'
        /\ transition (default "" (body_status body)) (clock w) tx tx'
        /\ (ep = Simulate \/ order_admits (default "" (body_status body)) w tx ->
            r = applied_response ep t (default "" (body_status body)) tx
            /\ res_status r = 200)
        /\ (forall id o,
              ep <> Simulate -> orderId tx = Some id -> orders w !! id = Some o ->
              Order_validate (Order_settle (default "" (body_status body)) o) <> [] ->
              res_status r = 500 /\ orders w' = orders w)).
Proof.
  intros Htid Hstored Hkey Hst. split.
  - intros Hout. split; [|split].
    + intros Hf. exact (resolve_missing_field host ep body w Hf).
    + intros Hf Hsig. apply orb_false_iff in Hf as [Hf1 Hf2].
      destruct (falsy_str_false _ Hf1) as (t' & Htid' & Ht).
      assert (t' = t) as -> by congruence.
      destruct (falsy_str_false _ Hf2) as (s & Hstatus & Hs).
      now apply (resolve_bad_signature host ep body w t s tx).
    + intros Hf Hsig. apply orb_false_iff in Hf as [Hf1 Hf2].
      destruct (falsy_str_false _ Hf1) as (t' & Htid' & Ht).
      assert (t' = t) as -> by congruence.
      destruct (falsy_str_false _ Hf2) as (s & Hstatus & Hs).
      rewrite Hstatus in Hout. cbn in Hout.
      pose proof (reported_invalid host ep body w s tx Hstatus Hout) as Hbad.
      exists (Transaction_validate (reported host ep body w tx)).
      split; [exact Hbad|]. split; [destruct ep; reflexivity|].
      apply (resolve_save_rejected host ep body w t s tx); try assumption.
      intros E. rewrite E in Hbad. destruct Hbad.
  - intros Hin Ht Hsig Hv.
    destruct (body_status body) as [s|] eqn:Hstatus; [|discriminate Hin].
    cbn in Hin |- *.
    assert (Hs : s <> "") by (intros ->; discriminate Hin).
    destruct (resolve_written host ep body w t s tx)
      as (r & tx' & w' & Hrun & Htr & _ & Hmap & _ & _ & Hgood & Hbad);
      try assumption.
    exists r, tx', w'. split; [exact Hrun|].
    split; [rewrite Hmap; apply lookup_insert_eq|]. split; [exact Htr|]. split.
    + intros Hg. destruct (Hgood Hg) as [-> _]. split; [reflexivity|].
      destruct ep; reflexivity.
    + intros id o Hep Hid Ho Hno.
      destruct (Hbad id o Hep Hid Ho Hno) as [-> Hord]. split; [|exact Hord].
      destruct ep; [reflexivity | reflexivity | contradiction].
Qed.

Lemma reported_status_held_to_schema_enum_witness :
  (exists paths,
     In "status" paths
     /\ res_status (save_failed Webhook (ValidationError paths)) = 500
     /\ run (resolve Sample.host Webhook (Sample.report "refunded" None))
          (Sample.world 1700000100000)
        = (Returned (save_failed Webhook (ValidationError paths)),
           Nat.iter 1 tick (Sample.world 1700000100000)))
  /\ exists r tx' w',
       run (resolve Sample.host Verify (Sample.report "failed" None))
         (Linked.world 1700000100000) = (Returned r, w')
       /\ transactions w' !! "cwlp3k9x2a7f1" = Some tx'
       /\ transition "failed" 1700000100000 Linked.tx tx'
       /\ r = applied_response Verify "cwlp3k9x2a7f1" "failed" Linked.tx
       /\ res_status r = 200.
Proof.
  split.
  - apply (reported_status_held_to_schema_enum Sample.host Webhook
             (Sample.report "refunded" None) (Sample.world 1700000100000)
             "cwlp3k9x2a7f1" Sample.tx);
      [reflexivity | apply lookup_singleton_eq | reflexivity | reflexivity
      | reflexivity | reflexivity | reflexivity].
  - destruct (reported_status_held_to_schema_enum Sample.host Verify
                (Sample.report "failed" None) (Linked.world 1700000100000)
                "cwlp3k9x2a7f1" Linked.tx)
      as [_ H];
      [reflexivity | apply lookup_singleton_eq | reflexivity | reflexivity |].
    destruct H as (r & tx' & w' & Hrun & Hl & Htr & Hgood & _);
      [reflexivity | discriminate | reflexivity | reflexivity |].
    exists r, tx', w'. split; [exact Hrun|]. split; [exact Hl|].
    split; [exact Htr|]. apply Hgood. right. apply linked_admits.
Defined.


(** C3, counterexample.  The webhook compares the supplied signature
    with the HMAC of the request's own [tid], [status] and [amount]: a
    signature that is not the HMAC of the stored payload passes and the
    record is written.  Simulate reads no signature, so any value
    passes. *)
Lemma webhook_signature_not_over_payload :
  let sig := createHmac_sha256_hex (MERCHANT_SECRET Sample.host)
               "cwlp3k9x2a7f1success250" in
  sig <> createSignature Sample.host (payload Sample.tx)
  /\ (exists r w' tx',
        run (paymentWebhook Sample.host (Sample.report "success" (Some sig)))
          (Sample.world 1700000100000) = (Returned r, w')
        /\ res_status r = 200
        /\ transactions w' !! "cwlp3k9x2a7f1" = Some tx'
        /\ status tx' = "success")
  /\ (exists r w' tx',
        run (simulatePayment Sample.host (Sample.report "success" (Some "forged")))
          (Sample.world 1700000100000) = (Returned r, w')
        /\ res_status r = 200
        /\ transactions w' !! "cwlp3k9x2a7f1" = Some tx'
        /\ status tx' = "success")
  /\ ~ signature_over_payload Sample.host.
Proof.
  cbv zeta. split; [vm_compute; discriminate|].
  split.
  { eexists _, _, _. split; [vm_compute; reflexivity|].
    split; [reflexivity|]. split; [vm_compute; reflexivity | reflexivity]. }
  split.
  { eexists _, _, _. split; [vm_compute; reflexivity|].
    split; [reflexivity|]. split; [vm_compute; reflexivity | reflexivity]. }
  intros H.
  pose proof (H Simulate (Sample.report "success" (Some "forged"))
                (Sample.world 1700000100000) "cwlp3k9x2a7f1" "success" "forged"
                Sample.tx) as Hrun.
  assert (Hne : "forged" <> createSignature Sample.host (payload Sample.tx))
    by (vm_compute; discriminate).
  specialize (Hrun eq_refl ltac:(discriminate) eq_refl ltac:(discriminate)
                eq_refl ltac:(discriminate) (lookup_singleton_eq _ _) Hne).
  vm_compute in Hrun. discriminate Hrun.
Qed.

(** C3, as amended.  Verify compares a supplied signature with the HMAC,
    under the process secret, of the stored payload; the webhook compares
    it with the HMAC of the request's [tid], [status] and [amount] put
    end to end.  On either endpoint a signature that differs is answered
    Invalid signature and the world is as it was.  Simulate signs
    nothing: it does the same whatever signature it is sent. *)
Theorem signature_mismatch_refused (host : Host) (ep : Endpoint) (body : Body)
    (w : World) (t s sig : string) (tx : Transaction) :
  body_tid body = Some t -> t <> "" ->
  body_status body = Some s -> s <> "" ->
  body_signature body = Some sig -> sig <> "" ->
  transactions w !! t = Some tx ->
  (forall text,
     match ep with
     | Verify => text = payload tx
     | Webhook => text = t ++ s ++ template host (body_amount body)
     | Simulate => False
     end ->
     sig <> createHmac_sha256_hex (MERCHANT_SECRET host) text ->
     run (resolve host ep body) w = (Returned invalid_signature, w))
  /\ (ep = Simulate ->
      forall sig',
        run (resolve host ep (with_signature sig' body)) w
        = run (resolve host ep body) w).
Proof.
  intros Htid Ht Hstatus Hs Hsg Hsig Hstored. split.
  - intros text Htext Hne.
    apply (resolve_bad_signature host ep body w t s tx); try assumption.
    unfold signature_ok, signed_text.
    destruct ep; [subst text | subst text | contradiction];
      rewrite ?Htid, ?Hstatus, Hsg; cbn;
      apply String.eqb_neq in Hsig, Hne; now rewrite Hsig, Hne.
  - intros -> sig'. reflexivity.
Qed.

Lemma signature_mismatch_refused_witness :
  run (resolve Sample.host Webhook
         (Sample.report "success" (Some (signature Sample.tx))))
    (Sample.world 1700000100000)
  = (Returned invalid_signature, Sample.world 1700000100000).
Proof.
  apply (signature_mismatch_refused Sample.host Webhook
           (Sample.report "success" (Some (signature Sample.tx)))
           (Sample.world 1700000100000) "cwlp3k9x2a7f1" "success"
           (signature Sample.tx) Sample.tx)
    with (text := "cwlp3k9x2a7f1success250").
  - reflexivity.
  - discriminate.
  - reflexivity.
  - discriminate.
  - reflexivity.
  - vm_compute. discriminate.
  - apply lookup_singleton_eq.
  - reflexivity.
  - vm_compute. discriminate.
Defined.





(** ** What an accepted request leaves *)
Lemma built_signature_is_hmac (host : Host) (req : CreateRequest) (w : World) :
  built_signature (built_for host req w)
  = createSignature host (built_payloadB64 (built_for host req w)).
Proof.
  unfold built_for. destruct (String.eqb (paymentType req) "phonepe"); reflexivity.
Qed.

Lemma built_response_fields (host : Host) (req : CreateRequest) (w : World) :
  let b := built_for host req w in
  lookup_field "payload" (built_response b) = Some (FStr (built_payloadB64 b))
  /\ lookup_field "sig" (built_response b) = Some (FStr (built_signature b))
  /\ lookup_field "expires" (built_response b)
     = Some (FNum (Js.of_Z (reading 1 w / 1000 + 600)))
  /\ lookup_field "tid" (built_response b) = Some (FStr (next_tid host w)).
Proof.
  unfold built_for. destruct (String.eqb (paymentType req) "phonepe");
    repeat split; reflexivity.
Qed.

(** An acceptable request is answered 200 with the bundle, and the
    document, stamped at the third reading of the clock, is filed under
    the new identifier. *)
Lemma createPayment_accepted (host : Host) (req : CreateRequest) (w : World) :
  acceptable host req w ->
  exists w',
    run (createPayment host req) w =
    (Returned (json 200 (built_response (built_for host req w))), w')
    /\ transactions w' !! next_tid host w
       = Some (stamp_new (reading 2 w) (document_for host req w))
    /\ transactions w'
       = <[next_tid host w := stamp_new (reading 2 w) (document_for host req w)]>
           (transactions w)
    /\ orders w' = orders w /\ settings w' = Some (current_settings w).
Proof.
  intros (Hpos & Hin & Hupi & Hids & Hfresh).
  rewrite (createPayment_ok host req w Hpos Hin Hupi Hids Hfresh).
  eexists. split; [reflexivity|]. cbn. rewrite lookup_insert_eq. auto.
Qed.

Lemma floor_div_bounds (c : Z) :
  c + 600 * 1000 - 999 <= (c / 1000 + 600) * 1000 <= c + 600 * 1000.
Proof.
  pose proof (Z.div_mod c 1000 ltac:(lia)) as H.
  pose proof (Z.mod_pos_bound c 1000 ltac:(lia)) as Hb. lia.
Qed.

Lemma floor_div_exact (c : Z) : (c / 1000 + 600) * 1000 = c + 600 * 1000 - c mod 1000.
Proof. pose proof (Z.div_mod c 1000 ltac:(lia)) as H. lia. Qed.

Lemma sample_acceptable (amount : string) (payType : string) (secret : string)
    (l : list N) :
  Js.ltb (Js.of_Z 0) (Js.parseFloat_string amount) = true ->
  Js.includes ["phonepe"; "paytm"] (Js.trim (Js.toLowerCase payType)) = true ->
  acceptable Sample.host (Sample.create (Js.Str amount) payType)
    (with_ticks l (Sample.fresh 1700000000500 secret)).
Proof.
  intros Hpos Hin. split; [exact Hpos|]. split; [exact Hin|].
  split; [vm_compute; discriminate|]. split; [split; reflexivity|].
  apply lookup_empty.
Qed.

(** C5, counterexample.  Created at 1700000000500 ms, with the clock
    standing still while the request is served, the record expires at
    1700000600000 ms: 599.5 seconds later, not 600. *)
Lemma expiry_falls_on_whole_second :
  let req := Sample.create (Js.Str "250") "paytm" in
  let w := with_ticks [] (Sample.fresh 1700000000500 "my_super_secret_key") in
  acceptable Sample.host req w
  /\ (exists r w' tx,
        run (createPayment Sample.host req) w = (Returned r, w')
        /\ transactions w' !! next_tid Sample.host w = Some tx
        /\ createdAt tx = 1700000000500 /\ expires tx = 1700000600000)
  /\ ~ expires_600s_after_creation Sample.host.
Proof.
  cbv zeta.
  assert (Hacc : acceptable Sample.host (Sample.create (Js.Str "250") "paytm")
                   (with_ticks [] (Sample.fresh 1700000000500 "my_super_secret_key")))
    by (apply sample_acceptable; reflexivity).
  destruct (createPayment_accepted _ _ _ Hacc) as (w1 & Hrun & Hl & _).
  split; [exact Hacc|]. split.
  - eexists _, w1, _. split; [exact Hrun|]. split; [exact Hl|].
    split; reflexivity.
  - intros H. destruct (H _ _ Hacc) as (r & w' & tx & Hrun' & Hl' & _ & Hexp).
    rewrite Hrun in Hrun'. apply (f_equal snd) in Hrun'. cbn [snd] in Hrun'.
    subst w'. rewrite Hl in Hl'. injection Hl' as <-.
    cbn in Hexp. discriminate Hexp.
Qed.

(** C5, as amended.  For a positive amount and a supported provider
    (with settings that hold a receive address, identifiers that cast
    and a fresh transaction identifier) Create stores a pending record
    whose expiry is the instant [Date.now()] gave when the handler
    computed it, cut to the whole second, plus 600 seconds.  The record
    is stamped with [createdAt] later, when it is saved: the expiry is at
    most 600 seconds after [createdAt], and short of that by the fraction
    of the second that was cut and by the time that went by between the
    reading and the save.  The bundle carries the same expiry in
    seconds, the payload and the signature, and the signature is the
    HMAC of the payload that verify recomputes. *)
Theorem createPayment_pending_signed_expiring (host : Host) (req : CreateRequest)
    (w : World) :
  acceptable host req w ->
  exists r w' tx,
    run (createPayment host req) w = (Returned r, w')
    /\ res_status r = 200
    /\ transactions w' !! next_tid host w = Some tx
    /\ status tx = "pending" /\ completedAt tx = None
    /\ expires tx = (reading 1 w / 1000 + 600) * 1000
    /\ createdAt tx = reading 2 w
    /\ reading 1 w <= createdAt tx
    /\ expires tx
       = createdAt tx + 600 * 1000 - reading 1 w mod 1000 - (reading 2 w - reading 1 w)
    /\ expires tx <= createdAt tx + 600 * 1000
    /\ lookup_field "expires" (res_body r)
       = Some (FNum (Js.of_Z (reading 1 w / 1000 + 600)))
    /\ lookup_field "payload" (res_body r) = Some (FStr (payload tx))
    /\ lookup_field "sig" (res_body r) = Some (FStr (signature tx))
    /\ signature tx = createSignature host (payload tx)
    /\ forall body,
         body_signature body = Some (signature tx) ->
         signature_ok host Verify body tx = true.
Proof.
  intros Hacc. destruct (createPayment_accepted host req w Hacc) as (w' & Hrun & Hl & _).
  destruct (built_response_fields host req w) as (Hp & Hs & He & _).
  pose proof (reading_mono 1 w) as Hmono.
  pose proof (Z.mod_pos_bound (reading 1 w) 1000 ltac:(lia)) as Hb.
  exists (json 200 (built_response (built_for host req w))), w',
    (stamp_new (reading 2 w) (document_for host req w)).
  split; [exact Hrun|]. split; [reflexivity|]. split; [exact Hl|].
  split; [reflexivity|]. split; [reflexivity|]. split; [reflexivity|].
  split; [reflexivity|]. split; [exact Hmono|].
  assert (Hexp : expires (stamp_new (reading 2 w) (document_for host req w))
                 = (reading 1 w / 1000 + 600) * 1000) by reflexivity.
  assert (Hcre : createdAt (stamp_new (reading 2 w) (document_for host req w))
                 = reading 2 w) by reflexivity.
  split; [rewrite Hexp, Hcre, floor_div_exact; lia|].
  split; [rewrite Hexp, Hcre, floor_div_exact; lia|].
  split; [exact He|]. split; [exact Hp|]. split; [exact Hs|].
  split; [apply built_signature_is_hmac|].
  intros body Hb'. unfold signature_ok, signed_text. rewrite Hb'.
  apply orb_true_iff. right. apply String.eqb_eq.
  exact (built_signature_is_hmac host req w).
Qed.

Lemma createPayment_pending_signed_expiring_witness :
  let w := with_ticks [499%N; 42%N] (Sample.fresh 1700000000500 "my_super_secret_key") in
  exists r w' tx,
    run (createPayment Sample.host (Sample.create (Js.Str "250") "PhonePe")) w
    = (Returned r, w')
    /\ res_status r = 200
    /\ transactions w' !! "cwloyw3vg4fr" = Some tx
    /\ status tx = "pending"
    /\ expires tx = 1700000600000 /\ createdAt tx = 1700000001041
    /\ signature tx = createSignature Sample.host (payload tx).
Proof.
  cbv zeta.
  destruct (createPayment_pending_signed_expiring Sample.host
              (Sample.create (Js.Str "250") "PhonePe")
              (with_ticks [499%N; 42%N]
                 (Sample.fresh 1700000000500 "my_super_secret_key")))
    as (r & w' & tx & Hrun & H200 & Hl & Hst & _ & He & Hc & _ & _ & _ & _ & _ & _
        & Hsig & _).
  - apply sample_acceptable; reflexivity.
  - exists r, w', tx. split; [exact Hrun|]. split; [exact H200|].
    split; [exact Hl|]. split; [exact Hst|]. split; [rewrite He; reflexivity|].
    split; [rewrite Hc; reflexivity | exact Hsig].
Defined.






(** C7, counterexample.  With a merchant secret of their own in the
    settings, the signature of a new payment is still the HMAC under the
    secret of the process, and differs from the HMAC under the secret of
    the settings. *)
Lemma signature_ignores_settings_secret :
  let req := Sample.create (Js.Str "250") "paytm" in
  let w := Sample.fresh 1700000000500 "rotated-secret" in
  acceptable Sample.host req w
  /\ merchantSecret (current_settings w) = "rotated-secret"
  /\ (exists r w' tx,
        run (createPayment Sample.host req) w = (Returned r, w')
        /\ transactions w' !! next_tid Sample.host w = Some tx
        /\ signature tx = createHmac_sha256_hex "my_super_secret_key" (payload tx)
        /\ signature tx <> createHmac_sha256_hex "rotated-secret" (payload tx))
  /\ ~ signed_with_configured_secret Sample.host.
Proof.
  cbv zeta.
  assert (Hacc : acceptable Sample.host (Sample.create (Js.Str "250") "paytm")
                   (Sample.fresh 1700000000500 "rotated-secret"))
    by (apply sample_acceptable; reflexivity).
  destruct (createPayment_accepted _ _ _ Hacc) as (w1 & Hrun & Hl & _).
  assert (Hne : signature (stamp_new 1700000000500
                             (document_for Sample.host
                                (Sample.create (Js.Str "250") "paytm")
                                (Sample.fresh 1700000000500 "rotated-secret")))
                <> createHmac_sha256_hex "rotated-secret"
                     (payload (stamp_new 1700000000500
                                 (document_for Sample.host
                                    (Sample.create (Js.Str "250") "paytm")
                                    (Sample.fresh 1700000000500 "rotated-secret")))))
    by (vm_compute; discriminate).
  split; [exact Hacc|]. split; [reflexivity|]. split.
  - eexists _, w1, _. split; [exact Hrun|]. split; [exact Hl|].
    split; [vm_compute; reflexivity | exact Hne].
  - intros H. destruct (H _ _ Hacc) as (r & w' & tx & Hrun' & Hl' & _ & Hsig).
    rewrite Hrun in Hrun'. apply (f_equal snd) in Hrun'. cbn [snd] in Hrun'.
    subst w'. rewrite Hl in Hl'. injection Hl' as <-.
    exact (Hne Hsig).
Qed.

(** C7, as amended.  On every creation the receive address is read from
    the settings record (the stored one, or the defaults created when
    there is none) and stored trimmed; the signing secret is not: the
    signature is the HMAC of the payload under [MERCHANT_SECRET], the
    environment variable of the process or, without one, the built-in
    default, whatever secret the settings record holds. *)
Theorem address_from_settings_secret_from_process (host : Host)
    (req : CreateRequest) (w : World) :
  acceptable host req w ->
  exists r w' tx,
    run (createPayment host req) w = (Returned r, w')
    /\ transactions w' !! next_tid host w = Some tx
    /\ upi tx = Js.trim (merchantUPI (current_settings w))
    /\ signature tx = createHmac_sha256_hex (MERCHANT_SECRET host) (payload tx)
    /\ lookup_field "sig" (res_body r) = Some (FStr (signature tx))
    /\ MERCHANT_SECRET host
       = match env_MERCHANT_SECRET host with
         | Some s => if String.eqb s "" then "my_super_secret_key" else s
         | None => "my_super_secret_key"
         end.
Proof.
  intros Hacc. destruct (createPayment_accepted host req w Hacc) as (w' & Hrun & Hl & _).
  destruct (built_response_fields host req w) as (_ & Hs & _).
  exists (json 200 (built_response (built_for host req w))), w',
    (stamp_new (reading 2 w) (document_for host req w)).
  split; [exact Hrun|]. split; [exact Hl|]. split; [reflexivity|].
  split; [exact (built_signature_is_hmac host req w)|].
  split; [exact Hs | reflexivity].
Qed.

Lemma address_from_settings_secret_from_process_witness :
  exists r w' tx,
    run (createPayment Sample.host (Sample.create (Js.Str "250") "paytm"))
      (Sample.fresh 1700000000500 "rotated-secret") = (Returned r, w')
    /\ transactions w' !! "cwloyw3vg4fr" = Some tx
    /\ upi tx = "shop@upi"
    /\ signature tx = createHmac_sha256_hex "my_super_secret_key" (payload tx).
Proof.
  destruct (address_from_settings_secret_from_process Sample.host
              (Sample.create (Js.Str "250") "paytm")
              (Sample.fresh 1700000000500 "rotated-secret"))
    as (r & w' & tx & Hrun & Hl & Hupi & Hsig & _).
  - apply sample_acceptable; reflexivity.
  - exists r, w', tx. split; [exact Hrun|]. split; [exact Hl|].
    split; [rewrite Hupi; vm_compute; reflexivity | exact Hsig].
Defined.

(** C8, counterexample.  The amount ["0"], a string, is not falsy, parses
    to zero and passes [min: 0]: the request is answered 200 and a record
    with amount zero is stored. *)
Lemma zero_amount_string_accepted :
  let req := Sample.create (Js.Str "0") "paytm" in
  let w := Sample.fresh 1700000000500 "my_super_secret_key" in
  Js.leb (paymentAmount req) (Js.of_Z 0) = true
  /\ (exists r w' tx,
        run (createPayment Sample.host req) w = (Returned r, w')
        /\ res_status r = 200
        /\ transactions w !! "cwloyw3vg4fr" = None
        /\ transactions w' !! "cwloyw3vg4fr" = Some tx
        /\ amount tx = S754_zero false /\ status tx = "pending")
  /\ ~ nonpositive_amount_refused Sample.host.
Proof.
  cbv zeta.
  assert (Hrun : exists w' tx,
             run (createPayment Sample.host (Sample.create (Js.Str "0") "paytm"))
               (Sample.fresh 1700000000500 "my_super_secret_key")
             = (Returned (json 200
                            (built_response
                               (built_for Sample.host
                                  (Sample.create (Js.Str "0") "paytm")
                                  (Sample.fresh 1700000000500 "my_super_secret_key")))),
                w')
             /\ transactions w' !! "cwloyw3vg4fr" = Some tx
             /\ amount tx = S754_zero false /\ status tx = "pending").
  { eexists _, _. split; [vm_compute; reflexivity|].
    split; [vm_compute; reflexivity|]. split; reflexivity. }
  destruct Hrun as (w1 & tx & Hrun & Hl & Ha & Hs).
  split; [reflexivity|]. split.
  - exists (json 200
              (built_response
                 (built_for Sample.host (Sample.create (Js.Str "0") "paytm")
                    (Sample.fresh 1700000000500 "my_super_secret_key")))), w1, tx.
    split; [exact Hrun|]. split; [reflexivity|].
    split; [apply lookup_empty|]. auto.
  - intros H.
    destruct (H (Sample.create (Js.Str "0") "paytm")
                (Sample.fresh 1700000000500 "my_super_secret_key") eq_refl)
      as (r & w' & Hrun' & Hcode & _).
    rewrite Hrun in Hrun'. apply (f_equal fst) in Hrun'. cbn [fst] in Hrun'.
    injection Hrun' as <-. now apply Hcode.
Qed.

(** C8, as amended.  A missing amount, the number zero and the empty
    string are answered 400, Invalid payload, before anything is read or
    built.  A negative amount is never stored: with a supported provider
    the document fails validation on [amount] at [save] and the answer is
    500, Failed to create payment; without one the answer is 400.  Either
    way the transactions are as they were.  An amount of zero that comes
    as a string that is not empty is accepted: the record is stored with
    the amount zero. *)
Theorem negative_or_missing_amount_refused (host : Host) (req : CreateRequest)
    (w : World) :
  (Js.falsy (create_amount req) = true ->
   run (createPayment host req) w
   = (Returned (json 400 [("error", FStr "Invalid payload")]), w))
  /\ (Js.ltb (paymentAmount req) (Js.of_Z 0) = true ->
      (Js.includes ["phonepe"; "paytm"] (paymentType req) = true ->
       exists paths w',
         In "amount" paths
         /\ run (createPayment host req) w
            = (Returned (json 500 [("error", FStr "Failed to create payment");
                                   ("message", FMessage (ValidationError paths))]), w')
         /\ transactions w' = transactions w)
      /\ (Js.includes ["phonepe"; "paytm"] (paymentType req) = false ->
          run (createPayment host req) w
          = (Returned (json 400 [("error",
                                   FStr (if Js.falsy_str (create_payType req)
                                         then "Invalid payload"
                                         else "Unsupported payment type"))]), w)))
  /\ (forall s sign,
        create_amount req = Js.Str s -> s <> "" ->
        paymentAmount req = S754_zero sign ->
        Js.includes ["phonepe"; "paytm"] (paymentType req) = true ->
        Js.trim (merchantUPI (current_settings w)) <> "" ->
        castable_ids req ->
        transactions w !! next_tid host w = None ->
        exists r w' tx,
          run (createPayment host req) w = (Returned r, w')
          /\ res_status r = 200
          /\ transactions w' !! next_tid host w = Some tx
          /\ amount tx = S754_zero sign /\ status tx = "pending").
Proof.
  split; [|split].
  - intros Hf. unfold createPayment. rewrite run_try_catch, Hf. reflexivity.
  - intros Hneg.
    assert (Ha : Js.falsy (create_amount req) = false).
    { revert Hneg. unfold paymentAmount.
      destruct (create_amount req) as [| x | s]; cbn.
      - discriminate.
      - destruct x; try reflexivity; discriminate.
      - destruct s; [discriminate | reflexivity]. }
    split.
    + intros Hin. pose proof (payType_present _ Hin) as Hp.
      assert (Hbad : In "amount" (Transaction_validate (document_for host req w))).
      { apply validate_amount. apply negative_invalid. exact Hneg. }
      exists (Transaction_validate (document_for host req w)), (at_save w).
      split; [exact Hbad|]. split; [|reflexivity].
      exact (createPayment_invalid host req w "amount" Ha Hp Hin Hbad).
    + intros Hin. unfold createPayment. rewrite run_try_catch, Ha. cbn [orb].
      destruct (Js.falsy_str (create_payType req)) eqn:Hp; [reflexivity|].
      fold (paymentType req). rewrite Hin. reflexivity.
  - intros s sign Hs Hne Hzero Hin Hupi Hids Hfresh.
    assert (Ha : Js.falsy (create_amount req) = false).
    { rewrite Hs. cbn. now apply String.eqb_neq. }
    rewrite (createPayment_reaches_save host req w Ha (payType_present _ Hin) Hin).
    cbn. rewrite (document_valid host req w), tid_document_for;
      [| rewrite Hzero; now destruct sign | now rewrite Hzero | assumption ..].
    change (transactions (at_save w)) with (transactions w). rewrite Hfresh.
    eexists _, _, _. split; [reflexivity|]. split; [reflexivity|].
    split; [cbn; apply lookup_insert_eq|]. split; [exact Hzero | reflexivity].
Qed.

Lemma negative_or_missing_amount_refused_witness :
  run (createPayment Sample.host (Sample.create (Js.Num (S754_zero false)) "paytm"))
    (Sample.fresh 1700000000500 "my_super_secret_key")
  = (Returned (json 400 [("error", FStr "Invalid payload")]),
     Sample.fresh 1700000000500 "my_super_secret_key")
  /\ (exists paths w',
        In "amount" paths
        /\ run (createPayment Sample.host (Sample.create (Js.Str "-5") "paytm"))
             (Sample.fresh 1700000000500 "my_super_secret_key")
           = (Returned (json 500 [("error", FStr "Failed to create payment");
                                  ("message", FMessage (ValidationError paths))]), w')
        /\ transactions w' = ∅)
  /\ run (createPayment Sample.host (Sample.create (Js.Str "-5") "gpay"))
       (Sample.fresh 1700000000500 "my_super_secret_key")
     = (Returned (json 400 [("error", FStr "Unsupported payment type")]),
        Sample.fresh 1700000000500 "my_super_secret_key")
  /\ exists r w' tx,
       run (createPayment Sample.host (Sample.create (Js.Str "0.0") "paytm"))
         (Sample.fresh 1700000000500 "my_super_secret_key") = (Returned r, w')
       /\ res_status r = 200
       /\ transactions w' !! "cwloyw3vg4fr" = Some tx
       /\ amount tx = S754_zero false /\ status tx = "pending".
Proof.
  split; [|split; [|split]].
  - apply (negative_or_missing_amount_refused Sample.host
             (Sample.create (Js.Num (S754_zero false)) "paytm")
             (Sample.fresh 1700000000500 "my_super_secret_key")).
    reflexivity.
  - apply (negative_or_missing_amount_refused Sample.host
             (Sample.create (Js.Str "-5") "paytm")
             (Sample.fresh 1700000000500 "my_super_secret_key")); reflexivity.
  - apply (negative_or_missing_amount_refused Sample.host
             (Sample.create (Js.Str "-5") "gpay")
             (Sample.fresh 1700000000500 "my_super_secret_key")); reflexivity.
  - apply (proj2 (proj2 (negative_or_missing_amount_refused Sample.host
                           (Sample.create (Js.Str "0.0") "paytm")
                           (Sample.fresh 1700000000500 "my_super_secret_key")))
             "0.0" false).
    + reflexivity.
    + discriminate.
    + reflexivity.
    + reflexivity.
    + vm_compute. discriminate.
    + split; reflexivity.
    + apply lookup_empty.
Defined.


Lemma initialAmount_member (upi note : string) (a : Js.number) :
  Node.member initialAmount_path (phonepe_payloadJson upi note a)
  = Some (Node.JNum (Js.Math_floor (Js.mul a (Js.of_Z 100)))).
Proof. reflexivity. Qed.

(** [Math.floor] of a positive Number with a fractional part is its
    integer part. *)
Lemma Math_floor_integer_part (m : positive) (e : Z) :
  e < 0 ->
  Js.Math_floor (S754_finite false m e) = Js.of_Z (Zpos m / 2 ^ (- e)).
Proof.
  intros He. unfold Js.Math_floor.
  destruct (0 <=? e) eqn:E; [apply Z.leb_le in E; lia|].
  rewrite Z.shiftr_div_pow2 by lia. reflexivity.
Qed.

(** C9, counterexample.  For the amount 10.999 the payload carries 1099
    minor units where the nearest integer to 1099.9 is 1100; for 19.99,
    whose product with 100 is 1998.9999999999998 in binary64, it carries
    1998 where the nearest integer is 1999. *)
Lemma minor_units_are_floored :
  (let a := Js.parseFloat (Js.Str "10.999") in
   exists x,
     Node.member initialAmount_path (phonepe_payloadJson "shop@upi" "s325" a)
     = Some (Node.JNum x)
     /\ integer_value x = Some 1099 /\ nearest_minor_units a = Some 1100)
  /\ (let a := Js.parseFloat (Js.Str "19.99") in
      exists x,
        Node.member initialAmount_path (phonepe_payloadJson "shop@upi" "s325" a)
        = Some (Node.JNum x)
        /\ integer_value x = Some 1998 /\ nearest_minor_units a = Some 1999)
  /\ ~ minor_units_rounded_to_nearest.
Proof.
  cbv zeta. split; [|split].
  - eexists. split; [apply initialAmount_member|]. split; vm_compute; reflexivity.
  - eexists. split; [apply initialAmount_member|]. split; vm_compute; reflexivity.
  - intros H.
    destruct (H "shop@upi" "s325" (Js.parseFloat (Js.Str "10.999")) eq_refl)
      as (x & Hm & Hx).
    rewrite initialAmount_member in Hm.
    apply (f_equal (fun o => match o with
                             | Some (Node.JNum y) => y
                             | _ => S754_nan
                             end)) in Hm.
    cbv beta iota in Hm. subst x.
    vm_compute in Hx. discriminate Hx.
Qed.

(** C9, as amended.  The PhonePe payload that Create signs, stores and
    returns is the base64 of the JSON text of an object whose
    [initialAmount] is [Math.floor(paymentAmount * 100)]: the product is
    taken in binary64 and rounded down, so a product with a fractional
    part contributes its integer part. *)
Theorem phonepe_minor_units_floored (host : Host) (req : CreateRequest) (w : World) :
  acceptable host req w ->
  paymentType req = "phonepe" ->
  let payloadJson :=
    phonepe_payloadJson (merchantUPI (current_settings w)) (next_note host w)
      (paymentAmount req) in
  Node.member initialAmount_path payloadJson
  = Some (Node.JNum (Js.Math_floor (Js.mul (paymentAmount req) (Js.of_Z 100))))
  /\ (forall m e,
        Js.mul (paymentAmount req) (Js.of_Z 100) = S754_finite false m e -> e < 0 ->
        Js.Math_floor (Js.mul (paymentAmount req) (Js.of_Z 100))
        = Js.of_Z (Zpos m / 2 ^ (- e)))
  /\ exists r w' tx,
       run (createPayment host req) w = (Returned r, w')
       /\ transactions w' !! next_tid host w = Some tx
       /\ payload tx = Node.base64 (Node.JSON_stringify (toString10 host) payloadJson)
       /\ lookup_field "payload" (res_body r) = Some (FStr (payload tx)).
Proof.
  intros Hacc Htype payloadJson. split; [apply initialAmount_member|]. split.
  - intros m e -> He. now apply Math_floor_integer_part.
  - destruct (createPayment_accepted host req w Hacc) as (w' & Hrun & Hl & _).
    destruct (built_response_fields host req w) as (Hp & _).
    exists (json 200 (built_response (built_for host req w))), w',
      (stamp_new (reading 2 w) (document_for host req w)).
    split; [exact Hrun|]. split; [exact Hl|]. split; [|exact Hp].
    change (payload (stamp_new (reading 2 w) (document_for host req w)))
      with (built_payloadB64 (built_for host req w)).
    unfold built_for. rewrite Htype. reflexivity.
Qed.

Lemma phonepe_minor_units_floored_witness :
  let req := Sample.create (Js.Str "19.99") "phonepe" in
  let w := Sample.fresh 1700000000500 "my_super_secret_key" in
  Node.member initialAmount_path
    (phonepe_payloadJson (merchantUPI (current_settings w))
       (next_note Sample.host w) (paymentAmount req))
  = Some (Node.JNum (Js.of_Z 1998)).
Proof.
  cbv zeta.
  destruct (phonepe_minor_units_floored Sample.host
              (Sample.create (Js.Str "19.99") "phonepe")
              (Sample.fresh 1700000000500 "my_super_secret_key"))
    as (Hm & Hfloor & _).
  - apply sample_acceptable; reflexivity.
  - reflexivity.
  - cbv zeta in Hm. rewrite Hm.
    rewrite (Hfloor 8791694975696895%positive (-42)%Z); [reflexivity | reflexivity | lia].
Defined.

(** C10.  On a pending record that satisfies the schema, as every record
    the controller files does, a Resolve that reports success, failed or
    expired with no signature (on simulate: with any signature or none)
    is applied: the record takes the reported status and the time of the
    call as [completedAt], and nothing else of what it was created with
    changes.  Knowing the transaction identifier is all it takes.  The
    answer is the endpoint's 200; only when verify or the webhook then
    fail to save the order the record names is it 500, with the record
    already written. *)
Theorem unsigned_resolve_is_applied (host : Host) (ep : Endpoint) (body : Body)
    (w : World) (t s : string) (tx : Transaction) :
  body_tid body = Some t -> t <> "" ->
  body_status body = Some s -> terminal_report s ->
  transactions w !! t = Some tx -> tid tx = t ->
  status tx = "pending" -> schema_valid tx ->
  ep = Simulate \/ Js.falsy_str (body_signature body) = true ->
  exists r tx' w',
    run (resolve host ep body) w = (Returned r, w')
    /\ transactions w' !! t = Some tx'
    /\ status tx' = s /\ completedAt tx' = Some (clock w)
    /\ same_creation tx tx'
    /\ (ep = Simulate \/ order_admits s w tx ->
        r = applied_response ep t s tx /\ res_status r = 200)
    /\ (forall id o,
          ep <> Simulate -> orderId tx = Some id -> orders w !! id = Some o ->
          Order_validate (Order_settle s o) <> [] ->
          res_status r = 500).
Proof.
  intros Htid Ht Hstatus Hterm Hstored Hkey Hst Hv Hnosig.
  assert (Hin : Js.includes Transaction_status_enum s = true)
    by (destruct Hterm as [-> | [-> | ->]]; reflexivity).
  assert (Hs : s <> "") by (destruct Hterm as [-> | [-> | ->]]; discriminate).
  assert (Hsig : signature_ok host ep body tx = true).
  { unfold signature_ok, signed_text.
    destruct Hnosig as [-> | Hnone]; [reflexivity|].
    destruct ep; rewrite ?Hnone; reflexivity. }
  destruct (resolve_written host ep body w t s tx)
    as (r & tx' & w' & Hrun & (H1 & H2 & H3) & _ & Hmap & _ & _ & Hgood & Hbad);
    try assumption.
  exists r, tx', w'. split; [exact Hrun|].
  split; [rewrite Hmap; apply lookup_insert_eq|].
  split; [exact H1|]. split; [exact H2|]. split; [exact H3|]. split.
  - intros Hg. destruct (Hgood Hg) as [-> _]. split; [reflexivity|].
    destruct ep; reflexivity.
  - intros id o Hep Hid Ho Hno. destruct (Hbad id o Hep Hid Ho Hno) as [-> _].
    destruct ep; [reflexivity | reflexivity | contradiction].
Qed.

Lemma unsigned_resolve_is_applied_witness :
  exists r tx' w',
    run (resolve Sample.host Verify (Sample.report "success" None))
      (Linked.world 1700000100000)
    = (Returned r, w')
    /\ r = applied_response Verify "cwlp3k9x2a7f1" "success" Linked.tx
    /\ transactions w' !! "cwlp3k9x2a7f1" = Some tx'
    /\ status tx' = "success" /\ completedAt tx' = Some 1700000100000.
Proof.
  destruct (unsigned_resolve_is_applied Sample.host Verify
              (Sample.report "success" None) (Linked.world 1700000100000)
              "cwlp3k9x2a7f1" "success" Linked.tx)
    as (r & tx' & w' & Hrun & Hl & Hs & Hc & _ & Hgood & _).
  - reflexivity.
  - discriminate.
  - reflexivity.
  - left. reflexivity.
  - apply lookup_singleton_eq.
  - reflexivity.
  - reflexivity.
  - reflexivity.
  - right. reflexivity.
  - exists r, tx', w'. split; [exact Hrun|].
    split; [apply Hgood; right; apply linked_admits|]. auto.
Defined.


(** * Further properties of the payment core *)

(** ** The store under any sequence of requests *)

Lemma sound_insert (w w' : World) (t : string) (tx : Transaction) :
  sound_store w -> tid tx = t -> schema_valid tx ->
  transactions w' = <[t := tx]> (transactions w) ->
  sound_store w'.
Proof.
  intros [Hk Hv] Ht Hval Hmap. split.
  - exact (keyed_insert w w' t tx Hk Ht Hmap).
  - intros k u. rewrite Hmap, lookup_insert. case_decide as E.
    + intros [= <-]. exact Hval.
    + apply Hv.
Qed.

Lemma sound_same (w w' : World) :
  sound_store w -> transactions w' = transactions w -> sound_store w'.
Proof.
  intros [Hk Hv] E. split; intros k u; rewrite E; [apply Hk | apply Hv].
Qed.

Lemma act_keeps_sound (host : Host) (a : Action) (w : World) :
  sound_store w -> sound_store (act host w a).
Proof.
  intros Hs. pose proof Hs as [Hk Hv].
  destruct a as [[req | tid_param | ep body] | o]; cbn [act serve].
  - destruct (createPayment_cases host req w)
      as (r & w' & -> & _ & [[Hsame _] | (Hfresh & Hval & _ & Hmap)]); cbn [snd].
    + now apply (sound_same w).
    + apply (sound_insert w w' (next_tid host w)
               (stamp_new (reading 2 w) (document_for host req w)) Hs);
        [reflexivity | exact Hval | exact Hmap].
  - destruct (checkPaymentStatus_cases tid_param w Hk) as (r & w' & -> & [E | Hcase]);
      cbn [snd]; [now apply (sound_same w)|].
    destruct Hcase as (t & tx & _ & Hl & _ & _ & Hval & Hmap).
    apply (sound_insert w w' t (lapsed (reading 1 w) tx) Hs);
      [exact (Hk _ _ Hl) | exact Hval | exact Hmap].
  - destruct (resolve_cases host ep body w Hk) as (r & w' & -> & [E | Hcase]);
      cbn [snd]; [now apply (sound_same w)|].
    destruct Hcase as (t & s & tx & tx' & _ & _ & Hl & _ & _ & Hval & Htr & Hmap).
    apply (sound_insert w w' t tx' Hs); [| exact Hval | exact Hmap].
    rewrite (transition_tid _ _ _ _ Htr). exact (Hk _ _ Hl).
  - exact Hs.
Qed.

Lemma play_keeps_sound (host : Host) (l : list Action) (w : World) :
  sound_store w -> sound_store (play host l w).
Proof.
  revert w. induction l as [|a l IH]; intros w Hs; [exact Hs|].
  cbn. apply IH. now apply act_keeps_sound.
Qed.

(** X1.  A store in which every record is filed under its own [tid] and
    satisfies the transaction schema stays such a store through any
    sequence of requests to the payment endpoints, whatever they carry
    and whatever happens to the clock, the settings and the orders in
    between. *)
Theorem store_stays_sound (host : Host) (l : list Action) (w : World) :
  sound_store w -> sound_store (play host l w).
Proof. apply play_keeps_sound. Qed.

Lemma sample_world_sound (now : Z) : sound_store (Sample.world now).
Proof.
  split; intros k u H; cbn in H; apply lookup_singleton_Some in H as [<- <-];
    reflexivity.
Qed.

Lemma store_stays_sound_witness :
  sound_store
    (play Sample.host
       [Serve (Create (Sample.create (Js.Str "19.99") "phonepe"));
        Serve (Resolve Webhook (Sample.report "success" None));
        Serve (GetStatus (Some "cwlp3k9x2a7f1"))]
       (Sample.world 1700000100000)).
Proof.
  apply (store_stays_sound Sample.host). apply sample_world_sound.
Defined.

Lemma act_keeps_record (host : Host) (a : Action) (w : World)
    (t : string) (tx : Transaction) :
  keyed_by_tid w -> transactions w !! t = Some tx ->
  exists tx',
    transactions (act host w a) !! t = Some tx' /\ same_creation tx tx'
    /\ keyed_by_tid (act host w a).
Proof.
  intros Hk Hl. destruct a as [[req | tid_param | ep body] | o]; cbn [act serve].
  - destruct (createPayment_keeps_settled host req w t tx Hk Hl)
      as (r & w' & -> & H1 & H2).
    exists tx. split; [exact H1|]. split; [apply same_creation_refl | exact H2].
  - destruct (checkPaymentStatus_cases tid_param w Hk) as (r & w' & -> & [E | Hcase]);
      cbn [snd].
    { exists tx. split; [now rewrite E|].
      split; [apply same_creation_refl | now apply (keyed_same w)]. }
    destruct Hcase as (t2 & tx2 & _ & Hl2 & _ & _ & _ & Hmap).
    assert (Hk' : keyed_by_tid w').
    { eapply keyed_insert; [exact Hk| |exact Hmap]. exact (Hk _ _ Hl2). }
    destruct (decide (t2 = t)) as [-> | Hne].
    + rewrite Hl in Hl2. injection Hl2 as <-.
      exists (lapsed (reading 1 w) tx). rewrite Hmap, lookup_insert_eq.
      split; [reflexivity|]. split; [apply lapsed_same_creation | exact Hk'].
    + exists tx. rewrite Hmap, lookup_insert_ne by exact Hne.
      split; [exact Hl|]. split; [apply same_creation_refl | exact Hk'].
  - destruct (resolve_cases host ep body w Hk) as (r & w' & -> & [E | Hcase]);
      cbn [snd].
    { exists tx. split; [now rewrite E|].
      split; [apply same_creation_refl | now apply (keyed_same w)]. }
    destruct Hcase as (t2 & s & tx2 & tx2' & _ & _ & Hl2 & _ & _ & _ & Htr & Hmap).
    assert (Hk' : keyed_by_tid w').
    { eapply keyed_insert; [exact Hk| |exact Hmap].
      rewrite (transition_tid _ _ _ _ Htr). exact (Hk _ _ Hl2). }
    destruct (decide (t2 = t)) as [-> | Hne].
    + rewrite Hl in Hl2. injection Hl2 as <-.
      exists tx2'. rewrite Hmap, lookup_insert_eq.
      split; [reflexivity|]. split; [now destruct Htr as (_ & _ & H) | exact Hk'].
    + exists tx. rewrite Hmap, lookup_insert_ne by exact Hne.
      split; [exact Hl|]. split; [apply same_creation_refl | exact Hk'].
  - exists tx. split; [exact Hl|]. split; [apply same_creation_refl | exact Hk].
Qed.

Lemma play_keeps_record (host : Host) (l : list Action) (w : World)
    (t : string) (tx : Transaction) :
  keyed_by_tid w -> transactions w !! t = Some tx ->
  exists tx',
    transactions (play host l w) !! t = Some tx' /\ same_creation tx tx'
    /\ keyed_by_tid (play host l w).
Proof.
  revert w tx. induction l as [|a l IH]; intros w tx Hk Hl.
  - exists tx. split; [exact Hl|]. split; [apply same_creation_refl | exact Hk].
  - cbn. destruct (act_keeps_record host a w t tx Hk Hl) as (tx1 & Hl1 & Hs1 & Hk1).
    destruct (IH _ _ Hk1 Hl1) as (tx' & Hl' & Hs' & Hk').
    exists tx'. split; [exact Hl'|].
    split; [exact (same_creation_trans _ _ _ Hs1 Hs') | exact Hk'].
Qed.

(** X2.  No endpoint deletes a transaction or rewrites what it was
    created with: through any sequence of requests a stored record stays
    in the store with the same [tid], [userId], [orderId], [amount],
    [payType], [upi], [payload], [signature], [redirectUrl], [note],
    [expires] and [createdAt]. *)
Theorem creation_paths_never_change (host : Host) (l : list Action) (w : World)
    (t : string) (tx : Transaction) :
  keyed_by_tid w -> transactions w !! t = Some tx ->
  exists tx',
    transactions (play host l w) !! t = Some tx' /\ same_creation tx tx'.
Proof.
  intros Hk Hl.
  destruct (play_keeps_record host l w t tx Hk Hl) as (tx' & Hl' & Hs' & _).
  exists tx'. split; assumption.
Qed.

Lemma creation_paths_never_change_witness :
  exists tx',
    transactions
      (play Sample.host
         [Serve (Resolve Simulate (Sample.report "failed" None));
          Serve (Resolve Verify (Sample.report "success" None))]
         (Sample.world 1700000100000)) !! "cwlp3k9x2a7f1" = Some tx'
    /\ same_creation Sample.tx tx'.
Proof.
  apply (creation_paths_never_change Sample.host).
  - apply sample_world_sound.
  - apply lookup_singleton_eq.
Defined.

(** X3.  A status request or a Resolve never adds a record to the
    store, whatever identifier it names; Create adds at most one, under
    the identifier it generated, and that one is pending with no
    completion time. *)
Theorem only_create_adds_a_record (host : Host) (q : Request) (w : World)
    (t : string) :
  keyed_by_tid w -> transactions w !! t = None ->
  match q with
  | Create req =>
      forall tx,
        transactions (snd (run (serve host q) w)) !! t = Some tx ->
        t = next_tid host w /\ status tx = "pending" /\ completedAt tx = None
  | _ => transactions (snd (run (serve host q) w)) !! t = None
  end.
Proof.
  intros Hk Hnone. destruct q as [req | tid_param | ep body]; cbn [serve].
  - intros tx.
    destruct (createPayment_cases host req w)
      as (r & w' & -> & _ & [[Hsame _] | (_ & _ & _ & Hmap)]); cbn [snd].
    + rewrite Hsame, Hnone. discriminate.
    + rewrite Hmap, lookup_insert. case_decide as E.
      * intros [= <-]. split; [now symmetry|]. split; reflexivity.
      * rewrite Hnone. discriminate.
  - destruct (checkPaymentStatus_cases tid_param w Hk) as (r & w' & -> & [E | Hcase]);
      cbn [snd]; [now rewrite E|].
    destruct Hcase as (t2 & tx2 & _ & Hl2 & _ & _ & _ & Hmap).
    rewrite Hmap, lookup_insert_ne; [exact Hnone | congruence].
  - destruct (resolve_cases host ep body w Hk) as (r & w' & -> & [E | Hcase]);
      cbn [snd]; [now rewrite E|].
    destruct Hcase as (t2 & s & tx2 & tx2' & _ & _ & Hl2 & _ & _ & _ & _ & Hmap).
    rewrite Hmap, lookup_insert_ne; [exact Hnone | congruence].
Qed.

Lemma only_create_adds_a_record_witness :
  transactions
    (snd (run (serve Sample.host (Resolve Verify
                 {| body_tid := Some "cwunknown"; body_status := Some "success";
                    body_amount := Js.Undefined; body_upi_ref := None;
                    body_signature := None |}))
            (Sample.world 1700000100000))) !! "cwunknown" = None.
Proof.
  apply (only_create_adds_a_record Sample.host
           (Resolve Verify
              {| body_tid := Some "cwunknown"; body_status := Some "success";
                 body_amount := Js.Undefined; body_upi_ref := None;
                 body_signature := None |})
           (Sample.world 1700000100000) "cwunknown").
  - apply sample_world_sound.
  - reflexivity.
Defined.


(** ** Status requests *)

(** X4.  A status request asked twice in a row, the clock giving the
    same instant both times, gives the same answer twice, and the second
    time it writes nothing: the only write the handler can make, the
    lazy expiry, is made at most once. *)
Theorem status_request_repeats (tid_param : option string) (w : World) :
  keyed_by_tid w ->
  exists r w1,
    run (checkPaymentStatus tid_param) w = (Returned r, w1)
    /\ forall w2,
         transactions w2 = transactions w1 -> clock w2 = clock w ->
         exists w3,
           run (checkPaymentStatus tid_param) w2 = (Returned r, w3)
           /\ (w3 = w2 \/ w3 = tick w2).
Proof.
  intros Hk.
  destruct (Js.falsy_str tid_param) eqn:Hf.
  { eexists _, w. split; [now apply checkPaymentStatus_missing|].
    intros w2 _ _. exists w2. split; [now apply checkPaymentStatus_missing | now left]. }
  destruct (falsy_str_false _ Hf) as (t & -> & Ht).
  destruct (transactions w !! t) as [tx|] eqn:Hl.
  2: { eexists _, w. split; [now apply checkPaymentStatus_not_found|].
       intros w2 E _. exists w2. split; [|now left].
       apply checkPaymentStatus_not_found; [exact Ht | now rewrite E]. }
  destruct (decide (status tx = "pending")) as [Hst | Hst].
  2: { exists (status_response tx), w.
       split; [now apply checkPaymentStatus_settled|].
       intros w2 E _. exists w2. split; [|now left].
       apply checkPaymentStatus_settled; [exact Ht | now rewrite E | exact Hst]. }
  destruct (Z.ltb (expires tx) (clock w)) eqn:Hexp.
  2: { apply Z.ltb_ge in Hexp. exists (status_response tx), (tick w).
       split; [now apply checkPaymentStatus_pending|].
       intros w2 E Hc. exists (tick w2). split; [|now right].
       apply checkPaymentStatus_pending; [exact Ht | now rewrite E | exact Hst | lia]. }
  apply Z.ltb_lt in Hexp.
  destruct (Transaction_validate (set_status "expired" tx)) as [|p ps] eqn:Hval.
  - rewrite (checkPaymentStatus_expires w t tx Ht Hl (Hk _ _ Hl) Hst Hexp Hval).
    eexists _, _. split; [reflexivity|].
    intros w2 E _. exists w2. split; [|now left].
    apply (checkPaymentStatus_settled w2 t (lapsed (reading 1 w) tx)).
    + exact Ht.
    + rewrite E. cbn. apply lookup_insert_eq.
    + discriminate.
  - rewrite (checkPaymentStatus_rejected w t tx) by (congruence || assumption).
    eexists _, _. split; [reflexivity|].
    intros w2 E Hc. exists (tick w2). split; [|now right].
    apply (checkPaymentStatus_rejected w2 t tx);
      [exact Ht | now rewrite E | exact Hst | lia | congruence].
Qed.

Lemma status_request_repeats_witness :
  exists r w1,
    run (checkPaymentStatus (Some "cwlp3k9x2a7f1")) (Sample.world 1700000700000)
    = (Returned r, w1)
    /\ exists w3,
         run (checkPaymentStatus (Some "cwlp3k9x2a7f1")) w1 = (Returned r, w3)
         /\ (w3 = w1 \/ w3 = tick w1).
Proof.
  destruct (status_request_repeats (Some "cwlp3k9x2a7f1") (Sample.world 1700000700000))
    as (r & w1 & Hrun & Hagain).
  - apply sample_world_sound.
  - exists r, w1. split; [exact Hrun|]. apply Hagain; [reflexivity|].
    rewrite (checkPaymentStatus_expires (Sample.world 1700000700000)
               "cwlp3k9x2a7f1" Sample.tx) in Hrun;
      [| discriminate | apply lookup_singleton_eq | reflexivity | reflexivity
       | reflexivity | reflexivity].
    apply (f_equal snd) in Hrun. cbn [snd] in Hrun. subst w1. reflexivity.
Defined.

(** X5.  The expiry test is strict.  A pending record (one that
    satisfies the schema) read at its expiry instant or before it is
    reported pending and nothing is written; read one millisecond later
    or more it is saved as expired and reported expired. *)
Theorem expiry_instant_is_still_pending (w : World) (t : string) (tx : Transaction) :
  t <> "" -> transactions w !! t = Some tx -> tid tx = t ->
  status tx = "pending" -> schema_valid tx ->
  (clock w <= expires tx ->
   run (checkPaymentStatus (Some t)) w = (Returned (status_response tx), tick w))
  /\ (expires tx < clock w ->
      exists w',
        run (checkPaymentStatus (Some t)) w
        = (Returned (status_response (set_status "expired" tx)), w')
        /\ transactions w' !! t = Some (lapsed (reading 1 w) tx)).
Proof.
  intros Ht Hl Hkey Hst Hv. split.
  - intros Hle. now apply checkPaymentStatus_pending.
  - intros Hlt.
    rewrite (checkPaymentStatus_expires w t tx Ht Hl Hkey Hst Hlt (expired_valid tx Hv)).
    eexists. split; [reflexivity|]. cbn. apply lookup_insert_eq.
Qed.

Lemma expiry_instant_is_still_pending_witness :
  run (checkPaymentStatus (Some "cwlp3k9x2a7f1")) (Sample.world 1700000600000)
  = (Returned (status_response Sample.tx), tick (Sample.world 1700000600000))
  /\ exists w',
       run (checkPaymentStatus (Some "cwlp3k9x2a7f1")) (Sample.world 1700000600001)
       = (Returned (status_response (set_status "expired" Sample.tx)), w')
       /\ transactions w' !! "cwlp3k9x2a7f1"
          = Some (lapsed 1700000600001 Sample.tx).
Proof.
  split.
  - apply (expiry_instant_is_still_pending (Sample.world 1700000600000)
             "cwlp3k9x2a7f1" Sample.tx);
      [discriminate | apply lookup_singleton_eq | reflexivity | reflexivity
      | reflexivity | cbn; lia].
  - apply (expiry_instant_is_still_pending (Sample.world 1700000600001)
             "cwlp3k9x2a7f1" Sample.tx);
      [discriminate | apply lookup_singleton_eq | reflexivity | reflexivity
      | reflexivity | cbn; lia].
Defined.


(** X6.  A request that names no transaction, or one the store does not
    hold, writes nothing: a status request, verify, webhook and simulate
    all answer 400 when the identifier (or, for the three, the status)
    is missing or empty, and 404 when the identifier is unknown. *)
Theorem unknown_transaction_writes_nothing (host : Host) (w : World) :
  (forall tid_param,
     transactions w !! default "" tid_param = None ->
     exists r,
       run (checkPaymentStatus tid_param) w = (Returned r, w)
       /\ res_status r = (if Js.falsy_str tid_param then 400 else 404))
  /\ (forall ep body,
        transactions w !! default "" (body_tid body) = None ->
        exists r,
          run (resolve host ep body) w = (Returned r, w)
          /\ res_status r
             = (if Js.falsy_str (body_tid body) || Js.falsy_str (body_status body)
                then 400 else 404)).
Proof.
  split.
  - intros tid_param Hnone. destruct (Js.falsy_str tid_param) eqn:Hf.
    + rewrite checkPaymentStatus_missing by exact Hf. eauto.
    + destruct (falsy_str_false _ Hf) as (t & -> & Ht). cbn in Hnone.
      rewrite checkPaymentStatus_not_found by assumption. eauto.
  - intros ep body Hnone.
    destruct (Js.falsy_str (body_tid body) || Js.falsy_str (body_status body)) eqn:Hf.
    + destruct (resolve_missing_field host ep body w Hf) as [msg ->]. eauto.
    + apply orb_false_iff in Hf as [Hf1 Hf2].
      destruct (falsy_str_false _ Hf1) as (t & Htid & Ht).
      destruct (falsy_str_false _ Hf2) as (s & Hstatus & Hs).
      rewrite Htid in Hnone. cbn in Hnone.
      rewrite (resolve_not_found host ep body w t s) by assumption. eauto.
Qed.

Lemma unknown_transaction_writes_nothing_witness :
  exists r,
    run (resolve Sample.host Webhook
           {| body_tid := Some "cwunknown"; body_status := Some "success";
              body_amount := Js.Undefined; body_upi_ref := None;
              body_signature := None |}) (Sample.world 1700000100000)
    = (Returned r, Sample.world 1700000100000)
    /\ res_status r = 404.
Proof.
  apply (proj2 (unknown_transaction_writes_nothing Sample.host
                  (Sample.world 1700000100000)) Webhook
           {| body_tid := Some "cwunknown"; body_status := Some "success";
              body_amount := Js.Undefined; body_upi_ref := None;
              body_signature := None |}).
  reflexivity.
Defined.

(** ** What a transition does to the order *)

Lemma Order_validate_nil (o : Order) :
  Order_validate o = [] <->
  failing "orderNumber" (required_string (order_orderNumber o)) = []
  /\ Address_validate (order_deliveryAddress o) = []
  /\ concat (imap Product_validate (order_products o)) = []
  /\ Summary_validate (order_orderSummary o) = []
  /\ Coupon_validate (order_couponUsed o) = []
  /\ Js.includes Order_status_enum (order_status o) = true
  /\ in_enum Order_paymentMethod_enum (order_paymentMethod o) = true
  /\ Js.includes Order_paymentStatus_enum (order_paymentStatus o) = true
  /\ required_string (order_dataSource o)
     && in_enum Order_dataSource_enum (order_dataSource o) = true.
Proof.
  unfold Order_validate. rewrite !app_nil, !failing_nil. tauto.
Qed.

(** An order that satisfies its schema still does once verify or the
    webhook have assigned it: what they assign is in the enums. *)
Lemma settle_valid (s : string) (o : Order) :
  order_valid o -> Order_validate (Order_settle s o) = [].
Proof.
  unfold order_valid. rewrite !Order_validate_nil.
  intros (H1 & H2 & H3 & H4 & H5 & _ & H7 & _ & H9).
  unfold Order_settle. cbn.
  repeat (split; [assumption|]).
  destruct (String.eqb s "success"); repeat split; try reflexivity; assumption.
Qed.

(** X7.  When verify or the webhook settles a pending transaction (one
    that satisfies its schema) that belongs to an order, the order is
    loaded, assigned and saved.  If the order as assigned satisfies the
    order schema, a reported success marks it paid and confirmed, any
    other reported status marks it failed and cancelled, and the answer
    is 200.  If it does not, for want of a required path for one, the
    save of the order is rejected: the answer is 500 and the order is as
    it was, yet the transaction is already written with the reported
    status. *)
Theorem resolve_by_save_settles_order (host : Host) (ep : Endpoint) (body : Body)
    (w : World) (t s : string) (tx : Transaction) (id : ObjectId) (o : Order) :
  ep <> Simulate ->
  body_tid body = Some t -> t <> "" ->
  body_status body = Some s ->
  Js.includes Transaction_status_enum s = true ->
  transactions w !! t = Some tx -> tid tx = t -> status tx = "pending" ->
  schema_valid tx ->
  signature_ok host ep body tx = true ->
  orderId tx = Some id -> orders w !! id = Some o ->
  (Order_validate (Order_settle s o) = [] ->
   exists w',
     run (resolve host ep body) w = (Returned (applied_response ep t s tx), w')
     /\ orders w' = <[id := Order_settle s o]> (orders w)
     /\ order_status (Order_settle s o)
        = (if String.eqb s "success" then "confirmed" else "cancelled")
     /\ order_paymentStatus (Order_settle s o)
        = (if String.eqb s "success" then "paid" else "failed"))
  /\ (Order_validate (Order_settle s o) <> [] ->
      exists tx' w',
        run (resolve host ep body) w
        = (Returned (save_failed ep (ValidationError (Order_validate (Order_settle s o)))),
           w')
        /\ res_status (save_failed ep (ValidationError (Order_validate (Order_settle s o))))
           = 500
        /\ orders w' = orders w
        /\ transactions w' !! t = Some tx' /\ status tx' = s).
Proof.
  intros Hep Htid Ht Hstatus Hin Hstored Hkey Hst Hv Hsig Hoid Ho.
  assert (Hs : s <> "") by (intros ->; discriminate Hin).
  split.
  - intros Hok.
    destruct (resolve_applied host ep body w t s tx)
      as (tx' & w' & Hrun & _ & _ & _ & _ & _ & Hord); try assumption.
    { right. intros id' o' Hid' Ho'. assert (id' = id) as -> by congruence.
      assert (o' = o) as -> by congruence. exact Hok. }
    exists w'. split; [exact Hrun|]. split; [|split; reflexivity].
    rewrite Hord. unfold orders_settled. rewrite Hoid, Ho.
    destruct ep; [reflexivity | reflexivity | contradiction].
  - intros Hbad.
    destruct (resolve_order_rejected host ep body w t s tx id o)
      as (tx' & w' & Hrun & Htr & _ & Hmap & _ & _ & Hord); try assumption.
    exists tx', w'. split; [exact Hrun|].
    split; [destruct ep; [reflexivity | reflexivity | contradiction]|].
    split; [exact Hord|]. split; [rewrite Hmap; apply lookup_insert_eq|].
    now destruct Htr.
Qed.

Lemma resolve_by_save_settles_order_witness :
  (exists w',
     run (resolve Sample.host Verify (Sample.report "failed" None))
       (Linked.world 1700000100000)
     = (Returned (applied_response Verify "cwlp3k9x2a7f1" "failed" Linked.tx), w')
     /\ orders w'
        = <[Linked.order_id := Order_settle "failed" Linked.order]>
            (orders (Linked.world 1700000100000))
     /\ order_status (Order_settle "failed" Linked.order) = "cancelled"
     /\ order_paymentStatus (Order_settle "failed" Linked.order) = "failed")
  /\ exists tx' w',
       run (resolve Sample.host Verify (Sample.report "success" None))
         (Linked.world_with Linked.legacy_order 1700000100000)
       = (Returned (save_failed Verify (ValidationError ["dataSource"])), w')
       /\ res_status (save_failed Verify (ValidationError ["dataSource"])) = 500
       /\ orders w' = orders (Linked.world_with Linked.legacy_order 1700000100000)
       /\ transactions w' !! "cwlp3k9x2a7f1" = Some tx' /\ status tx' = "success".
Proof.
  split.
  - apply (proj1 (resolve_by_save_settles_order Sample.host Verify
                    (Sample.report "failed" None) (Linked.world 1700000100000)
                    "cwlp3k9x2a7f1" "failed" Linked.tx Linked.order_id Linked.order
                    ltac:(discriminate) eq_refl ltac:(discriminate) eq_refl eq_refl
                    (lookup_singleton_eq _ _) eq_refl eq_refl eq_refl eq_refl eq_refl
                    (lookup_singleton_eq _ _))).
    reflexivity.
  - apply (proj2 (resolve_by_save_settles_order Sample.host Verify
                    (Sample.report "success" None)
                    (Linked.world_with Linked.legacy_order 1700000100000)
                    "cwlp3k9x2a7f1" "success" Linked.tx Linked.order_id
                    Linked.legacy_order
                    ltac:(discriminate) eq_refl ltac:(discriminate) eq_refl eq_refl
                    (lookup_singleton_eq _ _) eq_refl eq_refl eq_refl eq_refl eq_refl
                    (lookup_singleton_eq _ _))).
    discriminate.
Defined.

(** X8.  Simulate and the lazy expiry update the order by query, naming
    the paths [paymentStatus] and [orderStatus]; the order schema has no
    path [orderStatus], so when they settle a pending transaction (one
    that satisfies the schema) only the payment status of its order is
    written and the [status] of the order stays what it was, where
    verify and the webhook would have confirmed or cancelled the
    order. *)
Theorem update_by_query_keeps_order_status (host : Host) (body : Body) (w : World)
    (t : string) (tx : Transaction) (id : ObjectId) (o : Order) :
  t <> "" -> transactions w !! t = Some tx -> tid tx = t ->
  status tx = "pending" -> schema_valid tx ->
  orderId tx = Some id -> orders w !! id = Some o ->
  (forall s,
     body_tid body = Some t -> body_status body = Some s ->
     Js.includes Transaction_status_enum s = true ->
     exists w',
       run (simulatePayment host body) w
       = (Returned (applied_response Simulate t s tx), w')
       /\ orders w'
          = <[id := set_order_paymentStatus
                      (if String.eqb s "success" then "paid" else "failed") o]>
              (orders w))
  /\ (expires tx < clock w ->
      exists w',
        run (checkPaymentStatus (Some t)) w
        = (Returned (status_response (set_status "expired" tx)), w')
        /\ orders w' = <[id := set_order_paymentStatus "failed" o]> (orders w)).
Proof.
  intros Ht Hstored Hkey Hst Hv Hoid Ho. split.
  - intros s Htid Hstatus Hin.
    assert (Hs : s <> "") by (intros ->; discriminate Hin).
    destruct (resolve_applied host Simulate body w t s tx)
      as (tx' & w' & Hrun & _ & _ & _ & _ & _ & Hord); try assumption;
      [reflexivity | now left |].
    exists w'. split; [exact Hrun|]. rewrite Hord.
    unfold orders_updated. now rewrite Hoid, Ho.
  - intros Hexp.
    rewrite (checkPaymentStatus_expires w t tx Ht Hstored Hkey Hst Hexp
               (expired_valid tx Hv)).
    eexists. split; [reflexivity|]. cbn. unfold orders_updated. now rewrite Hoid, Ho.
Qed.

Lemma update_by_query_keeps_order_status_witness :
  (exists w',
     run (simulatePayment Sample.host (Sample.report "success" None))
       (Linked.world 1700000100000)
     = (Returned (applied_response Simulate "cwlp3k9x2a7f1" "success" Linked.tx), w')
     /\ orders w'
        = <[Linked.order_id := set_order_paymentStatus "paid" Linked.order]>
            (orders (Linked.world 1700000100000)))
  /\ exists w',
       run (checkPaymentStatus (Some "cwlp3k9x2a7f1")) (Linked.world 1700000700000)
       = (Returned (status_response (set_status "expired" Linked.tx)), w')
       /\ orders w'
          = <[Linked.order_id := set_order_paymentStatus "failed" Linked.order]>
              (orders (Linked.world 1700000700000)).
Proof.
  split.
  - apply (proj1 (update_by_query_keeps_order_status Sample.host
                    (Sample.report "success" None) (Linked.world 1700000100000)
                    "cwlp3k9x2a7f1" Linked.tx Linked.order_id Linked.order
                    ltac:(discriminate) (lookup_singleton_eq _ _) eq_refl eq_refl
                    eq_refl eq_refl (lookup_singleton_eq _ _)) "success");
      reflexivity.
  - apply (proj2 (update_by_query_keeps_order_status Sample.host
                    (Sample.report "success" None) (Linked.world 1700000700000)
                    "cwlp3k9x2a7f1" Linked.tx Linked.order_id Linked.order
                    ltac:(discriminate) (lookup_singleton_eq _ _) eq_refl eq_refl
                    eq_refl eq_refl (lookup_singleton_eq _ _))).
    cbn. lia.
Defined.


(** ** Create: the unique index and the default settings *)

(** X9.  The unique index on [tid] holds: when the identifier that
    Create generates is already taken, the save is rejected with a
    duplicate key error, the answer is 500, and the transactions are as
    they were; the record that held the identifier is not overwritten. *)
Theorem tid_collision_is_refused (host : Host) (req : CreateRequest) (w : World)
    (held : Transaction) :
  Js.ltb (Js.of_Z 0) (paymentAmount req) = true ->
  Js.includes ["phonepe"; "paytm"] (paymentType req) = true ->
  Js.trim (merchantUPI (current_settings w)) <> "" ->
  castable_ids req ->
  transactions w !! next_tid host w = Some held ->
  exists w',
    run (createPayment host req) w
    = (Returned (json 500 [("error", FStr "Failed to create payment");
                           ("message", FMessage (DuplicateKeyError "tid"))]), w')
    /\ transactions w' = transactions w.
Proof.
  intros Hpos Hin Hupi Hids Hheld.
  rewrite createPayment_reaches_save;
    [| now apply positive_not_falsy | now apply payType_present | exact Hin].
  pose proof (positive_valid _ Hpos) as Hv. apply andb_true_iff in Hv as [Hn Hl].
  apply negb_true_iff in Hn.
  cbn. rewrite (document_valid host req w Hl Hn Hin Hupi Hids).
  rewrite tid_document_for. change (transactions (at_save w)) with (transactions w).
  rewrite Hheld. exists (tick (at_save w)). split; reflexivity.
Qed.

Lemma tid_collision_is_refused_witness :
  let w := with_transactions {[ "cwloyw3vg4fr" := Sample.tx ]}
             (Sample.fresh 1700000000500 "k") in
  exists w',
    run (createPayment Sample.host (Sample.create (Js.Str "250") "paytm")) w
    = (Returned (json 500 [("error", FStr "Failed to create payment");
                           ("message", FMessage (DuplicateKeyError "tid"))]), w')
    /\ transactions w' = transactions w.
Proof.
  cbv zeta.
  apply (tid_collision_is_refused Sample.host (Sample.create (Js.Str "250") "paytm")
           (with_transactions {[ "cwloyw3vg4fr" := Sample.tx ]}
              (Sample.fresh 1700000000500 "k")) Sample.tx).
  - reflexivity.
  - reflexivity.
  - vm_compute. discriminate.
  - split; reflexivity.
  - vm_compute. reflexivity.
Defined.

(** X10.  Create does not fail for want of a configuration: on a
    database that holds no settings document it creates the one with the
    schema defaults and addresses the payment to the default receive
    address, [mstandwafuelcentre@sbi]. *)
Theorem first_payment_goes_to_default_address (host : Host) (req : CreateRequest)
    (w : World) :
  settings w = None ->
  Js.ltb (Js.of_Z 0) (paymentAmount req) = true ->
  Js.includes ["phonepe"; "paytm"] (paymentType req) = true ->
  castable_ids req ->
  transactions w !! next_tid host w = None ->
  exists r w' tx,
    run (createPayment host req) w = (Returned r, w')
    /\ res_status r = 200
    /\ settings w' = Some Settings_defaults
    /\ transactions w' !! next_tid host w = Some tx
    /\ upi tx = "mstandwafuelcentre@sbi".
Proof.
  intros Hnone Hpos Hin Hids Hfresh.
  assert (Hcur : current_settings w = Settings_defaults)
    by (unfold current_settings; now rewrite Hnone).
  assert (Hacc : acceptable host req w).
  { split; [exact Hpos|]. split; [exact Hin|]. split; [|split; assumption].
    rewrite Hcur. vm_compute. discriminate. }
  destruct (createPayment_accepted host req w Hacc) as (w' & Hrun & Hl & _ & _ & Hset).
  exists (json 200 (built_response (built_for host req w))), w',
    (stamp_new (reading 2 w) (document_for host req w)).
  split; [exact Hrun|]. split; [reflexivity|].
  split; [now rewrite Hset, Hcur|]. split; [exact Hl|].
  change (upi (stamp_new (reading 2 w) (document_for host req w)))
    with (Js.trim (merchantUPI (current_settings w))).
  rewrite Hcur. vm_compute. reflexivity.
Qed.

Lemma first_payment_goes_to_default_address_witness :
  let w := with_settings None (Sample.fresh 1700000000500 "k") in
  exists r w' tx,
    run (createPayment Sample.host (Sample.create (Js.Str "250") "paytm")) w
    = (Returned r, w')
    /\ res_status r = 200
    /\ settings w' = Some Settings_defaults
    /\ transactions w' !! next_tid Sample.host w = Some tx
    /\ upi tx = "mstandwafuelcentre@sbi".
Proof.
  cbv zeta.
  apply (first_payment_goes_to_default_address Sample.host
           (Sample.create (Js.Str "250") "paytm")
           (with_settings None (Sample.fresh 1700000000500 "k"))).
  - reflexivity.
  - reflexivity.
  - reflexivity.
  - split; reflexivity.
  - apply lookup_empty.
Defined.


(** ** The shape of a signature *)

Lemma be_bytes_length (n : nat) (v : Z) : length (Sha256.be_bytes n v) = n.
Proof. induction n as [|n IH]; cbn; [reflexivity | now rewrite IH]. Qed.

Lemma be_bytes_octets (n : nat) (v : Z) :
  Forall (fun b => 0 <= b < 256) (Sha256.be_bytes n v).
Proof.
  induction n as [|n IH]; cbn; constructor; [|exact IH].
  apply Z.mod_pos_bound. lia.
Qed.

Lemma compress_length (h block : list Z) :
  length h = 8%nat -> length (Sha256.compress h block) = 8%nat.
Proof.
  intros Hh. unfold Sha256.compress.
  rewrite List.length_map, List.length_combine, Hh. reflexivity.
Qed.

Lemma blocks_length (n : nat) (h bs : list Z) :
  length h = 8%nat -> length (Sha256.blocks n h bs) = 8%nat.
Proof.
  revert h bs. induction n as [|n IH]; intros h bs Hh; cbn; [exact Hh|].
  apply IH. now apply compress_length.
Qed.

Lemma words_to_octets (l : list Z) :
  length (flat_map (Sha256.be_bytes 4) l) = (4 * length l)%nat
  /\ Forall (fun b => 0 <= b < 256) (flat_map (Sha256.be_bytes 4) l).
Proof.
  induction l as [|x l [IH1 IH2]]; [split; [reflexivity | constructor]|].
  split.
  - change (flat_map (Sha256.be_bytes 4) (x :: l))
      with (Sha256.be_bytes 4 x ++ flat_map (Sha256.be_bytes 4) l)%list.
    rewrite List.length_app, be_bytes_length, IH1. cbn [length]. lia.
  - change (flat_map (Sha256.be_bytes 4) (x :: l))
      with (Sha256.be_bytes 4 x ++ flat_map (Sha256.be_bytes 4) l)%list.
    apply Forall_app. split; [apply be_bytes_octets | exact IH2].
Qed.

(** A digest is 32 octets. *)
Lemma digest_octets (msg : list Z) :
  length (Sha256.digest msg) = 32%nat
  /\ Forall (fun b => 0 <= b < 256) (Sha256.digest msg).
Proof.
  unfold Sha256.digest.
  destruct (words_to_octets
              (Sha256.blocks (Nat.div (length (Sha256.pad msg)) 64) Sha256.H0
                 (Sha256.pad msg))) as [H1 H2].
  split; [|exact H2]. rewrite H1, blocks_length; reflexivity.
Qed.

Lemma hex_digit_lower (d : Z) :
  0 <= d < 16 -> Node.one_of "0123456789abcdef" (Bytes.hex_digit d) = true.
Proof.
  intros H.
  assert (E : d = 0 \/ d = 1 \/ d = 2 \/ d = 3 \/ d = 4 \/ d = 5 \/ d = 6 \/ d = 7
              \/ d = 8 \/ d = 9 \/ d = 10 \/ d = 11 \/ d = 12 \/ d = 13 \/ d = 14
              \/ d = 15) by lia.
  repeat (destruct E as [-> | E]; [reflexivity|]). subst d. reflexivity.
Qed.

Lemma string_of_list_length (l : list ascii) :
  String.length (string_of_list_ascii l) = length l.
Proof. induction l as [|c l IH]; cbn; [reflexivity | now rewrite IH]. Qed.

Lemma hex_of_octets (bs : list Z) :
  Forall (fun b => 0 <= b < 256) bs ->
  lower_hex (2 * length bs) (Bytes.hex bs).
Proof.
  intros Hb. unfold lower_hex, Bytes.hex.
  rewrite string_of_list_length, list_ascii_of_string_of_list_ascii.
  induction Hb as [|b bs Hb1 Hb IH]; [split; [reflexivity | constructor]|].
  destruct IH as [IH1 IH2]. cbn [flat_map app length]. split.
  - rewrite IH1. lia.
  - constructor; [|constructor; [|exact IH2]]; apply hex_digit_lower.
    + split; [apply Z.div_pos; lia | apply Z.div_lt_upper_bound; lia].
    + apply Z.mod_pos_bound. lia.
Qed.

(** X11.  Every HMAC the controller computes, the signature of a payload
    and the expected signature of a webhook alike, is a string of 64
    lower-case hexadecimal digits; so a signature sent to verify in any
    other form, in upper case for one, is refused as invalid and nothing
    is written. *)
Theorem signature_is_64_hex_digits (host : Host) :
  (forall key data, lower_hex 64 (createHmac_sha256_hex key data))
  /\ (forall payload, lower_hex 64 (createSignature host payload))
  /\ (forall body w t s sig tx,
        body_tid body = Some t -> t <> "" ->
        body_status body = Some s -> s <> "" ->
        body_signature body = Some sig -> sig <> "" ->
        transactions w !! t = Some tx ->
        ~ lower_hex 64 sig ->
        run (verifyPayment host body) w = (Returned invalid_signature, w)).
Proof.
  assert (H : forall key data, lower_hex 64 (createHmac_sha256_hex key data)).
  { intros key data. unfold createHmac_sha256_hex, Hmac.hmac_sha256.
    destruct (digest_octets
                (map (Z.lxor 92) (Hmac.normalise_key (Bytes.of_string key))
                 ++ Sha256.digest
                      (map (Z.lxor 54) (Hmac.normalise_key (Bytes.of_string key))
                       ++ Bytes.of_string data))%list) as [Hlen Hoct].
    pose proof (hex_of_octets _ Hoct) as Hhex. rewrite Hlen in Hhex. exact Hhex. }
  split; [exact H|]. split; [intros payload; apply H|].
  intros body w t s sig tx Htid Ht Hstatus Hs Hsg Hsig Hstored Hno.
  apply (resolve_bad_signature host Verify body w t s tx); try assumption.
  unfold signature_ok, signed_text. rewrite Hsg. cbn.
  apply String.eqb_neq in Hsig. rewrite Hsig. cbn.
  apply String.eqb_neq. intros ->. apply Hno. apply H.
Qed.

Lemma signature_is_64_hex_digits_witness :
  run (verifyPayment Sample.host
         (Sample.report "success"
            (Some "CD2E7490CD2E7490CD2E7490CD2E7490CD2E7490CD2E7490CD2E7490CD2E7490")))
    (Sample.world 1700000100000)
  = (Returned invalid_signature, Sample.world 1700000100000).
Proof.
  apply (proj2 (proj2 (signature_is_64_hex_digits Sample.host))
           (Sample.report "success"
              (Some "CD2E7490CD2E7490CD2E7490CD2E7490CD2E7490CD2E7490CD2E7490CD2E7490"))
           (Sample.world 1700000100000) "cwlp3k9x2a7f1" "success"
           "CD2E7490CD2E7490CD2E7490CD2E7490CD2E7490CD2E7490CD2E7490CD2E7490"
           Sample.tx).
  - reflexivity.
  - discriminate.
  - reflexivity.
  - discriminate.
  - reflexivity.
  - discriminate.
  - apply lookup_singleton_eq.
  - intros [_ Hf]. cbn in Hf. inversion Hf as [|c l Hc _]. discriminate Hc.
Defined.

(** ** One request after another *)

Lemma next_tid_not_empty (host : Host) (w : World) : next_tid host w <> "".
Proof. unfold next_tid. cbn. discriminate. Qed.

Lemma in_enum_not_empty (s : string) :
  Js.includes Transaction_status_enum s = true -> s <> "".
Proof. intros H ->. discriminate H. Qed.

(** X12.  The signature Create returns is the one signature verify
    accepts for the new transaction, and it stays so.  After the
    creation and any sequence of further requests, a verify call that
    names the new identifier, reports a status of the enum and carries a
    signature is refused as invalid, with nothing written, when the
    signature is any other than the returned one.  With the returned
    one it passes the signature test: it is answered that the
    transaction is already settled when a request in between has settled
    it, and it is applied when the record is still pending (and its
    order, if it has one, can be saved). *)
Theorem returned_signature_verifies (host : Host) (req : CreateRequest) (w : World)
    (s : string) :
  sound_store w ->
  acceptable host req w ->
  Js.includes Transaction_status_enum s = true ->
  exists r w1 sig,
    run (createPayment host req) w = (Returned r, w1)
    /\ lookup_field "tid" (res_body r) = Some (FStr (next_tid host w))
    /\ lookup_field "sig" (res_body r) = Some (FStr sig)
    /\ forall l sig' amount upi_ref,
         sig' <> "" ->
         let body := {| body_tid := Some (next_tid host w); body_status := Some s;
                        body_amount := amount; body_upi_ref := upi_ref;
                        body_signature := Some sig' |} in
         let w2 := play host l w1 in
         exists tx2,
           transactions w2 !! next_tid host w = Some tx2
           /\ (sig' <> sig ->
               run (verifyPayment host body) w2 = (Returned invalid_signature, w2))
           /\ (sig' = sig -> status tx2 <> "pending" ->
               run (verifyPayment host body) w2 = (Returned (already (status tx2)), w2))
           /\ (sig' = sig -> status tx2 = "pending" -> order_admits s w2 tx2 ->
               exists tx' w3,
                 run (verifyPayment host body) w2
                 = (Returned (applied_response Verify (next_tid host w) s tx2), w3)
                 /\ transactions w3 !! next_tid host w = Some tx'
                 /\ status tx' = s /\ completedAt tx' = Some (clock w2)).
Proof.
  intros Hsound Hacc Hin.
  destruct (createPayment_accepted host req w Hacc) as (w1 & Hrun & Hl & Hmap & _).
  destruct (built_response_fields host req w) as (_ & Hsigf & _ & Htidf).
  set (tx := stamp_new (reading 2 w) (document_for host req w)) in *.
  exists (json 200 (built_response (built_for host req w))), w1,
    (built_signature (built_for host req w)).
  split; [exact Hrun|]. split; [exact Htidf|]. split; [exact Hsigf|].
  intros l sig' amount upi_ref Hsig' body w2.
  assert (Hs1 : sound_store w1).
  { pose proof (act_keeps_sound host (Serve (Create req)) w Hsound) as H.
    cbn [act serve] in H. now rewrite Hrun in H. }
  pose proof (play_keeps_sound host l w1 Hs1) as [Hk2 Hv2].
  destruct (play_keeps_record host l w1 (next_tid host w) tx (proj1 Hs1) Hl)
    as (tx2 & Hl2 & Hsame & _).
  fold w2 in Hk2, Hv2, Hl2.
  assert (Hpay : payload tx2 = payload tx)
    by (destruct Hsame as (_ & _ & _ & _ & _ & _ & H & _); exact H).
  assert (Hexp : createSignature host (payload tx2)
                 = built_signature (built_for host req w)).
  { rewrite Hpay. symmetry. exact (built_signature_is_hmac host req w). }
  assert (Hs : s <> "") by (intros ->; discriminate Hin).
  exists tx2. split; [exact Hl2|]. split; [|split].
  - intros Hne.
    apply (resolve_bad_signature host Verify body w2 (next_tid host w) s tx2);
      [reflexivity | discriminate | reflexivity | exact Hs | exact Hl2 |].
    unfold signature_ok, signed_text. cbn.
    apply String.eqb_neq in Hsig'. rewrite Hsig'. cbn.
    apply String.eqb_neq. intros Heq. apply Hne. rewrite Heq. exact Hexp.
  - intros -> Hst.
    apply (resolve_non_pending host Verify body w2 (next_tid host w) s tx2);
      [reflexivity | discriminate | reflexivity | exact Hs | exact Hl2 | | exact Hst].
    unfold signature_ok, signed_text. cbn.
    apply orb_true_iff. right. apply String.eqb_eq. symmetry. exact Hexp.
  - intros -> Hst Hadm.
    destruct (resolve_applied host Verify body w2 (next_tid host w) s tx2)
      as (tx' & w3 & Hrun3 & (H1 & H2 & _) & _ & Hmap3 & _).
    + reflexivity.
    + discriminate.
    + reflexivity.
    + exact Hs.
    + exact Hl2.
    + exact (Hk2 _ _ Hl2).
    + unfold signature_ok, signed_text. cbn.
      apply orb_true_iff. right. apply String.eqb_eq. symmetry. exact Hexp.
    + exact Hst.
    + exact Hin.
    + exact (Hv2 _ _ Hl2).
    + now right.
    + exists tx', w3. split; [exact Hrun3|].
      split; [rewrite Hmap3; apply lookup_insert_eq|]. auto.
Qed.

Lemma sample_fresh_sound (now : Z) (secret : string) :
  sound_store (Sample.fresh now secret).
Proof. split; intros k u H; cbn in H; rewrite lookup_empty in H; discriminate H. Qed.

Lemma returned_signature_verifies_witness :
  exists r w1 sig,
    run (createPayment Sample.host (Sample.create (Js.Str "250") "paytm"))
      (Sample.fresh 1700000000500 "k") = (Returned r, w1)
    /\ lookup_field "sig" (res_body r) = Some (FStr sig)
    /\ exists tx2,
         let w2 := play Sample.host [Serve (GetStatus (Some "cwloyw3vg4fr"))] w1 in
         transactions w2 !! "cwloyw3vg4fr" = Some tx2
         /\ ("forged" <> sig ->
             run (verifyPayment Sample.host
                    {| body_tid := Some "cwloyw3vg4fr"; body_status := Some "success";
                       body_amount := Js.Undefined; body_upi_ref := None;
                       body_signature := Some "forged" |}) w2
             = (Returned invalid_signature, w2)).
Proof.
  destruct (returned_signature_verifies Sample.host
              (Sample.create (Js.Str "250") "paytm")
              (Sample.fresh 1700000000500 "k") "success")
    as (r & w1 & sig & Hrun & _ & Hsig & Hall).
  - apply sample_fresh_sound.
  - apply (sample_acceptable "250" "paytm" "k" []); reflexivity.
  - reflexivity.
  - exists r, w1, sig. split; [exact Hrun|]. split; [exact Hsig|].
    destruct (Hall [Serve (GetStatus (Some "cwloyw3vg4fr"))]
                "forged" Js.Undefined None ltac:(discriminate))
      as (tx2 & Hl2 & Hbad & _).
    exists tx2. split; [exact Hl2 | exact Hbad].
Defined.

(** X13.  A transaction that was created is reported pending, with the
    parsed amount, the provider and the time it was saved, by every
    status request that finds it as it was created and reads the clock
    at its expiry or before it, and such a request writes nothing; one
    that reads the clock after the expiry saves it as expired and
    reports it expired.  The expiry is 600 seconds after the whole
    second of the instant the handler read when it computed it. *)
Theorem created_record_is_reported (host : Host) (req : CreateRequest) (w : World) :
  acceptable host req w ->
  exists r w1 tx,
    run (createPayment host req) w = (Returned r, w1)
    /\ transactions w1 !! next_tid host w = Some tx
    /\ expires tx = (reading 1 w / 1000 + 600) * 1000
    /\ createdAt tx = reading 2 w
    /\ forall w2,
         transactions w2 !! next_tid host w = Some tx ->
         (clock w2 <= expires tx ->
          exists r2,
            run (checkPaymentStatus (Some (next_tid host w))) w2 = (Returned r2, tick w2)
            /\ res_status r2 = 200
            /\ lookup_field "status" (res_body r2) = Some (FStr "pending")
            /\ lookup_field "amount" (res_body r2) = Some (FNum (paymentAmount req))
            /\ lookup_field "payType" (res_body r2) = Some (FStr (paymentType req))
            /\ lookup_field "createdAt" (res_body r2) = Some (FDate (reading 2 w))
            /\ lookup_field "completedAt" (res_body r2) = Some FUndefined)
         /\ (expires tx < clock w2 ->
             exists r2 w3,
               run (checkPaymentStatus (Some (next_tid host w))) w2 = (Returned r2, w3)
               /\ res_status r2 = 200
               /\ lookup_field "status" (res_body r2) = Some (FStr "expired")
               /\ transactions w3 !! next_tid host w = Some (lapsed (reading 1 w2) tx)).
Proof.
  intros Hacc.
  destruct (createPayment_accepted host req w Hacc) as (w1 & Hrun & Hl & _).
  assert (Hval : Transaction_validate (document_for host req w) = []).
  { destruct Hacc as (Hpos & Hin & Hupi & Hids & _).
    pose proof (positive_valid _ Hpos) as Hv. apply andb_true_iff in Hv as [Hn Hle].
    apply negb_true_iff in Hn. now apply document_valid. }
  set (tx := stamp_new (reading 2 w) (document_for host req w)) in *.
  exists (json 200 (built_response (built_for host req w))), w1, tx.
  split; [exact Hrun|]. split; [exact Hl|]. split; [reflexivity|].
  split; [reflexivity|]. intros w2 Hl2. split.
  - intros Hle. exists (status_response tx). split.
    + apply checkPaymentStatus_pending;
        [apply next_tid_not_empty | exact Hl2 | reflexivity | exact Hle].
    + repeat split; reflexivity.
  - intros Hlt.
    rewrite (checkPaymentStatus_expires w2 (next_tid host w) tx);
      [| apply next_tid_not_empty | exact Hl2 | reflexivity | reflexivity | exact Hlt
       | exact Hval].
    eexists _, _. split; [reflexivity|]. split; [reflexivity|].
    split; [reflexivity|]. cbn. apply lookup_insert_eq.
Qed.

Lemma created_record_is_reported_witness :
  exists r w1 tx,
    run (createPayment Sample.host (Sample.create (Js.Str "250") "paytm"))
      (Sample.fresh 1700000000500 "k") = (Returned r, w1)
    /\ transactions w1 !! "cwloyw3vg4fr" = Some tx
    /\ expires tx = 1700000600000
    /\ exists r2,
         run (checkPaymentStatus (Some "cwloyw3vg4fr")) w1 = (Returned r2, tick w1)
         /\ lookup_field "status" (res_body r2) = Some (FStr "pending")
         /\ lookup_field "amount" (res_body r2) = Some (FNum (Js.of_Z 250)).
Proof.
  destruct (created_record_is_reported Sample.host
              (Sample.create (Js.Str "250") "paytm")
              (Sample.fresh 1700000000500 "k"))
    as (r & w1 & tx & Hrun & Hl & He & _ & Hall).
  - apply (sample_acceptable "250" "paytm" "k" []); reflexivity.
  - exists r, w1, tx. split; [exact Hrun|]. split; [exact Hl|].
    split; [rewrite He; reflexivity|].
    assert (Hc : clock w1 = 1700000000500).
    { rewrite (createPayment_ok Sample.host (Sample.create (Js.Str "250") "paytm")
                 (Sample.fresh 1700000000500 "k")) in Hrun;
        [| reflexivity | reflexivity | vm_compute; discriminate | split; reflexivity
         | apply lookup_empty].
      apply (f_equal snd) in Hrun. cbn [snd] in Hrun. subst w1. reflexivity. }
    destruct (Hall w1 Hl) as [Hpending _].
    destruct Hpending as (r2 & Hrun2 & _ & Hs & Ha & _).
    + rewrite Hc, He. vm_compute. discriminate.
    + exists r2. split; [exact Hrun2|]. split; [exact Hs|].
      rewrite Ha. vm_compute. reflexivity.
Defined.

(** X14.  Once a Resolve has settled a transaction (a pending one that
    satisfies the schema), every later status request, after whatever
    other requests, reports the status that was reported and, as
    completion time, the time of that Resolve, along with the amount
    the record was created with; it writes nothing. *)
Theorem settled_record_is_reported (host : Host) (ep : Endpoint) (body : Body)
    (w : World) (t s : string) (tx : Transaction) :
  keyed_by_tid w ->
  body_tid body = Some t -> t <> "" ->
  body_status body = Some s -> terminal_report s ->
  transactions w !! t = Some tx ->
  status tx = "pending" -> schema_valid tx ->
  signature_ok host ep body tx = true ->
  exists r w1,
    run (resolve host ep body) w = (Returned r, w1)
    /\ (ep = Simulate \/ order_admits s w tx -> r = applied_response ep t s tx)
    /\ forall l,
         exists r2,
           run (checkPaymentStatus (Some t)) (play host l w1)
           = (Returned r2, play host l w1)
           /\ res_status r2 = 200
           /\ lookup_field "status" (res_body r2) = Some (FStr s)
           /\ lookup_field "completedAt" (res_body r2) = Some (FDate (clock w))
           /\ lookup_field "amount" (res_body r2) = Some (FNum (amount tx)).
Proof.
  intros Hk Htid Ht Hstatus Hterm Hstored Hst Hv Hsig.
  assert (Hin : Js.includes Transaction_status_enum s = true)
    by (destruct Hterm as [-> | [-> | ->]]; reflexivity).
  assert (Hnp : s <> "pending")
    by (destruct Hterm as [-> | [-> | ->]]; discriminate).
  destruct (resolve_written host ep body w t s tx)
    as (r & tx' & w1 & Hrun & (H1 & H2 & Hsame) & _ & Hmap & _ & _ & Hgood & _);
    try assumption.
  { now apply in_enum_not_empty. }
  { exact (Hk _ _ Hstored). }
  assert (Hl : transactions w1 !! t = Some tx')
    by (rewrite Hmap; apply lookup_insert_eq).
  assert (Hk1 : keyed_by_tid w1).
  { eapply keyed_insert; [exact Hk| |exact Hmap].
    destruct Hsame as (-> & _). exact (Hk _ _ Hstored). }
  assert (Hst' : status tx' <> "pending") by congruence.
  exists r, w1. split; [exact Hrun|].
  split; [intros Hg; now destruct (Hgood Hg)|]. intros l.
  destruct (play_keeps_settled host l w1 t tx' Hk1 Hl Hst') as [Hp _].
  exists (status_response tx'). split.
  - now apply checkPaymentStatus_settled.
  - unfold status_response. cbn. rewrite H1, H2.
    destruct Hsame as (_ & _ & _ & -> & _). repeat split; reflexivity.
Qed.

Lemma settled_record_is_reported_witness :
  exists r w1,
    run (resolve Sample.host Simulate (Sample.report "success" None))
      (Sample.world 1700000100000)
    = (Returned r, w1)
    /\ r = applied_response Simulate "cwlp3k9x2a7f1" "success" Sample.tx
    /\ exists r2,
         let w2 := play Sample.host
                     [Elsewhere {| later := 1700009999000; pauses := []; draws := [];
                                   edited_settings := None; edited_orders := ∅ |};
                      Serve (Resolve Verify (Sample.report "failed" None))] w1 in
         run (checkPaymentStatus (Some "cwlp3k9x2a7f1")) w2 = (Returned r2, w2)
         /\ lookup_field "status" (res_body r2) = Some (FStr "success")
         /\ lookup_field "completedAt" (res_body r2) = Some (FDate 1700000100000).
Proof.
  destruct (settled_record_is_reported Sample.host Simulate
              (Sample.report "success" None) (Sample.world 1700000100000)
              "cwlp3k9x2a7f1" "success" Sample.tx)
    as (r & w1 & Hrun & Hr & Hall).
  - apply sample_world_sound.
  - reflexivity.
  - discriminate.
  - reflexivity.
  - left. reflexivity.
  - apply lookup_singleton_eq.
  - reflexivity.
  - reflexivity.
  - reflexivity.
  - exists r, w1. split; [exact Hrun|]. split; [apply Hr; now left|].
    destruct (Hall [Elsewhere {| later := 1700009999000; pauses := []; draws := [];
                                 edited_settings := None; edited_orders := ∅ |};
                    Serve (Resolve Verify (Sample.report "failed" None))])
      as (r2 & Hrun2 & _ & Hs & Hc & _).
    exists r2. auto.
Defined.

(** X15.  Reporting the status [pending] is no transition.  On a pending
    record (one that satisfies the schema, and whose order, if it has
    one, can be saved) such a Resolve passes every test: it is answered
    200 and the completion time is written, yet the record stays
    pending, and the next Resolve on it, at any later time, is applied
    and answered 200 again. *)
Theorem pending_report_leaves_record_open (host : Host) (ep : Endpoint)
    (body : Body) (w : World) (t : string) (tx : Transaction) :
  body_tid body = Some t -> t <> "" ->
  body_status body = Some "pending" ->
  transactions w !! t = Some tx -> tid tx = t ->
  status tx = "pending" -> schema_valid tx ->
  signature_ok host ep body tx = true ->
  ep = Simulate \/ order_admits "pending" w tx ->
  exists tx' w1,
    run (resolve host ep body) w = (Returned (applied_response ep t "pending" tx), w1)
    /\ res_status (applied_response ep t "pending" tx) = 200
    /\ transactions w1 !! t = Some tx'
    /\ status tx' = "pending" /\ completedAt tx' = Some (clock w)
    /\ forall o ep2 body2 s2,
         body_tid body2 = Some t -> body_status body2 = Some s2 ->
         terminal_report s2 -> Js.falsy_str (body_signature body2) = true ->
         ep2 = Simulate \/ order_admits s2 (elapse o w1) tx' ->
         exists tx'' w2,
           run (resolve host ep2 body2) (elapse o w1)
           = (Returned (applied_response ep2 t s2 tx'), w2)
           /\ res_status (applied_response ep2 t s2 tx') = 200
           /\ transactions w2 !! t = Some tx'' /\ status tx'' = s2.
Proof.
  intros Htid Ht Hstatus Hstored Hkey Hst Hv Hsig Hord.
  destruct (resolve_applied host ep body w t "pending" tx)
    as (tx' & w1 & Hrun & (H1 & H2 & Hsame) & _ & Hmap & _); try assumption.
  { discriminate. }
  { reflexivity. }
  exists tx', w1. split; [exact Hrun|]. split; [destruct ep; reflexivity|].
  assert (Hl : transactions w1 !! t = Some tx')
    by (rewrite Hmap; apply lookup_insert_eq).
  split; [exact Hl|]. split; [exact H1|]. split; [exact H2|].
  intros o ep2 body2 s2 Htid2 Hstatus2 Hterm Hnosig Hord2.
  assert (Hin : Js.includes Transaction_status_enum s2 = true)
    by (destruct Hterm as [-> | [-> | ->]]; reflexivity).
  destruct (resolve_applied host ep2 body2 (elapse o w1) t s2 tx')
    as (tx'' & w2 & Hrun2 & (H1' & _) & _ & Hmap2 & _); try assumption.
  - now apply in_enum_not_empty.
  - destruct Hsame as (-> & _). exact Hkey.
  - unfold signature_ok, signed_text. destruct ep2; rewrite ?Hnosig; reflexivity.
  - apply (validate_same_creation tx); [exact Hsame | now rewrite H1 | exact Hv].
  - exists tx'', w2. split; [exact Hrun2|]. split; [destruct ep2; reflexivity|].
    split; [rewrite Hmap2; apply lookup_insert_eq | exact H1'].
Qed.

Lemma pending_report_leaves_record_open_witness :
  exists tx' w1,
    run (resolve Sample.host Verify (Sample.report "pending" None))
      (Linked.world 1700000100000)
    = (Returned (applied_response Verify "cwlp3k9x2a7f1" "pending" Linked.tx), w1)
    /\ transactions w1 !! "cwlp3k9x2a7f1" = Some tx'
    /\ status tx' = "pending" /\ completedAt tx' = Some 1700000100000.
Proof.
  destruct (pending_report_leaves_record_open Sample.host Verify
              (Sample.report "pending" None) (Linked.world 1700000100000)
              "cwlp3k9x2a7f1" Linked.tx)
    as (tx' & w1 & Hrun & _ & Hl & Hs & Hc & _).
  - reflexivity.
  - discriminate.
  - reflexivity.
  - apply lookup_singleton_eq.
  - reflexivity.
  - reflexivity.
  - reflexivity.
  - reflexivity.
  - right. apply linked_admits.
  - exists tx', w1. auto.
Defined.


(** ** The pattern of a receive address *)

Lemma nullable_lang (r : Regex.re) : Regex.nullable r = true <-> lang r [].
Proof.
  induction r as [| | p | r IHr s IHs | r IHr s IHs | r IHr]; cbn.
  - split; [discriminate | intros H; inversion H].
  - split; [intros _; constructor | reflexivity].
  - split; [discriminate | intros H; inversion H].
  - rewrite andb_true_iff, IHr, IHs. split.
    + intros [H1 H2]. exact (lang_seq _ _ [] [] H1 H2).
    + intros H. inversion H as [| |r' s' u v H1 H2 E1 E2| | | |]; subst.
      apply app_eq_nil in E2 as [-> ->]. auto.
  - rewrite orb_true_iff, IHr, IHs. split.
    + intros [H | H]; [now apply lang_alt_l | now apply lang_alt_r].
    + intros H. inversion H; subst; auto.
  - split; [intros _; constructor | reflexivity].
Qed.

Lemma deriv_sound (c : ascii) (r : Regex.re) (s : list ascii) :
  lang (Regex.deriv c r) s -> lang r (c :: s).
Proof.
  revert s. induction r as [| | p | r IHr r2 IHs | r IHr r2 IHs | r IHr];
    intros s H; cbn in H.
  - inversion H.
  - inversion H.
  - destruct (p c) eqn:E; inversion H; subst. now constructor.
  - destruct (Regex.nullable r) eqn:N.
    + inversion H as [| | |r' s' u H1|r' s' u H1| |]; subst.
      * inversion H1 as [| |r' s' u v Hu Hv| | | |]; subst.
        exact (lang_seq _ _ (c :: u) v (IHr _ Hu) Hv).
      * apply nullable_lang in N.
        exact (lang_seq _ _ [] (c :: s) N (IHs _ H1)).
    + inversion H as [| |r' s' u v Hu Hv| | | |]; subst.
      exact (lang_seq _ _ (c :: u) v (IHr _ Hu) Hv).
  - inversion H; subst; [apply lang_alt_l | apply lang_alt_r]; auto.
  - inversion H as [| |r' s' u v Hu Hv| | | |]; subst.
    exact (lang_star_cons _ (c :: u) v (IHr _ Hu) Hv).
Qed.

Lemma deriv_complete (c : ascii) (r : Regex.re) (s : list ascii) :
  lang r (c :: s) -> lang (Regex.deriv c r) s.
Proof.
  intros H. remember (c :: s) as w eqn:E. revert s E.
  induction H as [| p c' Hp | r r2 u v H1 IH1 H2 IH2 | r r2 u H1 IH1
                  | r r2 u H1 IH1 | r | r u v H1 IH1 H2 IH2]; intros s E; cbn.
  - discriminate E.
  - injection E as -> <-. rewrite Hp. constructor.
  - destruct u as [|a u]; cbn in E.
    + subst v. apply nullable_lang in H1. rewrite H1.
      apply lang_alt_r. now apply IH2.
    + injection E as -> <-.
      destruct (Regex.nullable r);
        [apply lang_alt_l|]; apply lang_seq; auto.
  - apply lang_alt_l. auto.
  - apply lang_alt_r. auto.
  - discriminate E.
  - destruct u as [|a u]; cbn in E.
    + subst v. now apply IH2.
    + injection E as -> <-. apply lang_seq; auto.
Qed.

Lemma matches_lang (r : Regex.re) (s : list ascii) :
  Regex.matches r s = true <-> lang r s.
Proof.
  unfold Regex.matches. revert r. induction s as [|c s IH]; intros r; cbn.
  - apply nullable_lang.
  - rewrite IH. split; [apply deriv_sound | apply deriv_complete].
Qed.

Lemma lang_star_class (p : ascii -> bool) (u : list ascii) :
  lang (Regex.Star (Regex.Class p)) u <-> forallb p u = true.
Proof.
  split.
  - intros H. remember (Regex.Star (Regex.Class p)) as r eqn:E.
    induction H as [| | | | | r | r u v H1 _ H2 IH2]; try discriminate E.
    + reflexivity.
    + injection E as ->. inversion H1; subst. cbn.
      apply andb_true_iff. split; [assumption | now apply IH2].
  - induction u as [|c u IH]; cbn; intros H; [constructor|].
    apply andb_true_iff in H as [Hc Hu].
    exact (lang_star_cons _ [c] u (lang_class p c Hc) (IH Hu)).
Qed.

Lemma lang_plus_class (p : ascii -> bool) (u : list ascii) :
  lang (Regex.Plus (Regex.Class p)) u <-> u <> [] /\ forallb p u = true.
Proof.
  unfold Regex.Plus. split.
  - intros H. inversion H as [| |r s a b Ha Hb| | | |]; subst.
    inversion Ha; subst. apply lang_star_class in Hb. cbn.
    split; [discriminate|]. apply andb_true_iff. auto.
  - intros [Hne H]. destruct u as [|c u]; [contradiction|]. cbn in H.
    apply andb_true_iff in H as [Hc Hu].
    exact (lang_seq _ _ [c] u (lang_class p c Hc) (proj2 (lang_star_class p u) Hu)).
Qed.

Lemma list_of_append (a b : string) :
  list_ascii_of_string (a ++ b) = (list_ascii_of_string a ++ list_ascii_of_string b)%list.
Proof.
  induction a as [|c a IH]; [reflexivity|].
  change (String c a ++ b) with (String c (a ++ b)). cbn. now rewrite IH.
Qed.

Lemma of_list_append (a b : list ascii) :
  string_of_list_ascii (a ++ b) = string_of_list_ascii a ++ string_of_list_ascii b.
Proof.
  induction a as [|c a IH]; [reflexivity|]. cbn [app string_of_list_ascii].
  rewrite IH. reflexivity.
Qed.

(** [trim] and [parseFloat] on white space beyond ASCII. *)
Lemma trim_strips_unicode_space :
  Js.trim (Sample.nbsp ++ " a@b" ++ Sample.line_separator ++ Sample.nbsp) = "a@b"
  /\ Js.trim Sample.nbsp = ""
  /\ Js.parseFloat_string (Sample.line_separator ++ Sample.nbsp ++ "12.5")
     = Js.parseFloat_string "12.5".
Proof. repeat split; vm_compute; reflexivity. Qed.

(** [trim] applied twice is [trim]. *)
Section Strip.
Variable sp2 : ascii -> ascii -> bool.
Variable sp3 : ascii -> ascii -> ascii -> bool.

Lemma strip_suffix_upto (n : nat) (l : list ascii) :
  (length l <= n)%nat -> exists sp, l = (sp ++ Js.strip sp2 sp3 l)%list.
Proof.
  revert l. induction n as [|n IH]; intros l Hn.
  - destruct l; [now exists [] | cbn in Hn; lia].
  - destruct l as [|a [|b [|c l]]]; cbn [Js.strip].
    + now exists [].
    + destruct (Js.is_space a); [now exists [a] | now exists []].
    + destruct (Js.is_space a).
      { destruct (IH [b]) as [sp Hsp]; [cbn in *; lia|].
        exists (a :: sp). cbn [app]. f_equal. exact Hsp. }
      destruct (sp2 a b); [now exists [a; b] | now exists []].
    + destruct (Js.is_space a).
      { destruct (IH (b :: c :: l)) as [sp Hsp]; [cbn in *; lia|].
        exists (a :: sp). cbn [app]. f_equal. exact Hsp. }
      destruct (sp2 a b).
      { destruct (IH (c :: l)) as [sp Hsp]; [cbn in *; lia|].
        exists (a :: b :: sp). cbn [app]. do 2 f_equal. exact Hsp. }
      destruct (sp3 a b c); [|now exists []].
      destruct (IH l) as [sp Hsp]; [cbn in *; lia|].
      exists (a :: b :: c :: sp). cbn [app]. do 3 f_equal. exact Hsp.
Qed.

Lemma strip_suffix (l : list ascii) :
  exists sp, l = (sp ++ Js.strip sp2 sp3 l)%list.
Proof. exact (strip_suffix_upto (length l) l (le_n _)). Qed.

Lemma strip_length (l : list ascii) :
  (length (Js.strip sp2 sp3 l) <= length l)%nat.
Proof.
  destruct (strip_suffix l) as [sp H]. apply (f_equal (@length ascii)) in H.
  rewrite length_app in H. lia.
Qed.

Lemma strip_idempotent_upto (n : nat) (l : list ascii) :
  (length l <= n)%nat ->
  Js.strip sp2 sp3 (Js.strip sp2 sp3 l) = Js.strip sp2 sp3 l.
Proof.
  revert l. induction n as [|n IH]; intros l Hn.
  - destruct l; [reflexivity | cbn in Hn; lia].
  - destruct l as [|a [|b [|c l]]]; [reflexivity | | |].
    + cbn [Js.strip]. destruct (Js.is_space a) eqn:Ea; [reflexivity|].
      cbn [Js.strip]. now rewrite Ea.
    + cbn [Js.strip]. destruct (Js.is_space a) eqn:Ea.
      { apply (IH [b]). cbn in *; lia. }
      destruct (sp2 a b) eqn:Eb; [reflexivity|].
      cbn [Js.strip]. now rewrite Ea, Eb.
    + cbn [Js.strip]. destruct (Js.is_space a) eqn:Ea.
      { apply (IH (b :: c :: l)). cbn in *; lia. }
      destruct (sp2 a b) eqn:Eb.
      { apply (IH (c :: l)). cbn in *; lia. }
      destruct (sp3 a b c) eqn:Ec.
      { apply (IH l). cbn in *; lia. }
      cbn [Js.strip]. now rewrite Ea, Eb, Ec.
Qed.

Lemma strip_idempotent (l : list ascii) :
  Js.strip sp2 sp3 (Js.strip sp2 sp3 l) = Js.strip sp2 sp3 l.
Proof. exact (strip_idempotent_upto (length l) l (le_n _)). Qed.

Lemma strip_one (a : ascii) (l : list ascii) :
  Js.is_space a = true -> Js.strip sp2 sp3 (a :: l) = Js.strip sp2 sp3 l.
Proof. intros E. cbn [Js.strip]. now rewrite E. Qed.

Lemma strip_two (a b : ascii) (l : list ascii) :
  Js.is_space a = false -> sp2 a b = true ->
  Js.strip sp2 sp3 (a :: b :: l) = Js.strip sp2 sp3 l.
Proof. intros Ea Eb. cbn [Js.strip]. now rewrite Ea, Eb. Qed.

Lemma strip_three (a b c : ascii) (l : list ascii) :
  Js.is_space a = false -> sp2 a b = false -> sp3 a b c = true ->
  Js.strip sp2 sp3 (a :: b :: c :: l) = Js.strip sp2 sp3 l.
Proof. intros Ea Eb Ec. cbn [Js.strip]. now rewrite Ea, Eb, Ec. Qed.

(** A list that starts with no white space has no prefix that does. *)
Lemma strip_prefix (p q : list ascii) :
  Js.strip sp2 sp3 (p ++ q) = (p ++ q)%list -> Js.strip sp2 sp3 p = p.
Proof.
  intros H.
  assert (Hshort : forall l m : list ascii,
             (length l < length m)%nat -> Js.strip sp2 sp3 l <> m).
  { intros l m Hlt E. pose proof (strip_length l) as Hle. rewrite E in Hle. lia. }
  destruct p as [|a p]; [reflexivity|]. cbn [app] in H.
  destruct (Js.is_space a) eqn:Ea.
  { exfalso. rewrite strip_one in H by exact Ea.
    apply Hshort in H; [exact H | cbn; lia]. }
  destruct p as [|b p]; [cbn [Js.strip]; now rewrite Ea|]. cbn [app] in H.
  destruct (sp2 a b) eqn:Eb.
  { exfalso. rewrite strip_two in H by assumption.
    apply Hshort in H; [exact H | cbn; lia]. }
  destruct p as [|c p]; [cbn [Js.strip]; now rewrite Ea, Eb|]. cbn [app] in H.
  destruct (sp3 a b c) eqn:Ec.
  { exfalso. rewrite strip_three in H by assumption.
    apply Hshort in H; [exact H | cbn; lia]. }
  cbn [Js.strip]. now rewrite Ea, Eb, Ec.
Qed.

End Strip.

Lemma trimmed_fixed (l : list ascii) :
  let t := rev (Js.drop_space_back (rev (Js.drop_space l))) in
  Js.drop_space t = t /\ Js.drop_space_back (rev t) = rev t.
Proof.
  cbv zeta. set (a := Js.drop_space l). set (b := Js.drop_space_back (rev a)).
  split.
  - assert (Hsp : exists sp, rev a = (sp ++ b)%list) by apply strip_suffix.
    destruct Hsp as [sp Hsp].
    apply (f_equal (@rev ascii)) in Hsp. rewrite rev_involutive, rev_app_distr in Hsp.
    unfold Js.drop_space. apply (strip_prefix _ _ _ (rev sp)). rewrite <- Hsp.
    apply strip_idempotent.
  - rewrite rev_involutive. apply strip_idempotent.
Qed.


Lemma trim_idempotent (s : string) : Js.trim (Js.trim s) = Js.trim s.
Proof.
  unfold Js.trim. rewrite list_ascii_of_string_of_list_ascii.
  destruct (trimmed_fixed (list_ascii_of_string s)) as [H1 H2].
  rewrite H1, H2, rev_involutive. reflexivity.
Qed.

(** X16.  The pattern [/^[\w.-]+@[\w.-]+$/], which the settings
    controller and the validation middleware test a trimmed address
    against, accepts exactly the strings made of a name, one at sign and
    a handle, where name and handle are not empty and hold only letters,
    digits, underscores, dots and hyphens. *)
Theorem upi_pattern_accepts_name_at_handle (s : string) :
  Regex.test upiRegex s = true <->
  exists name handle,
    s = name ++ "@" ++ handle
    /\ name <> "" /\ handle <> ""
    /\ forallb word_dot_hyphen (list_ascii_of_string name) = true
    /\ forallb word_dot_hyphen (list_ascii_of_string handle) = true.
Proof.
  unfold Regex.test, upiRegex. rewrite matches_lang. split.
  - intros H. inversion H as [| |r1 r2 a rest Ha Hrest E1 E2| | | |]; subst.
    inversion Hrest as [| |r1 r2 at_ b Hat Hb E1 E3| | | |]; subst.
    inversion Hat as [|p c Hc| | | | |]; subst.
    apply Ascii.eqb_eq in Hc. subst c.
    apply lang_plus_class in Ha as [Hane Ha], Hb as [Hbne Hb].
    exists (string_of_list_ascii a), (string_of_list_ascii b).
    rewrite !list_ascii_of_string_of_list_ascii. repeat split; try assumption.
    + apply (f_equal string_of_list_ascii) in E2.
      rewrite string_of_list_ascii_of_string in E2. rewrite <- E2.
      rewrite of_list_append. reflexivity.
    + destruct a; [contradiction | discriminate].
    + destruct b; [contradiction | discriminate].
  - intros (name & handle & -> & Hn & Hh & Hfn & Hfh).
    rewrite !list_of_append. cbn [list_ascii_of_string app].
    apply lang_seq; [|apply (lang_seq _ _ ["@"%char])].
    + apply lang_plus_class. split; [|exact Hfn].
      destruct name; [contradiction | discriminate].
    + constructor. reflexivity.
    + apply lang_plus_class. split; [|exact Hfh].
      destruct handle; [contradiction | discriminate].
Qed.

(** ** The settings controller *)

Lemma copy_getSettings_exact (w : World) :
  SettingControllerChecked.Settings_getSettings w
  = (Returned (SettingControllerChecked.current_settings w),
     with_settings (Some (SettingControllerChecked.current_settings w)) w).
Proof.
  unfold SettingControllerChecked.Settings_getSettings,
    SettingControllerChecked.current_settings.
  destruct w as [t o [s|] c e]; reflexivity.
Qed.

(** The two copies of the model show the same settings. *)
Lemma copy_current_settings (w : World) :
  merchantUPI (SettingControllerChecked.current_settings w)
  = merchantUPI (current_settings w)
  /\ siteName (SettingControllerChecked.current_settings w)
     = siteName (current_settings w)
  /\ siteEmail (SettingControllerChecked.current_settings w)
     = siteEmail (current_settings w)
  /\ settingsVersion (SettingControllerChecked.current_settings w)
     = settingsVersion (current_settings w).
Proof.
  unfold SettingControllerChecked.current_settings, current_settings.
  destruct (settings w); repeat split; reflexivity.
Qed.

(** X17.  The merchant-upi endpoint of the payment controller and the
    two read endpoints of the settings controller, in either copy,
    answer 200 with the stored address (and site name and e-mail) and
    leave an existing settings document as it is; on a database without
    a settings document they answer with the schema defaults and leave
    that document stored. *)
Theorem settings_reads_show_the_current_settings (w : World) :
  let current := current_settings w in
  let copy := SettingControllerChecked.current_settings w in
  let upi := [("success", Plain (FBool true));
              ("upi", Plain (FStr (merchantUPI current)))] in
  let all := [("success", Plain (FBool true));
              ("data", Nested [("merchantUPI", FStr (merchantUPI current));
                               ("siteName", FStr (siteName current));
                               ("siteEmail", FStr (siteEmail current))])] in
  run getMerchantUPI w
  = (Returned (json 200 [("upi", FStr (merchantUPI current))]),
     with_settings (Some current) w)
  /\ SettingController.getMerchantUPI w
     = (reply 200 upi, with_settings (Some current) w)
  /\ SettingController.getSettings w
     = (reply 200 all, with_settings (Some current) w)
  /\ SettingControllerChecked.getMerchantUPI w
     = (reply 200 upi, with_settings (Some copy) w)
  /\ SettingControllerChecked.getSettings w
     = (reply 200 all, with_settings (Some copy) w)
  /\ (is_Some (settings w) ->
      with_settings (Some current) w = w /\ with_settings (Some copy) w = w).
Proof.
  cbv zeta.
  assert (Hor : forall x, or_empty x = x).
  { intros x. unfold or_empty. destruct (String.eqb x "") eqn:E; [|reflexivity].
    apply String.eqb_eq in E. now subst. }
  destruct (copy_current_settings w) as (C1 & C2 & C3 & _).
  split.
  { unfold getMerchantUPI. rewrite run_try_catch, run_bind, run_getSettings.
    reflexivity. }
  unfold SettingController.getMerchantUPI, SettingController.getSettings,
    SettingControllerChecked.getMerchantUPI, SettingControllerChecked.getSettings,
    SettingController.data.
  rewrite run_getSettings, copy_getSettings_exact, !Hor, C1, C2, C3.
  split; [reflexivity|]. split; [reflexivity|]. split; [reflexivity|].
  split; [reflexivity|]. intros [s Hs].
  unfold current_settings, SettingControllerChecked.current_settings.
  rewrite Hs. destruct w. cbn in *. subst. split; reflexivity.
Qed.

Lemma validate_settings (s : Settings) :
  merchantUPI s <> "" -> Settings_validate s = [].
Proof.
  intros H. unfold Settings_validate. apply String.eqb_neq in H. now rewrite H.
Qed.

Lemma address_after_getSettings (u : string) (w w1 : World) (s1 : Settings) :
  settings w1 = Some s1 -> merchantUPI s1 = u -> Js.trim u = u ->
  address_in_force u w1.
Proof.
  intros Hs Hu Ht. split.
  - unfold getMerchantUPI. rewrite run_try_catch, run_bind, run_getSettings.
    unfold current_settings. rewrite Hs. cbn. now rewrite Hu.
  - intros host req Hacc.
    destruct (createPayment_accepted host req w1 Hacc) as (w2 & Hrun & Hl & _).
    exists (json 200 (built_response (built_for host req w1))), w2,
      (stamp_new (reading 2 w1) (document_for host req w1)).
    split; [exact Hrun|]. split; [exact Hl|].
    change (upi (stamp_new (reading 2 w1) (document_for host req w1)))
      with (Js.trim (merchantUPI (current_settings w1))).
    unfold current_settings. rewrite Hs. cbn. now rewrite Hu.
Qed.

(** X18.  An address set through [updateSettings] is the address in
    force from then on.  When the body names an address that is not
    blank (for the copy that tests the format: one that matches the
    pattern once trimmed), the update is answered 200, the trimmed
    address is stored, the version counter goes up by one, and the
    merchant-upi endpoint reports the trimmed address and the next
    transaction is filed with it. *)
Theorem updated_address_is_in_force (body : SettingsBody) (w : World) (u : string) :
  put_merchantUPI body = Some u ->
  let holds (update : SettingsBody -> World -> Reply * World) :=
    exists r w1 s1,
      update body w = (r, w1)
      /\ reply_status r = 200
      /\ settings w1 = Some s1
      /\ merchantUPI s1 = Js.trim u
      /\ settingsVersion s1 = settingsVersion (current_settings w) + 1
      /\ transactions w1 = transactions w /\ orders w1 = orders w
      /\ address_in_force (Js.trim u) w1 in
  (Js.trim u <> "" -> holds SettingController.updateSettings)
  /\ (Regex.test upiRegex (Js.trim u) = true ->
      holds SettingControllerChecked.updateSettings).
Proof.
  intros Hu. cbv zeta. split.
  - intros Hne.
    assert (Hu0 : u <> "") by (intros ->; now apply Hne).
    unfold SettingController.updateSettings.
    rewrite run_getSettings, Hu. cbv zeta.
    set (s4 := assign_if_truthy (put_siteEmail body) _ _).
    assert (H4 : merchantUPI s4 = Js.trim u /\
                 settingsVersion s4 = settingsVersion (current_settings w)).
    { subst s4. unfold assign_if_truthy. rewrite falsy_str_Some by exact Hu0.
      destruct (Js.falsy_str (put_merchantSecret body)),
        (Js.falsy_str (put_siteName body)), (Js.falsy_str (put_siteEmail body));
        split; reflexivity. }
    destruct H4 as [H4u H4v]. clearbody s4.
    unfold Settings_save. rewrite validate_settings by (cbn; now rewrite H4u).
    eexists _, _, _. split; [reflexivity|]. split; [reflexivity|].
    split; [reflexivity|]. cbn. split; [exact H4u|]. split; [now rewrite H4v|].
    split; [reflexivity|]. split; [reflexivity|].
    eapply (address_after_getSettings _ w); [reflexivity | exact H4u |].
    apply trim_idempotent.
  - intros Hre.
    assert (Hne : Js.trim u <> "") by (intros E; rewrite E in Hre; discriminate Hre).
    assert (Hu0 : u <> "") by (intros ->; now apply Hne).
    unfold SettingControllerChecked.updateSettings.
    rewrite Hu. change (default "" (Some u)) with u. rewrite Hre, andb_false_r.
    rewrite copy_getSettings_exact. cbv zeta.
    set (s4 := assign_if_defined (option_map Js.trim (put_siteEmail body)) _ _).
    assert (H4 : merchantUPI s4 = Js.trim u /\
                 settingsVersion s4 = settingsVersion (current_settings w)).
    { destruct (copy_current_settings w) as (_ & _ & _ & <-).
      subst s4. unfold assign_if_defined.
      destruct (put_merchantSecret body), (put_siteName body), (put_siteEmail body);
        split; cbn; try reflexivity; apply trim_idempotent. }
    destruct H4 as [H4u H4v]. clearbody s4.
    unfold Settings_save. rewrite validate_settings by (cbn; now rewrite H4u).
    eexists _, _, _. split; [reflexivity|]. split; [reflexivity|].
    split; [reflexivity|]. cbn. split; [exact H4u|]. split; [now rewrite H4v|].
    split; [reflexivity|]. split; [reflexivity|].
    eapply (address_after_getSettings _ w); [reflexivity | exact H4u |].
    apply trim_idempotent.
Qed.

Lemma updated_address_is_in_force_witness :
  let body := {| put_merchantUPI := Some (Sample.line_separator ++ " till@okbank" ++ Sample.nbsp);
                 put_merchantSecret := None;
                 put_siteName := Some "Corner shop"; put_siteEmail := Some "" |} in
  exists r w1 s1,
    SettingControllerChecked.updateSettings body (Sample.fresh 1700000000500 "k")
    = (r, w1)
    /\ reply_status r = 200
    /\ settings w1 = Some s1
    /\ merchantUPI s1 = "till@okbank"
    /\ settingsVersion s1 = 3
    /\ transactions w1 = ∅ /\ orders w1 = ∅
    /\ address_in_force "till@okbank" w1.
Proof.
  cbv zeta.
  apply (proj2 (updated_address_is_in_force
                  {| put_merchantUPI
                       := Some (Sample.line_separator ++ " till@okbank" ++ Sample.nbsp);
                     put_merchantSecret := None;
                     put_siteName := Some "Corner shop"; put_siteEmail := Some "" |}
                  (Sample.fresh 1700000000500 "k")
                  (Sample.line_separator ++ " till@okbank" ++ Sample.nbsp) eq_refl)).
  reflexivity.
Defined.

(** X19.  An update that is refused leaves the stored settings as they
    were, version counter included.  The first copy of the controller
    answers 500 when the address it is sent is blank, white space only;
    the copy that tests the format answers 400 to an address that does
    not match the pattern, without reading the settings at all, and 500
    to the empty string, which it exempts from the format test and then
    assigns.  In the two 500 cases the settings document holds what it
    held (the defaults, if there was none). *)
Theorem refused_update_changes_nothing (body : SettingsBody) (w : World) (u : string) :
  put_merchantUPI body = Some u ->
  (u <> "" -> Js.trim u = "" ->
   SettingController.updateSettings body w
   = (update_failed (ValidationError ["merchantUPI"]),
      with_settings (Some (current_settings w)) w))
  /\ (u <> "" -> Regex.test upiRegex (Js.trim u) = false ->
      SettingControllerChecked.updateSettings body w = (invalid_upi_format, w))
  /\ (u = "" ->
      SettingControllerChecked.updateSettings body w
      = (update_failed (ValidationError ["merchantUPI"]),
         with_settings (Some (SettingControllerChecked.current_settings w)) w)).
Proof.
  intros Hu. cbv zeta. split; [|split].
  - intros Hu0 Hblank.
    unfold SettingController.updateSettings.
    rewrite run_getSettings, Hu. cbv zeta.
    set (s4 := assign_if_truthy (put_siteEmail body) _ _).
    assert (H4 : merchantUPI s4 = "").
    { subst s4. unfold assign_if_truthy. rewrite falsy_str_Some by exact Hu0.
      change (default "" (Some u)) with u.
      destruct (Js.falsy_str (put_merchantSecret body)),
        (Js.falsy_str (put_siteName body)), (Js.falsy_str (put_siteEmail body));
        cbn; now rewrite Hblank. }
    clearbody s4. unfold Settings_save, Settings_validate. cbn. rewrite H4.
    reflexivity.
  - intros Hu0 Hre.
    unfold SettingControllerChecked.updateSettings.
    rewrite Hu, falsy_str_Some by exact Hu0.
    change (default "" (Some u)) with u. rewrite Hre. reflexivity.
  - intros ->.
    unfold SettingControllerChecked.updateSettings.
    rewrite Hu. change (Js.falsy_str (Some "")) with true. cbn [negb andb].
    rewrite copy_getSettings_exact. cbv zeta.
    set (s4 := assign_if_defined (option_map Js.trim (put_siteEmail body)) _ _).
    assert (H4 : merchantUPI s4 = "").
    { subst s4. unfold assign_if_defined.
      destruct (put_merchantSecret body), (put_siteName body), (put_siteEmail body);
        reflexivity. }
    clearbody s4. unfold Settings_save, Settings_validate. cbn. rewrite H4.
    reflexivity.
Qed.

Lemma refused_update_changes_nothing_witness :
  SettingControllerChecked.updateSettings
    {| put_merchantUPI := Some "till at okbank"; put_merchantSecret := Some "s";
       put_siteName := None; put_siteEmail := None |} (Sample.world 1700000100000)
  = (invalid_upi_format, Sample.world 1700000100000).
Proof.
  apply (proj1 (proj2 (refused_update_changes_nothing
                         {| put_merchantUPI := Some "till at okbank";
                            put_merchantSecret := Some "s";
                            put_siteName := None; put_siteEmail := None |}
                         (Sample.world 1700000100000) "till at okbank" eq_refl)));
    [discriminate | reflexivity].
Defined.

Lemma pattern_not_empty (s : string) : Regex.test upiRegex s = true -> s <> "".
Proof. intros H ->. discriminate H. Qed.

(** X20.  The copy of the controller that tests the format keeps the
    stored address well formed: if the settings document, when there is
    one, holds an address that matches the pattern, then after
    [updateSettings], whatever the body and whatever the answer, the
    settings document holds an address that matches the pattern. *)
Theorem stored_address_stays_well_formed (body : SettingsBody) (w : World) :
  (forall s, settings w = Some s -> Regex.test upiRegex (merchantUPI s) = true) ->
  forall s',
    settings (snd (SettingControllerChecked.updateSettings body w)) = Some s' ->
    Regex.test upiRegex (merchantUPI s') = true.
Proof.
  intros Hw s'.
  assert (Hcur : Regex.test upiRegex
                   (merchantUPI (SettingControllerChecked.current_settings w)) = true).
  { unfold SettingControllerChecked.current_settings.
    destruct (settings w) as [s|] eqn:E; [now apply Hw | reflexivity]. }
  unfold SettingControllerChecked.updateSettings.
  destruct (negb (Js.falsy_str (put_merchantUPI body))
            && negb (Regex.test upiRegex (Js.trim (default "" (put_merchantUPI body)))))
    eqn:Hcheck.
  { cbn [snd]. apply Hw. }
  rewrite copy_getSettings_exact. cbv zeta.
  set (s4 := assign_if_defined (option_map Js.trim (put_siteEmail body)) _ _).
  assert (H4 : merchantUPI s4 = ""
               \/ Regex.test upiRegex (merchantUPI s4) = true).
  { subst s4. unfold assign_if_defined.
    destruct (put_merchantUPI body) as [u|] eqn:Hu.
    - destruct (String.eqb u "") eqn:Hu0.
      + apply String.eqb_eq in Hu0. subst u. left.
        destruct (put_merchantSecret body), (put_siteName body), (put_siteEmail body);
          reflexivity.
      + right. cbn in Hcheck. rewrite Hu0 in Hcheck. cbn in Hcheck.
        apply negb_false_iff in Hcheck.
        destruct (put_merchantSecret body), (put_siteName body), (put_siteEmail body);
          cbn; rewrite trim_idempotent; exact Hcheck.
    - right.
      destruct (put_merchantSecret body), (put_siteName body), (put_siteEmail body);
        exact Hcur. }
  clearbody s4. unfold Settings_save, Settings_validate. cbn.
  destruct H4 as [H4 | H4].
  - rewrite H4. cbn. intros [= <-]. exact Hcur.
  - pose proof (pattern_not_empty _ H4) as Hne. apply String.eqb_neq in Hne.
    rewrite Hne. cbn. intros [= <-]. exact H4.
Qed.

Lemma stored_address_stays_well_formed_witness :
  (forall s, settings (Sample.world 1700000100000) = Some s ->
             Regex.test upiRegex (merchantUPI s) = true)
  /\ settings
       (snd (SettingControllerChecked.updateSettings
               {| put_merchantUPI := Some " till@okbank "; put_merchantSecret := None;
                  put_siteName := None; put_siteEmail := Some "" |}
               (Sample.world 1700000100000)))
     = Some (set_settingsVersion 2
               (set_siteEmail "" (set_merchantUPI "till@okbank" Settings_defaults)))
  /\ Regex.test upiRegex "till@okbank" = true.
Proof.
  assert (Hw : forall s, settings (Sample.world 1700000100000) = Some s ->
                         Regex.test upiRegex (merchantUPI s) = true).
  { intros s H. cbn in H. injection H as <-. reflexivity. }
  split; [exact Hw | split; [reflexivity |]].
  exact (stored_address_stays_well_formed
           {| put_merchantUPI := Some " till@okbank "; put_merchantSecret := None;
              put_siteName := None; put_siteEmail := Some "" |}
           (Sample.world 1700000100000) Hw
           (set_settingsVersion 2
              (set_siteEmail "" (set_merchantUPI "till@okbank" Settings_defaults)))
           eq_refl).
Defined.

Lemma shows_same_with_secret (stored : string) (w : World) :
  shows_same (current_settings (with_secret stored w)) (current_settings w)
  /\ shows_same (SettingControllerChecked.current_settings (with_secret stored w))
       (SettingControllerChecked.current_settings w).
Proof.
  unfold current_settings, SettingControllerChecked.current_settings, with_secret,
    shows_same. cbn.
  destruct (settings w); cbn; auto 10.
Qed.

Lemma shows_same_truthy (v : option string) (set : string -> Settings -> Settings)
    (a b : Settings) :
  (forall x a b, shows_same a b -> shows_same (set x a) (set x b)) ->
  shows_same a b ->
  shows_same (assign_if_truthy v set a) (assign_if_truthy v set b).
Proof. intros Hset H. unfold assign_if_truthy. destruct (Js.falsy_str v); auto. Qed.

Lemma shows_same_defined (v : option string) (set : string -> Settings -> Settings)
    (a b : Settings) :
  (forall x a b, shows_same a b -> shows_same (set x a) (set x b)) ->
  shows_same a b ->
  shows_same (assign_if_defined v set a) (assign_if_defined v set b).
Proof. intros Hset H. unfold assign_if_defined. destruct v; auto. Qed.

Lemma shows_same_secret_truthy (v v' : option string) (a b : Settings) :
  shows_same a b ->
  shows_same (assign_if_truthy v set_merchantSecret a)
    (assign_if_truthy v' set_merchantSecret b).
Proof.
  unfold assign_if_truthy, shows_same.
  destruct (Js.falsy_str v), (Js.falsy_str v'); cbn; auto.
Qed.

Lemma shows_same_secret_defined (v v' : option string) (a b : Settings) :
  shows_same a b ->
  shows_same (assign_if_defined v set_merchantSecret a)
    (assign_if_defined v' set_merchantSecret b).
Proof. unfold assign_if_defined, shows_same. destruct v, v'; cbn; auto. Qed.

Lemma shows_same_setters :
  (forall x a b, shows_same a b -> shows_same (set_merchantUPI x a) (set_merchantUPI x b))
  /\ (forall x a b, shows_same a b -> shows_same (set_siteName x a) (set_siteName x b))
  /\ (forall x a b, shows_same a b -> shows_same (set_siteEmail x a) (set_siteEmail x b)).
Proof.
  unfold shows_same. repeat split; cbn; tauto.
Qed.

(** What [updateSettings] answers once the fields are assigned depends
    on what the document shows only. *)
Lemma save_answer_shows_same (a b : Settings) (va vb : Z) (w wa : World) :
  shows_same a b ->
  fst (let settings := set_settingsVersion va a in
       match Settings_save settings w with
       | (Saved, w2) =>
           (reply 200 [("success", Plain (FBool true));
                       ("message", Plain (FStr "Settings updated successfully"));
                       ("data", SettingController.data settings)], w2)
       | (Rejected error, w2) => (update_failed error, w2)
       end)
  = fst (let settings := set_settingsVersion vb b in
         match Settings_save settings wa with
         | (Saved, w2) =>
             (reply 200 [("success", Plain (FBool true));
                         ("message", Plain (FStr "Settings updated successfully"));
                         ("data", SettingController.data settings)], w2)
         | (Rejected error, w2) => (update_failed error, w2)
         end).
Proof.
  intros (H1 & H2 & H3). cbv zeta.
  unfold Settings_save, Settings_validate, SettingController.data. cbn.
  rewrite H1, H2, H3. destruct (String.eqb (merchantUPI b) ""); reflexivity.
Qed.

(** X21.  The merchant secret is write-only.  No answer of the settings
    controller, in either copy, nor of the merchant-upi endpoint of the
    payment controller depends on the secret the settings hold, and the
    answer of [updateSettings] does not depend on the secret it is sent
    either: with another stored secret, or another secret in the body,
    each handler gives the same answer. *)
Theorem merchant_secret_is_never_shown (w : World) (body : SettingsBody)
    (stored : string) (sent : option string) :
  let w0 := with_secret stored w in
  fst (run getMerchantUPI w0) = fst (run getMerchantUPI w)
  /\ fst (SettingController.getSettings w0) = fst (SettingController.getSettings w)
  /\ fst (SettingController.getMerchantUPI w0) = fst (SettingController.getMerchantUPI w)
  /\ fst (SettingController.updateSettings (with_body_secret sent body) w0)
     = fst (SettingController.updateSettings body w)
  /\ fst (SettingControllerChecked.getSettings w0)
     = fst (SettingControllerChecked.getSettings w)
  /\ fst (SettingControllerChecked.getMerchantUPI w0)
     = fst (SettingControllerChecked.getMerchantUPI w)
  /\ fst (SettingControllerChecked.updateSettings (with_body_secret sent body) w0)
     = fst (SettingControllerChecked.updateSettings body w).
Proof.
  cbv zeta.
  pose proof (shows_same_with_secret stored w) as [Hs Hc].
  pose proof Hs as (H1 & H2 & H3). pose proof Hc as (C1 & C2 & C3).
  destruct shows_same_setters as (Su & Sn & Se).
  unfold getMerchantUPI, SettingController.getSettings,
    SettingController.getMerchantUPI, SettingControllerChecked.getSettings,
    SettingControllerChecked.getMerchantUPI, SettingController.data.
  rewrite !run_try_catch, !run_bind, !run_getSettings, !copy_getSettings_exact.
  cbn [fst]. rewrite H1, H2, H3, C1, C2, C3.
  split; [reflexivity|]. split; [reflexivity|]. split; [reflexivity|].
  split; [|split; [reflexivity|]; split; [reflexivity|]].
  - unfold SettingController.updateSettings. rewrite !run_getSettings.
    apply save_answer_shows_same.
    apply shows_same_truthy; [exact Se|]. apply shows_same_truthy; [exact Sn|].
    apply shows_same_secret_truthy. apply shows_same_truthy; [exact Su | exact Hs].
  - unfold SettingControllerChecked.updateSettings.
    cbn [put_merchantUPI with_body_secret].
    destruct (negb (Js.falsy_str (put_merchantUPI body))
              && negb (Regex.test upiRegex
                         (Js.trim (default "" (put_merchantUPI body)))));
      [reflexivity|].
    rewrite !copy_getSettings_exact.
    apply save_answer_shows_same.
    apply shows_same_defined; [exact Se|]. apply shows_same_defined; [exact Sn|].
    apply shows_same_secret_defined. apply shows_same_defined; [exact Su | exact Hc].
Qed.

(** ** The validation middleware *)

Lemma SFcompare_antisym (x y : spec_float) :
  SFcompare y x = option_map CompOpp (SFcompare x y).
Proof.
  destruct x as [sx | sx | | sx mx ex], y as [sy | sy | | sy my ey]; cbn;
    try reflexivity;
    try (destruct sx; reflexivity); try (destruct sy; reflexivity);
    try (destruct sx, sy; reflexivity).
  destruct sx, sy; cbn; try reflexivity;
    rewrite (Z.compare_antisym ey ex);
    destruct (Z.compare ey ex); cbn; try reflexivity;
    change (Pcompare my mx Eq) with (Pos.compare my mx);
    change (Pcompare mx my Eq) with (Pos.compare mx my);
    rewrite (Pos.compare_antisym my mx); destruct (Pos.compare my mx); reflexivity.
Qed.

Lemma SFcompare_NaN (a x : spec_float) :
  match SFcompare a x with
  | None => is_NaN a || is_NaN x = true
  | Some _ => is_NaN a = false /\ is_NaN x = false
  end.
Proof.
  destruct a as [sa | sa | | sa ma ea], x as [sx | sx | | sx mx ex]; cbn; auto.
Qed.

(** Above [a] is: not [NaN] and not at most [a]; at most [a] is: not
    [NaN] and not above [a]. *)
Lemma float_order (a x : Js.number) :
  is_NaN a = false ->
  (Js.ltb a x = true <-> is_NaN x || Js.leb x a = false)
  /\ (Js.leb x a = true <-> is_NaN x || Js.ltb a x = false).
Proof.
  intros Ha. unfold Js.leb, Js.ltb, SFleb, SFltb.
  rewrite (SFcompare_antisym a x).
  pose proof (SFcompare_NaN a x) as H.
  destruct (SFcompare a x) as [[| |]|]; cbn.
  - destruct H as [_ ->]. cbn. split; split; congruence.
  - destruct H as [_ ->]. cbn. split; split; congruence.
  - destruct H as [_ ->]. cbn. split; split; congruence.
  - rewrite Ha in H. cbn in H. rewrite H. cbn. split; split; congruence.
Qed.

Lemma of_Z_is_a_number : is_NaN (Js.of_Z 0) = false /\ is_NaN (Js.of_Z 100000) = false.
Proof. split; reflexivity. Qed.

(** What the middleware lets through. *)
Lemma validation_passes (body : PaymentBody) :
  validatePaymentRequest body = Next <->
  Js.falsy (pay_amount body) = false
  /\ Js.ltb (Js.of_Z 0) (Js.parseFloat (pay_amount body)) = true
  /\ Js.leb (Js.parseFloat (pay_amount body)) (Js.of_Z 100000) = true
  /\ Js.falsy_str (pay_payType body) = false
  /\ Js.includes ["phonepe"; "paytm"; "PhonePe"; "Paytm"]
       (default "" (pay_payType body)) = true
  /\ Js.falsy_str (pay_upi body) = false
  /\ Regex.test upiRegex (Js.trim (default "" (pay_upi body))) = true.
Proof.
  destruct of_Z_is_a_number as [N0 N1].
  destruct (float_order (Js.of_Z 0) (Js.parseFloat (pay_amount body)) N0) as [Hpos _].
  destruct (float_order (Js.of_Z 100000) (Js.parseFloat (pay_amount body)) N1)
    as [_ Hmax].
  rewrite Hpos, Hmax. clear Hpos Hmax.
  unfold validatePaymentRequest. cbv zeta.
  destruct (Js.falsy (pay_amount body)) eqn:F1;
    destruct (is_NaN (Js.parseFloat (pay_amount body))
              || Js.leb (Js.parseFloat (pay_amount body)) (Js.of_Z 0)) eqn:E1;
    destruct (Js.ltb (Js.of_Z 100000) (Js.parseFloat (pay_amount body))) eqn:E2;
    destruct (Js.falsy_str (pay_payType body)) eqn:F2;
    destruct (Js.includes ["phonepe"; "paytm"; "PhonePe"; "Paytm"]
                (default "" (pay_payType body))) eqn:I;
    destruct (Js.falsy_str (pay_upi body)) eqn:F3;
    destruct (Regex.test upiRegex (Js.trim (default "" (pay_upi body)))) eqn:R;
    cbn [app negb]; rewrite ?orb_true_r;
    (split;
     [ intros H; try discriminate H;
       apply orb_false_iff in E1 as [Hn _]; rewrite Hn; repeat split; reflexivity
     | intros (H1 & H2 & H3 & H4 & H5 & H6 & H7); try discriminate; reflexivity ]).
Qed.

Lemma above_limit_is_positive (x : Js.number) :
  Js.ltb (Js.of_Z 100000) x = true ->
  is_NaN x || Js.leb x (Js.of_Z 0) = false.
Proof.
  unfold Js.ltb, Js.leb, SFltb, SFleb.
  set (c := Js.of_Z 100000). vm_compute in c. subst c.
  set (z := Js.of_Z 0). vm_compute in z. subst z.
  destruct x as [s | s | | s m e]; cbn; try discriminate.
  - destruct s; [discriminate | reflexivity].
  - destruct s; [discriminate | reflexivity].
Qed.

Lemma falsy_str_default (v : option string) :
  Js.falsy_str v = false -> v = Some (default "" v).
Proof. destruct v; [reflexivity | discriminate]. Qed.

(** X22.  The validation middleware calls [next()] exactly when the
    amount is present and parses to a Number above zero and at most
    100000, the payment type is one of the four spellings it lists, and
    the address, once trimmed, matches the pattern of a receive address.
    Otherwise it answers 400 with one to three messages: no field gets
    more than one, since an amount above the limit is never also
    reported as not positive. *)
Theorem validation_lets_through_exactly (body : PaymentBody) :
  (validatePaymentRequest body = Next <->
   Js.falsy (pay_amount body) = false
   /\ Js.ltb (Js.of_Z 0) (Js.parseFloat (pay_amount body)) = true
   /\ Js.leb (Js.parseFloat (pay_amount body)) (Js.of_Z 100000) = true
   /\ (exists p, pay_payType body = Some p
                 /\ In p ["phonepe"; "paytm"; "PhonePe"; "Paytm"])
   /\ (exists u, pay_upi body = Some u
                 /\ Regex.test upiRegex (Js.trim u) = true))
  /\ (forall errors,
        validatePaymentRequest body = Refused errors ->
        (1 <= length errors <= 3)%nat).
Proof.
  split.
  - rewrite validation_passes. split.
    + intros (H1 & H2 & H3 & H4 & H5 & H6 & H7).
      split; [exact H1|]. split; [exact H2|]. split; [exact H3|]. split.
      * exists (default "" (pay_payType body)).
        split; [now apply falsy_str_default|].
        unfold Js.includes in H5. apply existsb_exists in H5 as (y & Hy & E).
        apply String.eqb_eq in E. now subst.
      * exists (default "" (pay_upi body)). split; [now apply falsy_str_default|].
        exact H7.
    + intros (H1 & H2 & H3 & (p & Hp & Hin) & (u & Hu & Hre)).
      split; [exact H1|]. split; [exact H2|]. split; [exact H3|].
      rewrite Hp, Hu. cbn [default from_option id].
      assert (Hpe : p <> "").
      { intros ->. cbn in Hin. intuition discriminate. }
      assert (Hue : u <> "").
      { intros ->. discriminate Hre. }
      rewrite !falsy_str_Some by assumption.
      split; [reflexivity|]. split; [|split; [reflexivity | exact Hre]].
      unfold Js.includes. apply existsb_exists. exists p.
      split; [exact Hin | apply String.eqb_refl].
  - intros errors. unfold validatePaymentRequest. cbv zeta.
    pose proof (above_limit_is_positive (Js.parseFloat (pay_amount body))) as Habove.
    destruct (Js.falsy (pay_amount body));
      destruct (is_NaN (Js.parseFloat (pay_amount body))
                || Js.leb (Js.parseFloat (pay_amount body)) (Js.of_Z 0));
      destruct (Js.ltb (Js.of_Z 100000) (Js.parseFloat (pay_amount body)));
      try (specialize (Habove eq_refl); discriminate Habove);
      destruct (Js.falsy_str (pay_payType body));
      destruct (Js.includes ["phonepe"; "paytm"; "PhonePe"; "Paytm"]
                  (default "" (pay_payType body)));
      destruct (Js.falsy_str (pay_upi body));
      destruct (Regex.test upiRegex (Js.trim (default "" (pay_upi body))));
      cbn [app negb]; intros H; try discriminate H;
      injection H as <-; cbn; lia.
Qed.

Lemma validation_lets_through_exactly_witness :
  validatePaymentRequest
    {| pay_amount := Js.Str (Sample.nbsp ++ "100000"); pay_payType := Some "PhonePe";
       pay_upi := Some (" till@okbank" ++ Sample.nbsp) |} = Next
  /\ (1 <= length ["Amount must be a positive number"; "UPI ID is required"] <= 3)%nat.
Proof.
  split.
  - apply (proj1 (validation_lets_through_exactly
                    {| pay_amount := Js.Str (Sample.nbsp ++ "100000");
                       pay_payType := Some "PhonePe";
                       pay_upi := Some (" till@okbank" ++ Sample.nbsp) |})).
    split; [reflexivity|]. split; [reflexivity|]. split; [reflexivity|]. split.
    + exists "PhonePe". split; [reflexivity|]. right. right. left. reflexivity.
    + exists (" till@okbank" ++ Sample.nbsp). split; reflexivity.
  - apply (proj2 (validation_lets_through_exactly
                    {| pay_amount := Js.Str "0"; pay_payType := Some "paytm";
                       pay_upi := None |})).
    reflexivity.
Defined.

Lemma listed_type_is_supported (p : string) :
  In p ["phonepe"; "paytm"; "PhonePe"; "Paytm"] ->
  Js.includes ["phonepe"; "paytm"] (Js.trim (Js.toLowerCase p)) = true.
Proof.
  intros [<- | [<- | [<- | [<- | []]]]]; reflexivity.
Qed.

(** X23.  What the validation middleware lets through, [createPayment]
    accepts.  A request that passes the middleware is never answered 400
    by the handler; with a receive address in the settings, identifiers
    that cast and a fresh transaction identifier it is answered 200, and
    the stored amount is the parsed one, above zero and at most
    100000. *)
Theorem validated_request_is_created (host : Host) (req : CreateRequest)
    (upi : option string) (w : World) :
  validatePaymentRequest (body_of req upi) = Next ->
  (exists r w',
     run (createPayment host req) w = (Returned r, w')
     /\ (res_status r = 200 \/ res_status r = 500))
  /\ (Js.trim (merchantUPI (current_settings w)) <> "" ->
      castable_ids req ->
      transactions w !! next_tid host w = None ->
      exists r w' tx,
        run (createPayment host req) w = (Returned r, w')
        /\ res_status r = 200
        /\ transactions w' !! next_tid host w = Some tx
        /\ amount tx = Js.parseFloat (create_amount req)
        /\ Js.ltb (Js.of_Z 0) (amount tx) = true
        /\ Js.leb (amount tx) (Js.of_Z 100000) = true).
Proof.
  intros Hnext. apply validation_passes in Hnext.
  destruct Hnext as (H1 & H2 & H3 & H4 & H5 & _). cbn in H1, H2, H3, H4, H5.
  assert (Hin : Js.includes ["phonepe"; "paytm"] (paymentType req) = true).
  { unfold paymentType. apply listed_type_is_supported.
    unfold Js.includes in H5. apply existsb_exists in H5 as (y & Hy & E).
    apply String.eqb_eq in E. now subst. }
  split.
  - rewrite (createPayment_reaches_save host req w H1 H4 Hin).
    destruct (handle _ (at_save w)) as [[|e] w2]; eexists _, _;
      (split; [reflexivity|]); auto.
  - intros Hupi Hids Hfresh.
    assert (Hacc : acceptable host req w).
    { split; [exact H2|]. split; [exact Hin|]. split; [exact Hupi|]. split; assumption. }
    destruct (createPayment_accepted host req w Hacc) as (w' & Hrun & Hl & _).
    exists (json 200 (built_response (built_for host req w))), w',
      (stamp_new (reading 2 w) (document_for host req w)).
    split; [exact Hrun|]. split; [reflexivity|]. split; [exact Hl|].
    split; [reflexivity|]. split; [exact H2 | exact H3].
Qed.

Lemma validated_request_is_created_witness :
  exists r w',
    run (createPayment Sample.host (Sample.create (Js.Str "250") "PhonePe"))
      (Sample.fresh 1700000000500 "k") = (Returned r, w')
    /\ (res_status r = 200 \/ res_status r = 500).
Proof.
  apply (proj1 (validated_request_is_created Sample.host
                  (Sample.create (Js.Str "250") "PhonePe") (Some "till@okbank")
                  (Sample.fresh 1700000000500 "k") eq_refl)).
Defined.

(** ** The provider reference and the redirect link *)

(** X24.  What each endpoint records as the provider reference when it
    settles a pending transaction (one that satisfies the schema): the
    webhook stores the [upi_ref] it is sent when there is one and leaves
    the stored reference alone when there is none; simulate stores [SIM]
    followed by the time in milliseconds it reads next after the
    completion time; verify never touches the reference.  The record is
    written so whatever becomes of the order; the answer is 200 when the
    order, if there is one, can be saved. *)
Theorem provider_reference_is_recorded (host : Host) (ep : Endpoint) (body : Body)
    (w : World) (t s : string) (tx : Transaction) :
  body_tid body = Some t -> t <> "" ->
  body_status body = Some s ->
  Js.includes Transaction_status_enum s = true ->
  transactions w !! t = Some tx -> tid tx = t ->
  status tx = "pending" -> schema_valid tx ->
  signature_ok host ep body tx = true ->
  exists r tx' w',
    run (resolve host ep body) w = (Returned r, w')
    /\ (ep = Simulate \/ order_admits s w tx -> r = applied_response ep t s tx)
    /\ transactions w' !! t = Some tx'
    /\ status tx' = s
    /\ upiRef tx'
       = match ep with
         | Verify => upiRef tx
         | Webhook =>
             if Js.falsy_str (body_upi_ref body) then upiRef tx else body_upi_ref body
         | Simulate => Some ("SIM" ++ toString10 host (Js.of_Z (reading 1 w)))
         end.
Proof.
  intros Htid Ht Hstatus Hin Hstored Hkey Hst Hv Hsig.
  assert (Hs : s <> "") by (now apply in_enum_not_empty).
  destruct (resolve_written host ep body w t s tx)
    as (r & tx' & w' & Hrun & (H1 & _) & Hup & Hmap & _ & _ & Hgood & _);
    try assumption.
  exists r, tx', w'. split; [exact Hrun|].
  split; [intros Hg; now destruct (Hgood Hg)|].
  split; [rewrite Hmap; apply lookup_insert_eq|]. split; [exact H1|].
  rewrite Hup. unfold reported.
  destruct ep; [reflexivity | | reflexivity].
  destruct (Js.falsy_str (body_upi_ref body)); reflexivity.
Qed.

Lemma provider_reference_is_recorded_witness :
  exists r tx' w',
    run (resolve Sample.host Webhook
           {| body_tid := Some "cwlp3k9x2a7f1"; body_status := Some "success";
              body_amount := Js.Str "250"; body_upi_ref := Some "UTR4417";
              body_signature := None |}) (Sample.world 1700000100000)
    = (Returned r, w')
    /\ r = webhook_ack
    /\ transactions w' !! "cwlp3k9x2a7f1" = Some tx'
    /\ status tx' = "success"
    /\ upiRef tx' = Some "UTR4417".
Proof.
  destruct (provider_reference_is_recorded Sample.host Webhook
           {| body_tid := Some "cwlp3k9x2a7f1"; body_status := Some "success";
              body_amount := Js.Str "250"; body_upi_ref := Some "UTR4417";
              body_signature := None |} (Sample.world 1700000100000)
           "cwlp3k9x2a7f1" "success" Sample.tx)
    as (r & tx' & w' & Hrun & Hr & Hl & Hs & Hu).
  - reflexivity.
  - discriminate.
  - reflexivity.
  - reflexivity.
  - apply lookup_singleton_eq.
  - reflexivity.
  - reflexivity.
  - reflexivity.
  - reflexivity.
  - exists r, tx', w'. split; [exact Hrun|]. split; [|auto].
    apply Hr. right. apply unlinked_admits. reflexivity.
Defined.


Lemma built_links (host : Host) (req : CreateRequest) (w : World) :
  exists ios android,
    lookup_field "redirect_url" (built_response (built_for host req w))
    = Some (FStr (built_redirectUrl (built_for host req w)))
    /\ lookup_field "ios_url" (built_response (built_for host req w))
       = Some (FStr ios)
    /\ lookup_field "android_url" (built_response (built_for host req w))
       = Some (FStr android)
    /\ built_redirectUrl (built_for host req w)
       = (if String.eqb (paymentType req) "phonepe" && isIOS req
          then ios else android)
    /\ (paymentType req <> "phonepe" ->
        exists query, android = "paytmmp://cash_wallet?" ++ query
                      /\ ios = "paytm://pay?" ++ query).
Proof.
  unfold built_for. destruct (String.eqb (paymentType req) "phonepe") eqn:E.
  - unfold build_phonepe. cbv zeta. cbn [built_response built_redirectUrl andb].
    eexists _, _. split; [reflexivity|]. split; [reflexivity|].
    split; [reflexivity|]. split; [reflexivity|].
    intros Hne. apply String.eqb_eq in E. contradiction.
  - unfold build_paytm. cbv zeta. cbn [built_response built_redirectUrl andb].
    eexists _, _. split; [reflexivity|]. split; [reflexivity|].
    split; [reflexivity|]. split; [reflexivity|].
    intros _. eexists. split; reflexivity.
Qed.

(** X25.  The link a client is sent to.  For PhonePe the redirect link
    is the iOS link when the user agent names an iPad, an iPhone or an
    iPod, and the Android link otherwise; for Paytm it is the Android
    link, [paytmmp://...], whatever the device.  The redirect link of
    the answer is the one stored with the transaction. *)
Theorem redirect_follows_device (host : Host) (req : CreateRequest) (w : World) :
  acceptable host req w ->
  exists r w' tx redirect ios android,
    run (createPayment host req) w = (Returned r, w')
    /\ transactions w' !! next_tid host w = Some tx
    /\ lookup_field "redirect_url" (res_body r) = Some (FStr redirect)
    /\ lookup_field "ios_url" (res_body r) = Some (FStr ios)
    /\ lookup_field "android_url" (res_body r) = Some (FStr android)
    /\ redirectUrl tx = redirect
    /\ redirect = (if String.eqb (paymentType req) "phonepe" && isIOS req
                   then ios else android)
    /\ (paymentType req <> "phonepe" ->
        exists query, android = "paytmmp://cash_wallet?" ++ query
                      /\ ios = "paytm://pay?" ++ query).
Proof.
  intros Hacc. destruct (createPayment_accepted host req w Hacc) as (w' & Hrun & Hl & _).
  destruct (built_links host req w) as (ios & android & H1 & H2 & H3 & H4 & H5).
  exists (json 200 (built_response (built_for host req w))), w',
    (stamp_new (reading 2 w) (document_for host req w)),
    (built_redirectUrl (built_for host req w)), ios, android.
  split; [exact Hrun|]. split; [exact Hl|]. split; [exact H1|].
  split; [exact H2|]. split; [exact H3|]. split; [reflexivity|].
  split; [exact H4 | exact H5].
Qed.

Lemma redirect_follows_device_witness :
  exists r w' tx redirect ios android,
    run (createPayment Sample.host
           {| create_amount := Js.Str "250"; create_payType := Some "paytm";
              create_orderId := None; create_userId := None;
              create_user_agent := Some "Mozilla/5.0 (iPhone; CPU iPhone OS 17_0)" |})
      (Sample.fresh 1700000000500 "k") = (Returned r, w')
    /\ transactions w' !! "cwloyw3vg4fr" = Some tx
    /\ lookup_field "redirect_url" (res_body r) = Some (FStr redirect)
    /\ lookup_field "ios_url" (res_body r) = Some (FStr ios)
    /\ lookup_field "android_url" (res_body r) = Some (FStr android)
    /\ redirectUrl tx = redirect
    /\ redirect = android.
Proof.
  destruct (redirect_follows_device Sample.host
              {| create_amount := Js.Str "250"; create_payType := Some "paytm";
                 create_orderId := None; create_userId := None;
                 create_user_agent := Some "Mozilla/5.0 (iPhone; CPU iPhone OS 17_0)" |}
              (Sample.fresh 1700000000500 "k"))
    as (r & w' & tx & redirect & ios & android & H1 & H2 & H3 & H4 & H5 & H6 & H7 & _).
  - split; [reflexivity|]. split; [reflexivity|].
    split; [vm_compute; discriminate|]. split; [split; reflexivity|].
    apply lookup_empty.
  - exists r, w', tx, redirect, ios, android. repeat split; assumption.
Defined.

(** ** What a Resolve does not look at *)

(** X26.  The webhook never compares the amount it is sent with the
    amount of the record.  A webhook signed over its own [tid], [status]
    and [amount], whatever that amount is, settles a pending record (one
    that satisfies the schema) with the status it reports, and the
    amount of the record is what it was; it is acknowledged when the
    order of the record, if there is one, can be saved. *)
Theorem webhook_amount_is_not_compared (host : Host) (body : Body) (w : World)
    (t s : string) (tx : Transaction) :
  body_tid body = Some t -> t <> "" ->
  body_status body = Some s -> terminal_report s ->
  body_signature body
  = Some (createHmac_sha256_hex (MERCHANT_SECRET host)
            (t ++ s ++ template host (body_amount body))) ->
  transactions w !! t = Some tx -> tid tx = t ->
  status tx = "pending" -> schema_valid tx ->
  exists r tx' w',
    run (paymentWebhook host body) w = (Returned r, w')
    /\ (order_admits s w tx -> r = webhook_ack)
    /\ transactions w' !! t = Some tx'
    /\ status tx' = s /\ completedAt tx' = Some (clock w)
    /\ amount tx' = amount tx.
Proof.
  intros Htid Ht Hstatus Hterm Hsg Hstored Hkey Hst Hv.
  assert (Hin : Js.includes Transaction_status_enum s = true)
    by (destruct Hterm as [-> | [-> | ->]]; reflexivity).
  destruct (resolve_written host Webhook body w t s tx)
    as (r & tx' & w' & Hrun & (H1 & H2 & Hsame) & _ & Hmap & _ & _ & Hgood & _);
    try assumption.
  { now apply in_enum_not_empty. }
  { unfold signature_ok, signed_text. rewrite Htid, Hstatus, Hsg. cbn.
    apply orb_true_iff. right. apply String.eqb_refl. }
  exists r, tx', w'. split; [exact Hrun|].
  split; [intros Hadm; now destruct (Hgood (or_intror Hadm))|].
  split; [rewrite Hmap; apply lookup_insert_eq|].
  split; [exact H1|]. split; [exact H2|].
  now destruct Hsame as (_ & _ & _ & H & _).
Qed.

Lemma webhook_amount_is_not_compared_witness :
  exists r tx' w',
    run (paymentWebhook Sample.host
           {| body_tid := Some "cwlp3k9x2a7f1"; body_status := Some "success";
              body_amount := Js.Str "1"; body_upi_ref := None;
              body_signature :=
                Some (createHmac_sha256_hex (MERCHANT_SECRET Sample.host)
                        ("cwlp3k9x2a7f1" ++ "success"
                         ++ template Sample.host (Js.Str "1"))) |})
      (Sample.world 1700000100000) = (Returned r, w')
    /\ r = webhook_ack
    /\ transactions w' !! "cwlp3k9x2a7f1" = Some tx'
    /\ status tx' = "success" /\ completedAt tx' = Some 1700000100000
    /\ amount tx' = amount Sample.tx.
Proof.
  destruct (webhook_amount_is_not_compared Sample.host
           {| body_tid := Some "cwlp3k9x2a7f1"; body_status := Some "success";
              body_amount := Js.Str "1"; body_upi_ref := None;
              body_signature :=
                Some (createHmac_sha256_hex (MERCHANT_SECRET Sample.host)
                        ("cwlp3k9x2a7f1" ++ "success"
                         ++ template Sample.host (Js.Str "1"))) |}
           (Sample.world 1700000100000) "cwlp3k9x2a7f1" "success" Sample.tx)
    as (r & tx' & w' & Hrun & Hr & Hrest).
  - reflexivity.
  - discriminate.
  - reflexivity.
  - left. reflexivity.
  - reflexivity.
  - apply lookup_singleton_eq.
  - reflexivity.
  - reflexivity.
  - reflexivity.
  - exists r, tx', w'. split; [exact Hrun|]. split; [|exact Hrest].
    apply Hr. apply unlinked_admits. reflexivity.
Defined.

(** X27.  No Resolve looks at the expiry: the expiry binds only once a
    status request has seen it.  On a pending record (one that satisfies
    the schema) that is past its expiry, an unsigned Resolve that
    reports success, failed or expired is applied: the record is written
    with that status, and the answer is 200 when the order of the
    record, if there is one, can be saved.  Had a status request come
    first, the record would be expired and the same Resolve would change
    nothing, verify and simulate answering 400. *)
Theorem expiry_binds_once_observed (host : Host) (ep : Endpoint) (body : Body)
    (w : World) (t s : string) (tx : Transaction) :
  body_tid body = Some t -> t <> "" ->
  body_status body = Some s -> terminal_report s ->
  Js.falsy_str (body_signature body) = true ->
  transactions w !! t = Some tx -> tid tx = t ->
  status tx = "pending" -> schema_valid tx ->
  expires tx < clock w ->
  (exists r tx' w1,
     run (resolve host ep body) w = (Returned r, w1)
     /\ (ep = Simulate \/ order_admits s w tx ->
         r = applied_response ep t s tx /\ res_status r = 200)
     /\ transactions w1 !! t = Some tx' /\ status tx' = s)
  /\ (exists w2,
        run (checkPaymentStatus (Some t)) w
        = (Returned (status_response (set_status "expired" tx)), w2)
        /\ run (resolve host ep body) w2
           = (Returned (match ep with
                        | Webhook => webhook_ack
                        | _ => already "expired"
                        end), w2)
        /\ transactions w2 !! t = Some (lapsed (reading 1 w) tx)).
Proof.
  intros Htid Ht Hstatus Hterm Hnosig Hstored Hkey Hst Hv Hexp.
  assert (Hin : Js.includes Transaction_status_enum s = true)
    by (destruct Hterm as [-> | [-> | ->]]; reflexivity).
  assert (Hs : s <> "") by (now apply in_enum_not_empty).
  assert (Hsig : forall u, signature_ok host ep body u = true).
  { intros u. unfold signature_ok, signed_text. destruct ep; rewrite ?Hnosig;
      reflexivity. }
  split.
  - destruct (resolve_written host ep body w t s tx)
      as (r & tx' & w1 & Hrun & (H1 & _) & _ & Hmap & _ & _ & Hgood & _);
      try assumption.
    { apply Hsig. }
    exists r, tx', w1. split; [exact Hrun|]. split.
    + intros Hg. destruct (Hgood Hg) as [-> _]. split; [reflexivity|].
      destruct ep; reflexivity.
    + split; [rewrite Hmap; apply lookup_insert_eq | exact H1].
  - rewrite (checkPaymentStatus_expires w t tx Ht Hstored Hkey Hst Hexp
               (expired_valid tx Hv)).
    eexists. split; [reflexivity|].
    assert (Hl : forall w2,
               transactions w2
               = <[t := lapsed (reading 1 w) tx]> (transactions w) ->
               transactions w2 !! t = Some (lapsed (reading 1 w) tx))
      by (intros w2 ->; apply lookup_insert_eq).
    split; [|apply Hl; reflexivity].
    apply (resolve_non_pending host ep body _ t s (lapsed (reading 1 w) tx));
      try assumption; [apply Hl; reflexivity | apply Hsig | discriminate].
Qed.

Lemma expiry_binds_once_observed_witness :
  (exists r tx' w1,
     run (resolve Sample.host Verify (Sample.report "success" None))
       (Sample.world 1700000700000)
     = (Returned r, w1)
     /\ (Verify = Simulate \/ order_admits "success" (Sample.world 1700000700000) Sample.tx ->
         r = applied_response Verify "cwlp3k9x2a7f1" "success" Sample.tx
         /\ res_status r = 200)
     /\ transactions w1 !! "cwlp3k9x2a7f1" = Some tx' /\ status tx' = "success")
  /\ (exists w2,
        run (checkPaymentStatus (Some "cwlp3k9x2a7f1")) (Sample.world 1700000700000)
        = (Returned (status_response (set_status "expired" Sample.tx)), w2)
        /\ run (resolve Sample.host Verify (Sample.report "success" None)) w2
           = (Returned (already "expired"), w2)
        /\ transactions w2 !! "cwlp3k9x2a7f1"
           = Some (lapsed 1700000700000 Sample.tx)).
Proof.
  apply (expiry_binds_once_observed Sample.host Verify
           (Sample.report "success" None) (Sample.world 1700000700000)
           "cwlp3k9x2a7f1" "success" Sample.tx).
  - reflexivity.
  - discriminate.
  - reflexivity.
  - left. reflexivity.
  - reflexivity.
  - apply lookup_singleton_eq.
  - reflexivity.
  - reflexivity.
  - reflexivity.
  - cbn. lia.
Defined.

(** X28.  Nothing checks that the order of a transaction exists.  When a
    pending record (one that satisfies the schema) names an order the
    store does not hold, a Resolve with a status of the enum is applied
    and answered 200 all the same, and the orders are as they were. *)
Theorem missing_order_is_passed_over (host : Host) (ep : Endpoint) (body : Body)
    (w : World) (t s : string) (tx : Transaction) (id : ObjectId) :
  body_tid body = Some t -> t <> "" ->
  body_status body = Some s ->
  Js.includes Transaction_status_enum s = true ->
  transactions w !! t = Some tx -> tid tx = t ->
  status tx = "pending" -> schema_valid tx ->
  signature_ok host ep body tx = true ->
  orderId tx = Some id -> orders w !! id = None ->
  exists tx' w',
    run (resolve host ep body) w = (Returned (applied_response ep t s tx), w')
    /\ res_status (applied_response ep t s tx) = 200
    /\ transactions w' !! t = Some tx' /\ status tx' = s
    /\ orders w' = orders w.
Proof.
  intros Htid Ht Hstatus Hin Hstored Hkey Hst Hv Hsig Hoid Ho.
  assert (Hs : s <> "") by (now apply in_enum_not_empty).
  destruct (resolve_applied host ep body w t s tx)
    as (tx' & w' & Hrun & (H1 & _) & _ & Hmap & _ & _ & Hord); try assumption.
  { right. intros id' o Hid Hl. congruence. }
  exists tx', w'. split; [exact Hrun|]. split; [destruct ep; reflexivity|].
  split; [rewrite Hmap; apply lookup_insert_eq|]. split; [exact H1|].
  rewrite Hord. unfold orders_updated, orders_settled. rewrite Hoid, Ho.
  destruct ep; reflexivity.
Qed.


Lemma missing_order_is_passed_over_witness :
  let w := with_orders ∅ (Linked.world 1700000100000) in
  exists tx' w',
    run (resolve Sample.host Webhook (Sample.report "failed" None)) w
    = (Returned (applied_response Webhook "cwlp3k9x2a7f1" "failed" Linked.tx), w')
    /\ res_status (applied_response Webhook "cwlp3k9x2a7f1" "failed" Linked.tx) = 200
    /\ transactions w' !! "cwlp3k9x2a7f1" = Some tx' /\ status tx' = "failed"
    /\ orders w' = orders w.
Proof.
  cbv zeta.
  apply (missing_order_is_passed_over Sample.host Webhook
           (Sample.report "failed" None)
           (with_orders ∅ (Linked.world 1700000100000))
           "cwlp3k9x2a7f1" "failed" Linked.tx Linked.order_id).
  - reflexivity.
  - discriminate.
  - reflexivity.
  - reflexivity.
  - apply lookup_singleton_eq.
  - reflexivity.
  - reflexivity.
  - reflexivity.
  - reflexivity.
  - reflexivity.
  - apply lookup_empty.
Defined.
